(** * crosstache xfunction: vault and storage role reconciliation

    A shallow embedding of the decision logic of
    [xfunction/VaultRbacProcessor/vault_role_manager.py],
    [xfunction/StorageRoleManager/storage_role_manager.py] and
    [xfunction/function_app.py], with the properties of the specification
    stated and settled against it.

    Python [str] values are modelled as [string]; every identifier the
    program handles (GUIDs, resource paths, resource names) is ASCII text, and
    [str.lower] is modelled on that alphabet. *)

From Stdlib Require Import Bool Arith Lia List Ascii String.
Import ListNotations.
Open Scope string_scope.

(** ** Python string primitives *)

Module PyStr.

(** [s[:n]] *)
Fixpoint take (n : nat) (s : string) : string :=
  match n, s with
  | S k, String c r => String c (take k r)
  | _, _ => EmptyString
  end.

(** [s[n:]] *)
Fixpoint drop (n : nat) (s : string) : string :=
  match n, s with
  | S k, String _ r => drop k r
  | _, _ => s
  end.

(** [s[i:j]] for literal bounds [0 <= i <= j]. *)
Definition slice (i j : nat) (s : string) : string := take (j - i) (drop i s).

(** Keep the characters satisfying [f]. *)
Fixpoint keep (f : ascii -> bool) (s : string) : string :=
  match s with
  | EmptyString => EmptyString
  | String c r => if f c then String c (keep f r) else keep f r
  end.

Definition is_hyphen (c : ascii) : bool := Ascii.eqb c "-".

(** [s.replace('-', '')] *)
Definition remove_hyphens (s : string) : string :=
  keep (fun c => negb (is_hyphen c)) s.

Fixpoint forallb (f : ascii -> bool) (s : string) : bool :=
  match s with
  | EmptyString => true
  | String c r => f c && forallb f r
  end.

Definition no_hyphen (s : string) : bool := forallb (fun c => negb (is_hyphen c)) s.

Definition is_hex_digit (c : ascii) : bool :=
  let n := nat_of_ascii c in
  (Nat.leb 48 n && Nat.leb n 57) || (Nat.leb 97 n && Nat.leb n 102) ||
  (Nat.leb 65 n && Nat.leb n 70).

Definition all_hex (s : string) : bool := forallb is_hex_digit s.

(** Number of hexadecimal digits occurring in [s]. *)
Definition hex_digit_length (s : string) : nat := String.length (keep is_hex_digit s).

(** [c.lower()] on one ASCII character. *)
Definition lower_char (c : ascii) : ascii :=
  let n := nat_of_ascii c in
  if Nat.leb 65 n && Nat.leb n 90 then ascii_of_nat (n + 32) else c.

(** [s.lower()] *)
Fixpoint lower (s : string) : string :=
  match s with
  | EmptyString => EmptyString
  | String c r => String (lower_char c) (lower r)
  end.

(** [s.startswith(p)] *)
Fixpoint startswith (p s : string) : bool :=
  match p, s with
  | EmptyString, _ => true
  | String a p', String b s' => Ascii.eqb a b && startswith p' s'
  | String _ _, EmptyString => false
  end.

(** [p in s] *)
Fixpoint contains (p s : string) : bool :=
  startswith p s ||
  match s with
  | EmptyString => false
  | String _ r => contains p r
  end.

(** [s.split(sep)] for a one-character separator: [cur] holds the reversed
    characters of the field being read. *)
Fixpoint split_aux (sep : ascii) (cur : string) (s : string) : list string :=
  match s with
  | EmptyString => [cur]
  | String c r =>
      if Ascii.eqb c sep then cur :: split_aux sep EmptyString r
      else split_aux sep (cur ++ String c EmptyString) r
  end.

Definition split (sep : ascii) (s : string) : list string :=
  split_aux sep EmptyString s.

(** Truthiness of a [str]: the empty string is falsy. *)
Definition truthy (s : string) : bool :=
  match s with EmptyString => false | _ => true end.

End PyStr.

(** ** Python dictionaries with string keys

    Insertion-ordered association lists; [get] returns the first binding of
    the key and [set] overwrites it in place or appends a new one. *)

Module PyDict.

Definition t (V : Type) := list (string * V).

Fixpoint get {V} (d : t V) (k : string) : option V :=
  match d with
  | [] => None
  | (k', v) :: r => if String.eqb k' k then Some v else get r k
  end.

Fixpoint set {V} (d : t V) (k : string) (v : V) : t V :=
  match d with
  | [] => [(k, v)]
  | (k', v') :: r => if String.eqb k' k then (k, v) :: r else (k', v') :: set r k v
  end.

End PyDict.

(** ** The external collaborators

    The access-control provider, the resource inventory and the directory are
    services outside the repository.  The provider is modelled as a store of
    role assignments together with the history of the calls made to it; every
    answer that the repository cannot determine (whether a call is answered
    with an error, what the directory replies, which identifier [uuid.uuid4]
    draws) is read from an environment [Env], over which all results are
    quantified. *)

Module Azure.

(** Exceptions, carrying [str(ex)].  [HttpResponseError] is
    [azure.core.exceptions.HttpResponseError]; [OtherException] stands for
    any other subclass of [Exception]. *)
Inductive Exn : Type :=
| HttpResponseError (msg : string)
| OtherException (msg : string).

Record RoleAssignment : Type := {
  name : string;
  scope : string;
  role_definition_id : string;
  principal_id : string;
  principal_type : string
}.

(** Calls on [auth_client.role_assignments]. *)
Inductive Call : Type :=
| CallList (scope : string)
| CallCreate (scope role_assignment_name role_definition_id principal_id principal_type : string)
| CallDelete (scope role_assignment_name : string).

Record Event : Type := { call : Call; raised : option Exn }.

Definition is_create (c : Call) : bool :=
  match c with CallCreate _ _ _ _ _ => true | _ => false end.

Definition is_delete (c : Call) : bool :=
  match c with CallDelete _ _ => true | _ => false end.

Definition is_mutation (c : Call) : bool := is_create c || is_delete c.

Definition call_eqb (c d : Call) : bool :=
  match c, d with
  | CallList s, CallList s' => String.eqb s s'
  | CallCreate s n r p t, CallCreate s' n' r' p' t' =>
      String.eqb s s' && String.eqb n n' && String.eqb r r' && String.eqb p p' && String.eqb t t'
  | CallDelete s n, CallDelete s' n' => String.eqb s s' && String.eqb n n'
  | _, _ => false
  end.

(** A storage account as returned by [storage_accounts.list_by_resource_group];
    [account_tags] is [None] for an account without a tag map. *)
Record StorageAccount : Type := {
  account_id : string;
  account_name : string;
  account_tags : option (PyDict.t string)
}.

(** A [requests.get] reply: the status code and, when the body is a JSON
    object with a ['value'] array, the ['id'] of each of its entries. *)
Record Response : Type := {
  status_code : nat;
  json_value_ids : option (list string)
}.

(** The answer of [kv_client.vaults.get]. *)
Inductive VaultGet : Type :=
| VaultFound (vault_tags : option (PyDict.t string))
| VaultNotFound
| VaultGetError (msg : string).

Record Env : Type := {
  (** the error, if any, with which the provider answers a call, given the
      calls answered so far (newest first) *)
  fault : list Event -> Call -> option Exn;
  (** the [n]-th identifier drawn by [str(uuid.uuid4())] *)
  uuid4 : nat -> string;
  (** [uuid.UUID(value)] returns rather than raising [ValueError] *)
  uuid_UUID : string -> bool;
  (** [credential.get_token] returns rather than raising *)
  get_token : bool;
  (** [requests.get(url, headers)]; [None] when the request raises *)
  requests_get : string -> option Response;
  (** [storage_accounts.list_by_resource_group], by subscription and group;
      [None] when the enumeration raises *)
  list_by_resource_group : string -> string -> option (list StorageAccount);
  (** [kv_client.vaults.get], by subscription, group and vault name *)
  vaults_get : string -> string -> string -> VaultGet;
  (** the three [AZURE_*] variables are present in [os.environ] *)
  environ : bool
}.

(** [assignments] is the provider's store, [events] the calls it has answered
    (newest first), [uuid_draws] the number of identifiers drawn so far and
    [warnings] the messages of the [logging.warning] calls of the creator
    check (newest first; the other log lines do not influence control flow and
    are left out). *)
Record World : Type := {
  assignments : list RoleAssignment;
  events : list Event;
  uuid_draws : nat;
  warnings : list string
}.

(** Computations that read and update the world and may raise. *)
Definition M (A : Type) : Type := World -> (Exn + A) * World.

Definition ret {A} (a : A) : M A := fun w => (inr a, w).

Definition raise {A} (e : Exn) : M A := fun w => (inl e, w).

Definition bind {A B} (c : M A) (k : A -> M B) : M B :=
  fun w =>
    match c w with
    | (inl e, w') => (inl e, w')
    | (inr a, w') => k a w'
    end.

(** [try: c  except Exception: pass] *)
Definition try_pass (c : M unit) : M unit :=
  fun w => (inr tt, snd (c w)).

(** [try: c  except Exception as ex: return h(ex)] for a body that returns. *)
Definition try_return {A} (c : M A) (h : Exn -> A) : World -> A * World :=
  fun w =>
    match c w with
    | (inl e, w') => (h e, w')
    | (inr a, w') => (a, w')
    end.

Definition lift {A} (c : World -> A * World) : M A :=
  fun w => let (a, w') := c w in (inr a, w').

Definition record (c : Call) (r : option Exn) (w : World) : World :=
  {| assignments := assignments w;
     events := {| call := c; raised := r |} :: events w;
     uuid_draws := uuid_draws w;
     warnings := warnings w |}.

Definition at_scope (s : string) (a : RoleAssignment) : bool := String.eqb (scope a) s.

Definition named (s n : string) (a : RoleAssignment) : bool :=
  String.eqb (scope a) s && String.eqb (name a) n.

(** [role_assignments.list_for_scope(scope=s, filter="atScope()")] *)
Definition role_assignments_list_for_scope (env : Env) (s : string)
  : M (list RoleAssignment) :=
  fun w =>
    match fault env (events w) (CallList s) with
    | Some e => (inl e, record (CallList s) (Some e) w)
    | None => (inr (filter (at_scope s) (assignments w)), record (CallList s) None w)
    end.

(** [role_assignments.create(scope, role_assignment_name, parameters)] *)
Definition role_assignments_create (env : Env) (s n role principal ptype : string)
  : M RoleAssignment :=
  fun w =>
    let c := CallCreate s n role principal ptype in
    match fault env (events w) c with
    | Some e => (inl e, record c (Some e) w)
    | None =>
        let a := {| name := n; scope := s; role_definition_id := role;
                    principal_id := principal; principal_type := ptype |} in
        (inr a, {| assignments := assignments w ++ [a];
                   events := {| call := c; raised := None |} :: events w;
                   uuid_draws := uuid_draws w;
                   warnings := warnings w |})
    end.

(** [role_assignments.delete(scope, role_assignment_name)] *)
Definition role_assignments_delete (env : Env) (s n : string) : M unit :=
  fun w =>
    let c := CallDelete s n in
    match fault env (events w) c with
    | Some e => (inl e, record c (Some e) w)
    | None =>
        (inr tt, {| assignments := filter (fun a => negb (named s n a)) (assignments w);
                    events := {| call := c; raised := None |} :: events w;
                    uuid_draws := uuid_draws w;
                    warnings := warnings w |})
    end.

(** [str(uuid.uuid4())] *)
Definition uuid_uuid4 (env : Env) : M string :=
  fun w =>
    (inr (uuid4 env (uuid_draws w)),
     {| assignments := assignments w; events := events w;
        uuid_draws := S (uuid_draws w); warnings := warnings w |}).

(** [logging.warning(msg)] *)
Definition logging_warning (msg : string) : M unit :=
  fun w =>
    (inr tt,
     {| assignments := assignments w; events := events w;
        uuid_draws := uuid_draws w; warnings := msg :: warnings w |}).

(** The calls answered between world [w] and a later world [w'], newest first. *)
Definition events_since (w w' : World) : list Event :=
  firstn (List.length (events w') - List.length (events w)) (events w').

(** [seq[i]], raising [IndexError] out of range. *)
Definition index {A} (l : list A) (i : nat) : M A :=
  match nth_error l i with
  | Some a => ret a
  | None => raise (OtherException "list index out of range")
  end.

End Azure.

Notation "x <- c ;; k" := (Azure.bind c (fun x => k))
  (at level 61, c at next level, right associativity).

(** ** [VaultRbacProcessor/vault_role_manager.py] *)

Module VaultRoleManager.

Import Azure.

Definition owner_role_id : string := "8e3af657-a8ff-443c-a75c-2fe8c4bcb635".
Definition admin_role_id : string := "00482a5a-887f-4fb3-b363-3b7fe8e74483".

(** [_is_guid]: [uuid.UUID(value)] belongs to the Python standard library and
    is read from the environment. *)
Definition _is_guid (env : Env) (value : string) : bool := uuid_UUID env value.

(** [_normalize_guid] *)
Definition _normalize_guid (guid_str : string) : string :=
  if negb (PyStr.truthy guid_str) then guid_str
  else
    let guid_str := PyStr.remove_hyphens guid_str in
    if Nat.eqb (String.length guid_str) 32 then
      PyStr.slice 0 8 guid_str ++ "-" ++ PyStr.slice 8 12 guid_str ++ "-" ++
      PyStr.slice 12 16 guid_str ++ "-" ++ PyStr.slice 16 20 guid_str ++ "-" ++
      PyStr.slice 20 32 guid_str
    else guid_str.

(** [get_principal_id_for_user]: every exception is caught and gives [None]. *)
Definition get_principal_id_for_user (env : Env) (user_upn : string) : option string :=
  if negb (get_token env) then None
  else
    let url := "https://graph.microsoft.com/v1.0/users?$filter=userPrincipalName eq '"
               ++ user_upn ++ "'" in
    match requests_get env url with
    | None => None
    | Some response =>
        if Nat.eqb (status_code response) 200 then
          match json_value_ids response with
          | Some (user_id :: _) => Some user_id
          | _ => None
          end
        else None
    end.

(** [_detect_principal_type]: the three probes in their fixed order; any
    exception gives the default. *)
Definition _detect_principal_type (env : Env) (principal_id : string) : string :=
  let principal_type := "ServicePrincipal" in
  if negb (get_token env) then "ServicePrincipal"
  else
    match requests_get env ("https://graph.microsoft.com/v1.0/users/" ++ principal_id) with
    | None => "ServicePrincipal"
    | Some r1 =>
        if Nat.eqb (status_code r1) 200 then "User"
        else
          match requests_get env
                  ("https://graph.microsoft.com/v1.0/servicePrincipals/" ++ principal_id) with
          | None => "ServicePrincipal"
          | Some r2 =>
              if Nat.eqb (status_code r2) 200 then "ServicePrincipal"
              else
                match requests_get env
                        ("https://graph.microsoft.com/v1.0/groups/" ++ principal_id) with
                | None => "ServicePrincipal"
                | Some r3 =>
                    if Nat.eqb (status_code r3) 200 then "Group" else principal_type
                end
          end
    end.

(** The three variables updated by the loop over the listed assignments. *)
Record Scan : Type := {
  role_already_assigned : bool;
  has_owner_role : bool;
  redundant_assignments : list RoleAssignment
}.

(** One iteration of [for assignment in assignments]. *)
Definition scan_step (role_definition_id0 principal_id0 : string) (is_owner_role : bool)
    (st : Scan) (assignment : RoleAssignment) : Scan :=
  if String.eqb (principal_id assignment) principal_id0 then
    let st :=
      if PyStr.contains owner_role_id (role_definition_id assignment) then
        {| role_already_assigned := role_already_assigned st;
           has_owner_role := true;
           redundant_assignments := redundant_assignments st |}
      else st in
    if String.eqb (role_definition_id assignment) role_definition_id0 then
      {| role_already_assigned := true;
         has_owner_role := has_owner_role st;
         redundant_assignments := redundant_assignments st |}
    else if is_owner_role then
      {| role_already_assigned := role_already_assigned st;
         has_owner_role := has_owner_role st;
         redundant_assignments := redundant_assignments st ++ [assignment] |}
    else st
  else st.

Definition scan (role_definition_id0 principal_id0 : string) (is_owner_role : bool)
    (assignments : list RoleAssignment) : Scan :=
  fold_left (scan_step role_definition_id0 principal_id0 is_owner_role) assignments
    {| role_already_assigned := false; has_owner_role := false;
       redundant_assignments := [] |}.

(** [for assignment in redundant_assignments: try: delete(...) except Exception: warn] *)
Fixpoint remove_redundant (env : Env) (vault_resource_id : string)
    (redundant : list RoleAssignment) : M unit :=
  match redundant with
  | [] => ret tt
  | assignment :: rest =>
      _ <- try_pass (role_assignments_delete env vault_resource_id (name assignment)) ;;
      remove_redundant env vault_resource_id rest
  end.

(** The [try] block of [assign_role_to_user]. *)
Definition assign_role_to_user_try (env : Env)
    (vault_resource_id role_definition_id0 principal_id0 : string) : M bool :=
  _subscription_id <- index (PyStr.split "/" vault_resource_id) 2 ;;
  let resolved :=
    if negb (_is_guid env principal_id0) then
      match get_principal_id_for_user env principal_id0 with
      | Some object_id => if PyStr.truthy object_id then Some object_id else None
      | None => None
      end
    else Some principal_id0 in
  match resolved with
  | None => ret false
  | Some principal_id1 =>
      let principal_id1 := _normalize_guid principal_id1 in
      let is_owner_role := PyStr.contains owner_role_id role_definition_id0 in
      let is_admin_role := PyStr.contains admin_role_id role_definition_id0 in
      assignments <- role_assignments_list_for_scope env vault_resource_id ;;
      let st := scan role_definition_id0 principal_id1 is_owner_role assignments in
      if negb is_owner_role && has_owner_role st && negb is_admin_role then ret true
      else if role_already_assigned st then
        _ <- (if is_owner_role then remove_redundant env vault_resource_id
                                      (redundant_assignments st)
              else ret tt) ;;
        ret true
      else
        role_assignment_name <- uuid_uuid4 env ;;
        let principal_type1 := _detect_principal_type env principal_id1 in
        _result <- role_assignments_create env vault_resource_id role_assignment_name
                     role_definition_id0 principal_id1 principal_type1 ;;
        _ <- (if is_owner_role then remove_redundant env vault_resource_id
                                      (redundant_assignments st)
              else ret tt) ;;
        ret true
  end.

(** The two [except] clauses shared by both reconcilers. *)
Definition on_exception (ex : Exn) : bool :=
  match ex with
  | HttpResponseError msg =>
      if PyStr.contains "already exists" msg then true
      else if PyStr.contains "PrincipalNotFound" msg then true
      else false
  | OtherException _ => false
  end.

(** [assign_role_to_user] *)
Definition assign_role_to_user (env : Env)
    (vault_resource_id role_definition_id0 principal_id0 : string) : World -> bool * World :=
  try_return (assign_role_to_user_try env vault_resource_id role_definition_id0 principal_id0)
    on_exception.

(** The dictionary built by [get_vault_info]; only its ['tags'] entry is read
    by the caller. *)
Record VaultInfo : Type := { tags : PyDict.t string }.

(** [get_vault_info]: [None] on a malformed identifier, a missing vault or
    any other error. *)
Definition get_vault_info (env : Env) (vault_resource_id : string) : option VaultInfo :=
  let parts := PyStr.split "/" vault_resource_id in
  match nth_error parts 2, nth_error parts 4, nth_error parts 6, nth_error parts 7,
        nth_error parts 8 with
  | Some subscription_id, Some resource_group, Some p6, Some p7, Some vault_name =>
      if negb (String.eqb p6 "Microsoft.KeyVault") || negb (String.eqb p7 "vaults") then None
      else
        match vaults_get env subscription_id resource_group vault_name with
        | VaultFound (Some t) => Some {| tags := t |}
        | VaultFound None => Some {| tags := [] |}
        | VaultNotFound => None
        | VaultGetError _ => None
        end
  | _, _, _, _, _ => None
  end.

(** A role definition as listed by [auth_client.role_definitions.list]. *)
Record RoleDefinition : Type := {
  role_definition_resource_id : string;
  role_name : string
}.

(** [create_or_get_custom_role]: [role_definitions_list] is the answer of
    [auth_client.role_definitions.list(scope=...)], [None] when it raises;
    every exception is caught and gives [None]. *)
Definition create_or_get_custom_role
    (role_definitions_list : string -> option (list RoleDefinition))
    (vault_resource_id role_name0 : string) : option string :=
  match nth_error (PyStr.split "/" vault_resource_id) 2 with
  | None => None
  | Some subscription_id =>
      match role_definitions_list vault_resource_id with
      | None => None
      | Some role_definitions =>
          match find (fun role_def => String.eqb (role_name role_def) role_name0)
                  role_definitions with
          | Some role_def => Some (role_definition_resource_id role_def)
          | None =>
              let built_in_role_id :=
                "/subscriptions/" ++ subscription_id ++
                "/providers/Microsoft.Authorization/roleDefinitions/" ++ owner_role_id in
              Some built_in_role_id
          end
      end
  end.

End VaultRoleManager.
(** ** [StorageRoleManager/storage_role_manager.py] *)

Module StorageRoleManager.

Import Azure.

Definition STORAGE_ACCOUNT_CONTRIBUTOR_ROLE_ID : string :=
  "17d1049b-9a84-46fb-8f53-869881c3d3ab".
Definition STORAGE_BLOB_DATA_OWNER_ROLE_ID : string :=
  "b7e6dc6d-f1e8-4753-8033-0f276bb0955c".
Definition STORAGE_BLOB_DATA_CONTRIBUTOR_ROLE_ID : string :=
  "ba92f5b4-2d11-453d-a403-e96b0029c9fe".

Definition owner_role_id : string := "8e3af657-a8ff-443c-a75c-2fe8c4bcb635".
Definition admin_role_id : string := "00482a5a-887f-4fb3-b363-3b7fe8e74483".

(** The four patterns of [_matches_naming_convention], from the lowered
    vault name. *)
Definition patterns (vault_lower : string) : list string :=
  [ vault_lower ++ "storage";
    vault_lower ++ "stor";
    "stor" ++ vault_lower;
    vault_lower ++ "st" ].

(** [_matches_naming_convention] *)
Definition _matches_naming_convention (storage_name vault_name : string) : bool :=
  let storage_lower := PyStr.lower storage_name in
  let vault_lower := PyStr.lower vault_name in
  existsb (fun pattern => PyStr.contains pattern storage_lower) (patterns vault_lower).

(** [account.tags and account.tags.get('AssociatedVault') == vault_name] *)
Definition tag_matches (account : StorageAccount) (vault_name : string) : bool :=
  match account_tags account with
  | None => false
  | Some [] => false
  | Some t =>
      match PyDict.get t "AssociatedVault" with
      | Some v => String.eqb v vault_name
      | None => false
      end
  end.

(** The body of [for account in accounts_in_rg]: both strategies append the
    account and continue. *)
Definition associated (vault_name : string) (account : StorageAccount) : bool :=
  if tag_matches account vault_name then true
  else _matches_naming_convention (account_name account) vault_name.

(** [discover_associated_storage_accounts] *)
Definition discover_associated_storage_accounts (env : Env) (vault_resource_id : string)
  : list string :=
  let parts := PyStr.split "/" vault_resource_id in
  match nth_error parts 2, nth_error parts 4, nth_error parts 6, nth_error parts 7,
        nth_error parts 8 with
  | Some subscription_id, Some resource_group, Some p6, Some p7, Some vault_name =>
      if negb (String.eqb p6 "Microsoft.KeyVault") || negb (String.eqb p7 "vaults") then []
      else
        match list_by_resource_group env subscription_id resource_group with
        | None => []
        | Some accounts_in_rg =>
            let storage_accounts :=
              map account_id (filter (associated vault_name) accounts_in_rg) in
            match storage_accounts, accounts_in_rg with
            | [], _ :: _ => map account_id accounts_in_rg
            | _, _ => storage_accounts
            end
        end
  | _, _, _, _, _ => []
  end.

(** [get_storage_role_assignments_for_vault_role] *)
Definition get_storage_role_assignments_for_vault_role (vault_role_id : string)
  : list string :=
  if PyStr.contains owner_role_id vault_role_id then
    [STORAGE_ACCOUNT_CONTRIBUTOR_ROLE_ID; STORAGE_BLOB_DATA_OWNER_ROLE_ID]
  else if PyStr.contains admin_role_id vault_role_id then
    [STORAGE_BLOB_DATA_CONTRIBUTOR_ROLE_ID]
  else [].

Definition _is_guid (env : Env) (value : string) : bool := uuid_UUID env value.

(** [_normalize_guid] *)
Definition _normalize_guid (guid_str : string) : string :=
  if negb (PyStr.truthy guid_str) then guid_str
  else
    let guid_str := PyStr.remove_hyphens guid_str in
    if Nat.eqb (String.length guid_str) 32 then
      PyStr.slice 0 8 guid_str ++ "-" ++ PyStr.slice 8 12 guid_str ++ "-" ++
      PyStr.slice 12 16 guid_str ++ "-" ++ PyStr.slice 16 20 guid_str ++ "-" ++
      PyStr.slice 20 32 guid_str
    else guid_str.

(** [get_principal_id_for_user] *)
Definition get_principal_id_for_user (env : Env) (user_upn : string) : option string :=
  if negb (get_token env) then None
  else
    let url := "https://graph.microsoft.com/v1.0/users?$filter=userPrincipalName eq '"
               ++ user_upn ++ "'" in
    match requests_get env url with
    | None => None
    | Some response =>
        if Nat.eqb (status_code response) 200 then
          match json_value_ids response with
          | Some (user_id :: _) => Some user_id
          | _ => None
          end
        else None
    end.

(** [_detect_principal_type] *)
Definition _detect_principal_type (env : Env) (principal_id : string) : string :=
  if negb (get_token env) then "ServicePrincipal"
  else
    match requests_get env ("https://graph.microsoft.com/v1.0/users/" ++ principal_id) with
    | None => "ServicePrincipal"
    | Some r1 =>
        if Nat.eqb (status_code r1) 200 then "User"
        else
          match requests_get env
                  ("https://graph.microsoft.com/v1.0/servicePrincipals/" ++ principal_id) with
          | None => "ServicePrincipal"
          | Some r2 =>
              if Nat.eqb (status_code r2) 200 then "ServicePrincipal"
              else
                match requests_get env
                        ("https://graph.microsoft.com/v1.0/groups/" ++ principal_id) with
                | None => "ServicePrincipal"
                | Some r3 =>
                    if Nat.eqb (status_code r3) 200 then "Group" else "ServicePrincipal"
                end
          end
    end.

(** The [try] block of [_assign_role_to_storage_account]. *)
Definition _assign_role_to_storage_account_try (env : Env)
    (storage_resource_id role_definition_id0 principal_id0 role_id : string) : M bool :=
  _subscription_id <- index (PyStr.split "/" storage_resource_id) 2 ;;
  let resolved :=
    if negb (_is_guid env principal_id0) then
      match get_principal_id_for_user env principal_id0 with
      | Some object_id => if PyStr.truthy object_id then Some object_id else None
      | None => None
      end
    else Some principal_id0 in
  match resolved with
  | None => ret false
  | Some principal_id1 =>
      let principal_id1 := _normalize_guid principal_id1 in
      assignments <- role_assignments_list_for_scope env storage_resource_id ;;
      if existsb (fun assignment =>
                    String.eqb (principal_id assignment) principal_id1 &&
                    String.eqb (role_definition_id assignment) role_definition_id0)
           assignments
      then ret true
      else
        let principal_type1 := _detect_principal_type env principal_id1 in
        role_assignment_name <- uuid_uuid4 env ;;
        _result <- role_assignments_create env storage_resource_id role_assignment_name
                     role_definition_id0 principal_id1 principal_type1 ;;
        ret true
  end.

(** [_assign_role_to_storage_account]: the same two [except] clauses as the
    vault reconciler. *)
Definition _assign_role_to_storage_account (env : Env)
    (storage_resource_id role_definition_id0 principal_id0 role_id : string)
  : World -> bool * World :=
  try_return
    (_assign_role_to_storage_account_try env storage_resource_id role_definition_id0
       principal_id0 role_id)
    VaultRoleManager.on_exception.

(** [storage_resource_id.split('/')[-1]] *)
Definition last_segment (storage_resource_id : string) : string :=
  last (PyStr.split "/" storage_resource_id) "".

(** [for role_id in storage_role_ids] for one storage account. *)
Fixpoint assign_roles_of_account (env : Env) (storage_resource_id storage_name
    subscription_id principal_id0 : string) (storage_role_ids : list string)
    (results : PyDict.t (PyDict.t bool)) : M (PyDict.t (PyDict.t bool)) :=
  match storage_role_ids with
  | [] => ret results
  | role_id :: rest =>
      let role_definition_id0 :=
        "/subscriptions/" ++ subscription_id ++
        "/providers/Microsoft.Authorization/roleDefinitions/" ++ role_id in
      success <- lift (_assign_role_to_storage_account env storage_resource_id
                         role_definition_id0 principal_id0 role_id) ;;
      let inner := match PyDict.get results storage_name with
                   | Some d => d
                   | None => []
                   end in
      assign_roles_of_account env storage_resource_id storage_name subscription_id
        principal_id0 rest
        (PyDict.set results storage_name (PyDict.set inner role_id success))
  end.

(** [for storage_resource_id in storage_resource_ids] *)
Fixpoint assign_accounts (env : Env) (storage_resource_ids storage_role_ids : list string)
    (principal_id0 : string) (results : PyDict.t (PyDict.t bool))
  : M (PyDict.t (PyDict.t bool)) :=
  match storage_resource_ids with
  | [] => ret results
  | storage_resource_id :: rest =>
      let storage_name := last_segment storage_resource_id in
      let results := PyDict.set results storage_name [] in
      subscription_id <- index (PyStr.split "/" storage_resource_id) 2 ;;
      results <- assign_roles_of_account env storage_resource_id storage_name
                   subscription_id principal_id0 storage_role_ids results ;;
      assign_accounts env rest storage_role_ids principal_id0 results
  end.

(** [assign_storage_roles_to_user] *)
Definition assign_storage_roles_to_user (env : Env) (storage_resource_ids : list string)
    (vault_role_definition_id principal_id0 : string) : M (PyDict.t (PyDict.t bool)) :=
  match storage_resource_ids with
  | [] => ret []
  | _ =>
      match get_storage_role_assignments_for_vault_role vault_role_definition_id with
      | [] => ret []
      | storage_role_ids =>
          assign_accounts env storage_resource_ids storage_role_ids principal_id0 []
      end
  end.

End StorageRoleManager.
(** ** [function_app.py] *)

Module FunctionApp.

Import Azure.

(** Calling an [async def] function does not run it: the call evaluates to a
    coroutine object, and the body runs when that object is awaited. *)
Inductive Coroutine (A : Type) : Type :=
| coroutine (run : unit -> A).

Arguments coroutine {A} run.

Definition await {A} (c : Coroutine A) : A :=
  match c with coroutine run => run tt end.

(** The values the variable [vault_info] can hold. *)
Inductive PyObject : Type :=
| PyNone
| PyDictObject (d : VaultRoleManager.VaultInfo)
| PyCoroutine (c : Coroutine (option VaultRoleManager.VaultInfo)).

(** [not obj] is false for a coroutine object and for the dictionary that
    [get_vault_info] builds, which is never empty. *)
Definition truthy (obj : PyObject) : bool :=
  match obj with
  | PyNone => false
  | PyDictObject _ => true
  | PyCoroutine _ => true
  end.

(** [isinstance(obj, dict)] *)
Definition isinstance_dict (obj : PyObject) : bool :=
  match obj with
  | PyDictObject _ => true
  | _ => false
  end.

(** The claims of a decoded bearer token: whether an ['exp'] claim is present
    and already past, and the ['oid'] and ['sub'] claims. *)
Record Token : Type := {
  expired : bool;
  oid : option string;
  sub : option string
}.

(** The inbound request: the [Authorization] header, the outcome of
    [jwt.decode] on its token ([None] when it raises) and the outcome of
    [req.get_json()] ([None] when it raises [ValueError]). *)
Record Request : Type := {
  Authorization : option string;
  jwt_decode : option Token;
  get_json : option (PyDict.t string)
}.

Inductive JsonValue : Type :=
| JNull
| JString (s : string)
| JBool (b : bool).

Record StorageReport : Type := {
  discovered : nat;
  storage_assignments : PyDict.t (PyDict.t bool);
  storage_report_success : bool
}.

Inductive Body : Type :=
| ErrorBody (error : string)
| UnauthorizedBody (error userId creatorId : string)
| ResultBody (success ownerRoleAssigned adminRoleAssigned : bool)
    (resourceUri userId : string) (isCreator : JsonValue)
    (storageAccounts : StorageReport).

Record HttpResponse : Type := { status : nat; body : Body }.

Definition role_definition (subscription_id role_id : string) : string :=
  "/subscriptions/" ++ subscription_id ++
  "/providers/Microsoft.Authorization/roleDefinitions/" ++ role_id.

(** [creator_id and creator_id.lower() == user_id.lower()] *)
Definition is_creator (creator_id : option string) (user_id : string) : JsonValue :=
  match creator_id with
  | None => JNull
  | Some c =>
      if PyStr.truthy c then JBool (String.eqb (PyStr.lower c) (PyStr.lower user_id))
      else JString c
  end.

(** The two nested loops computing [storage_success]. *)
Definition all_succeeded (storage_results : PyDict.t (PyDict.t bool)) : bool :=
  forallb (fun entry => forallb (fun role => snd role) (snd entry)) storage_results.

(** The function from the role assignments on, once the creator check has
    let the request through. *)
Definition assign_and_respond (env : Env) (resource_uri subscription_id user_id : string)
    (creator_id : option string) : M HttpResponse :=
  let owner_role_id := "8e3af657-a8ff-443c-a75c-2fe8c4bcb635" in
  let admin_role_id := "00482a5a-887f-4fb3-b363-3b7fe8e74483" in
  let owner_role_definition_id := role_definition subscription_id owner_role_id in
  let admin_role_definition_id := role_definition subscription_id admin_role_id in
  owner_success <-
    lift (await (coroutine (fun _ =>
      VaultRoleManager.assign_role_to_user env resource_uri owner_role_definition_id
        user_id))) ;;
  admin_success <-
    lift (await (coroutine (fun _ =>
      VaultRoleManager.assign_role_to_user env resource_uri admin_role_definition_id
        user_id))) ;;
  let storage_accounts :=
    await (coroutine (fun _ =>
      StorageRoleManager.discover_associated_storage_accounts env resource_uri)) in
  storage_results <-
    match storage_accounts with
    | [] => ret []
    | _ =>
        if owner_success then
          await (coroutine (fun _ =>
            StorageRoleManager.assign_storage_roles_to_user env storage_accounts
              owner_role_definition_id user_id))
        else if admin_success then
          await (coroutine (fun _ =>
            StorageRoleManager.assign_storage_roles_to_user env storage_accounts
              admin_role_definition_id user_id))
        else ret []
    end ;;
  let storage_success :=
    match storage_accounts with
    | [] => true
    | _ => all_succeeded storage_results
    end in
  let response :=
    ResultBody (owner_success && admin_success && storage_success)
      owner_success admin_success resource_uri user_id
      (is_creator creator_id user_id)
      {| discovered := List.length storage_accounts;
         storage_assignments := storage_results;
         storage_report_success := storage_success |} in
  if owner_success && admin_success && storage_success
  then ret {| status := 200; body := response |}
  else ret {| status := 500; body := response |}.

(** The function from the construction of the two managers on. *)
Definition process (env : Env) (resource_uri subscription_id user_id : string)
  : M HttpResponse :=
  if negb (environ env) then raise (OtherException "'AZURE_TENANT_ID'")
  else
    (* [vault_manager.get_vault_info(resource_uri)]: the call is not awaited *)
    let vault_info :=
      PyCoroutine (coroutine (fun _ =>
        VaultRoleManager.get_vault_info env resource_uri)) in
    if negb (truthy vault_info) then
      ret {| status := 404; body := ErrorBody "Could not retrieve vault information" |}
    else
      let vault_tags :=
        if isinstance_dict vault_info then
          match vault_info with
          | PyDictObject d => VaultRoleManager.tags d
          | _ => []
          end
        else [] in
      let creator_id := PyDict.get vault_tags "CreatedByID" in
      match creator_id with
      | None =>
          _ <- logging_warning
                 "Vault does not have CreatedByID tag, cannot verify creator" ;;
          assign_and_respond env resource_uri subscription_id user_id creator_id
      | Some c =>
          if negb (PyStr.truthy c) then
            _ <- logging_warning
                   "Vault does not have CreatedByID tag, cannot verify creator" ;;
            assign_and_respond env resource_uri subscription_id user_id creator_id
          else if negb (String.eqb (PyStr.lower c) (PyStr.lower user_id)) then
            ret {| status := 403;
                   body := UnauthorizedBody
                             "Unauthorized: Only the creator of the vault can assign roles"
                             user_id c |}
          else assign_and_respond env resource_uri subscription_id user_id creator_id
      end.

Definition error (code : nat) (msg : string) : HttpResponse :=
  {| status := code; body := ErrorBody msg |}.

Definition str (ex : Exn) : string :=
  match ex with HttpResponseError m => m | OtherException m => m end.

(** [direct_vault_rbac_processor] *)
Definition direct_vault_rbac_processor (env : Env) (req : Request)
  : World -> HttpResponse * World :=
  try_return
    (match Authorization req with
     | None => ret (error 401 "Missing or invalid Authorization header")
     | Some auth_header =>
         if negb (PyStr.truthy auth_header) || negb (PyStr.startswith "Bearer " auth_header)
         then ret (error 401 "Missing or invalid Authorization header")
         else
           match jwt_decode req with
           | None => ret (error 401 "Invalid token")
           | Some decoded_token =>
               if expired decoded_token then ret (error 401 "Token expired")
               else
                 let user_id :=
                   match oid decoded_token with
                   | Some v => Some v
                   | None => sub decoded_token
                   end in
                 match user_id with
                 | None => ret (error 401 "User identity not found in token")
                 | Some user_id =>
                     if negb (PyStr.truthy user_id)
                     then ret (error 401 "User identity not found in token")
                     else
                       match get_json req with
                       | None => ret (error 400 "Invalid JSON in request body")
                       | Some req_body =>
                           match PyDict.get req_body "resourceUri",
                                 PyDict.get req_body "subscriptionId" with
                           | Some resource_uri, Some subscription_id =>
                               if negb (PyStr.truthy resource_uri) ||
                                  negb (PyStr.truthy subscription_id)
                               then ret (error 400 "Missing required parameters: resourceUri and subscriptionId are required")
                               else process env resource_uri subscription_id user_id
                           | _, _ => ret (error 400 "Missing required parameters: resourceUri and subscriptionId are required")
                           end
                       end
                 end
           end
     end)
    (fun ex => error 500 ("Internal server error: " ++ str ex)).

End FunctionApp.
(** ** Specification-side notions *)

Module Spec.

(** The hyphenated canonical form 8-4-4-4-12 over hexadecimal digits. *)
Definition canonical_guid (r : string) : Prop :=
  exists a b c d e,
    r = a ++ "-" ++ b ++ "-" ++ c ++ "-" ++ d ++ "-" ++ e /\
    String.length a = 8 /\ String.length b = 4 /\ String.length c = 4 /\
    String.length d = 4 /\ String.length e = 12 /\
    PyStr.all_hex (a ++ b ++ c ++ d ++ e) = true.

(** [s] contains [p] up to the case of letters: some substring of [s] equals
    [p] once both are lowered. *)
Definition contains_ignoring_case (s p : string) : Prop :=
  exists pre mid post,
    s = pre ++ mid ++ post /\ PyStr.lower mid = PyStr.lower p.

(** The four patterns as the specification writes them, from the vault name
    itself. *)
Definition naming_patterns (vault : string) : list string :=
  [ vault ++ "storage"; vault ++ "stor"; "stor" ++ vault; vault ++ "st" ].

(** The structured scope of a vault: subscription, resource group and vault
    name, read at the fixed positions of the slash-delimited identifier. *)
Definition vault_scope (vault_resource_id : string) : option (string * string * string) :=
  let parts := PyStr.split "/" vault_resource_id in
  match nth_error parts 2, nth_error parts 4, nth_error parts 6, nth_error parts 7,
        nth_error parts 8 with
  | Some subscription_id, Some resource_group, Some p6, Some p7, Some vault_name =>
      if String.eqb p6 "Microsoft.KeyVault" && String.eqb p7 "vaults"
      then Some (subscription_id, resource_group, vault_name)
      else None
  | _, _, _, _, _ => None
  end.

(** A storage resource is matched to a vault by its tag or by its name. *)
Definition matched (vault_name : string) (account : Azure.StorageAccount) : bool :=
  StorageRoleManager.tag_matches account vault_name ||
  StorageRoleManager._matches_naming_convention (Azure.account_name account) vault_name.

(** The principal a reconciliation works with: the identifier itself when it
    parses as a GUID, otherwise the directory's object id for it, normalized;
    [None] when the directory has no non-empty answer. *)
Definition resolve_principal (env : Azure.Env) (identifier : string) : option string :=
  if Azure.uuid_UUID env identifier then Some (VaultRoleManager._normalize_guid identifier)
  else
    match VaultRoleManager.get_principal_id_for_user env identifier with
    | Some object_id =>
        if PyStr.truthy object_id then Some (VaultRoleManager._normalize_guid object_id)
        else None
    | None => None
    end.

(** The outcome the specification gives a provider error on create: success
    for an error response whose message mentions [already exists] or
    [PrincipalNotFound], failure for any other error. *)
Definition create_error_outcome (ex : Azure.Exn) : bool :=
  match ex with
  | Azure.HttpResponseError msg =>
      PyStr.contains "already exists" msg || PyStr.contains "PrincipalNotFound" msg
  | Azure.OtherException _ => false
  end.

(** Principal [p] holds, among the assignments [l], one whose role satisfies
    [role]. *)
Definition holds (p : string) (role : string -> bool) (l : list Azure.RoleAssignment)
  : bool :=
  existsb (fun a => String.eqb (Azure.principal_id a) p &&
                    role (Azure.role_definition_id a)) l.

(** The assignments of [p] among [l] for a role other than [target]. *)
Definition others (p target : string) (l : list Azure.RoleAssignment)
  : list Azure.RoleAssignment :=
  filter (fun a => String.eqb (Azure.principal_id a) p &&
                   negb (String.eqb (Azure.role_definition_id a) target)) l.

Definition is_owner_role (role_definition_id : string) : bool :=
  PyStr.contains VaultRoleManager.owner_role_id role_definition_id.

Definition is_admin_role (role_definition_id : string) : bool :=
  PyStr.contains VaultRoleManager.admin_role_id role_definition_id.

(** None of the calls [evs] was answered with an error. *)
Definition no_error (evs : list Azure.Event) : bool :=
  forallb (fun ev => match Azure.raised ev with None => true | Some _ => false end) evs.

Definition count_mutations (evs : list Azure.Event) : nat :=
  List.length (filter (fun ev => Azure.is_mutation (Azure.call ev)) evs).

Definition count_creates (evs : list Azure.Event) : nat :=
  List.length (filter (fun ev => Azure.is_create (Azure.call ev)) evs).

(** The result dictionary [d] holds an outcome for storage account [k] and
    each of [roles]. *)
Definition complete (roles : list string) (d : PyDict.t (PyDict.t bool)) (k : string)
  : Prop :=
  exists inner, PyDict.get d k = Some inner /\
    forall role, In role roles -> exists b, PyDict.get inner role = Some b.

(** With the assignments [l] listed at the scope, the vault reconciler has
    nothing left to do for principal [p] and role [target]: either the pair
    counts as satisfied by an Owner assignment, or the exact assignment is
    there and, for the Owner role, no other assignment of [p] is. *)
Definition settled (p target : string) (l : list Azure.RoleAssignment) : Prop :=
  negb (is_owner_role target) && holds p is_owner_role l && negb (is_admin_role target)
    = true \/
  (holds p (fun r => String.eqb r target) l = true /\
   (is_owner_role target = true -> others p target l = [])).

(** Assignment names are unique among the assignments at scope [s]. *)
Definition unique_names (s : string) (l : list Azure.RoleAssignment) : Prop :=
  NoDup (map Azure.name (filter (Azure.at_scope s) l)).

End Spec.

(** ** Concrete scenarios

    A subscription with the vault [finance] in resource group [Vaults], which
    holds three storage accounts unrelated to it by tag or name, and a group
    [Mixed] with one related account among three. *)

Module Scenario.

Import Azure.

Definition vault_uri : string :=
  "/subscriptions/test-subscription-id/resourceGroups/Vaults/providers/Microsoft.KeyVault/vaults/finance".

Definition mixed_vault_uri : string :=
  "/subscriptions/test-subscription-id/resourceGroups/Mixed/providers/Microsoft.KeyVault/vaults/finance".

Definition caller : string := "12345678-1234-1234-1234-123456789abc".

Definition other_user : string := "99999999-8888-7777-6666-555555555555".

Definition owner_definition : string :=
  FunctionApp.role_definition "test-subscription-id" VaultRoleManager.owner_role_id.

Definition admin_definition : string :=
  FunctionApp.role_definition "test-subscription-id" VaultRoleManager.admin_role_id.

Definition storage_uri (resource_group account : string) : string :=
  "/subscriptions/test-subscription-id/resourceGroups/" ++ resource_group ++
  "/providers/Microsoft.Storage/storageAccounts/" ++ account.

Definition account (resource_group account : string) (t : option (PyDict.t string))
  : StorageAccount :=
  {| account_id := storage_uri resource_group account;
     account_name := account;
     account_tags := t |}.

Definition unrelated_accounts : list StorageAccount :=
  [ account "Vaults" "alpha" None;
    account "Vaults" "beta" (Some []);
    account "Vaults" "gamma" (Some [("AssociatedVault", "payroll")]) ].

Definition mixed_accounts : list StorageAccount :=
  [ account "Mixed" "alpha" None;
    account "Mixed" "financestorage" None;
    account "Mixed" "gamma" (Some [("AssociatedVault", "finance")]) ].

Fixpoint tally (n : nat) : string :=
  match n with
  | O => ""
  | S k => "i" ++ tally k
  end.

(** An environment whose provider answers [faults], whose directory knows
    nobody, whose [uuid.UUID] accepts the strings of 32 characters besides
    hyphens, and whose vaults are all tagged as created by [creator]. *)
Definition environment (faults : list Event -> Call -> option Exn) (creator : string)
  : Env :=
  {| fault := faults;
     uuid4 := fun n => "assignment-" ++ tally n;
     uuid_UUID := fun value => Nat.eqb (String.length (PyStr.remove_hyphens value)) 32;
     get_token := true;
     requests_get := fun _ => Some {| status_code := 404; json_value_ids := None |};
     list_by_resource_group := fun _ resource_group =>
       if String.eqb resource_group "Vaults" then Some unrelated_accounts
       else if String.eqb resource_group "Mixed" then Some mixed_accounts
       else None;
     vaults_get := fun _ _ _ => VaultFound (Some [("CreatedByID", creator)]);
     environ := true |}.

Definition no_faults : list Event -> Call -> option Exn := fun _ _ => None.

(** Every create call is answered with the directory-lag error. *)
Definition principal_not_found : list Event -> Call -> option Exn :=
  fun _ c =>
    if is_create c
    then Some (HttpResponseError "(PrincipalNotFound) Principal does not exist in the directory")
    else None.

(** Every create call is answered with a conflict. *)
Definition conflict : list Event -> Call -> option Exn :=
  fun _ c =>
    if is_create c
    then Some (HttpResponseError "(RoleAssignmentExists) The role assignment already exists.")
    else None.

(** Every create call is refused. *)
Definition forbidden : list Event -> Call -> option Exn :=
  fun _ c =>
    if is_create c then Some (HttpResponseError "(AuthorizationFailed) Forbidden")
    else None.

(** Every delete call is refused. *)
Definition delete_refused : list Event -> Call -> option Exn :=
  fun _ c =>
    if is_delete c then Some (HttpResponseError "(AuthorizationFailed) Forbidden")
    else None.

Definition world (l : list RoleAssignment) : World :=
  {| assignments := l; events := []; uuid_draws := 0; warnings := [] |}.

Definition held (n role : string) : RoleAssignment :=
  {| name := n; scope := vault_uri; role_definition_id := role;
     principal_id := caller; principal_type := "User" |}.

(** A well-formed request of [caller] for the vault [finance]. *)
Definition request : FunctionApp.Request :=
  {| FunctionApp.Authorization := Some "Bearer header.payload.signature";
     FunctionApp.jwt_decode :=
       Some {| FunctionApp.expired := false;
               FunctionApp.oid := Some caller;
               FunctionApp.sub := None |};
     FunctionApp.get_json :=
       Some [("resourceUri", vault_uri); ("subscriptionId", "test-subscription-id")] |}.

End Scenario.

(** ** Observations on a run *)

Module Trace.

Import Azure.

Definition count_deletes (evs : list Event) : nat :=
  List.length (filter (fun ev => is_delete (call ev)) evs).

(** The assignments of a store outside scope [s]. *)
Definition elsewhere (s : string) (l : list RoleAssignment) : list RoleAssignment :=
  filter (fun a => negb (at_scope s a)) l.

(** The three principal kinds the provider knows. *)
Definition kinds : list string := ["User"; "ServicePrincipal"; "Group"].

(** The status codes of the responses built by the HTTP function. *)
Definition statuses : list nat := [200; 400; 401; 500].

(** World [w'] follows [w] through provider calls none of which is a
    delete, and still holds every assignment of [w]. *)
Definition grows (w w' : World) : Prop :=
  incl (assignments w) (assignments w') /\
  exists new, events w' = (new ++ events w)%list /\ count_deletes new = 0.

(** The resource identifier a request names, if it has one. *)
Definition requested_uri (req : FunctionApp.Request) : option string :=
  match FunctionApp.get_json req with
  | Some req_body => PyDict.get req_body "resourceUri"
  | None => None
  end.

(** Every list call is answered with an error. *)
Definition list_unavailable : list Event -> Call -> option Exn :=
  fun _ c =>
    match c with
    | CallList _ => Some (HttpResponseError "(ServiceUnavailable) The service is unavailable")
    | _ => None
    end.

End Trace.

(** * Properties *)

(** ** Strings *)

Section StringFacts.

Import PyStr.

Lemma append_assoc (a b c : string) : (a ++ b) ++ c = a ++ (b ++ c).
Proof. induction a as [|x a IH]; simpl; [reflexivity | now rewrite IH]. Qed.

Lemma append_nil_r (a : string) : a ++ "" = a.
Proof. induction a as [|x a IH]; simpl; [reflexivity | now rewrite IH]. Qed.

Lemma length_append (a b : string) :
  String.length (a ++ b) = String.length a + String.length b.
Proof. induction a as [|x a IH]; simpl; [reflexivity | now rewrite IH]. Qed.

Lemma keep_append f (a b : string) : keep f (a ++ b) = keep f a ++ keep f b.
Proof.
  induction a as [|x a IH]; simpl; [reflexivity|].
  destruct (f x); simpl; now rewrite IH.
Qed.

Lemma keep_fixed f (s : string) : forallb f s = true -> keep f s = s.
Proof.
  induction s as [|x s IH]; simpl; [reflexivity|].
  intros H. apply andb_true_iff in H as [Hx Hs]. now rewrite Hx, IH.
Qed.

Lemma forallb_keep f (s : string) : forallb f (keep f s) = true.
Proof.
  induction s as [|x s IH]; simpl; [reflexivity|].
  destruct (f x) eqn:E; simpl; [now rewrite E | exact IH].
Qed.

Lemma forallb_append f (a b : string) :
  forallb f (a ++ b) = forallb f a && forallb f b.
Proof.
  induction a as [|x a IH]; simpl; [reflexivity|].
  now rewrite IH, andb_assoc.
Qed.

Lemma take_drop (n : nat) (s : string) : take n s ++ drop n s = s.
Proof.
  revert s; induction n as [|n IH]; intros [|x s]; simpl; try reflexivity.
  now rewrite IH.
Qed.

Lemma length_take (n : nat) (s : string) :
  String.length (take n s) = Nat.min n (String.length s).
Proof.
  revert s; induction n as [|n IH]; intros [|x s]; simpl; try reflexivity.
  now rewrite IH.
Qed.

Lemma length_drop (n : nat) (s : string) :
  String.length (drop n s) = String.length s - n.
Proof.
  revert s; induction n as [|n IH]; intros [|x s]; simpl; try reflexivity.
  apply IH.
Qed.

Lemma take_all (n : nat) (s : string) : String.length s <= n -> take n s = s.
Proof.
  revert s; induction n as [|n IH]; intros [|x s]; simpl; intros H;
    try reflexivity; try lia.
  rewrite IH; [reflexivity | lia].
Qed.

Lemma take_plus (a b : nat) (s : string) :
  take (a + b) s = take a s ++ take b (drop a s).
Proof.
  revert s; induction a as [|a IH]; intros s; simpl.
  - destruct s; reflexivity.
  - destruct s as [|x s]; simpl.
    + destruct b; reflexivity.
    + now rewrite IH.
Qed.

Lemma drop_drop (a b : nat) (s : string) : drop a (drop b s) = drop (b + a) s.
Proof.
  revert s; induction b as [|b IH]; intros s; simpl.
  - destruct s; reflexivity.
  - destruct s as [|x s]; simpl; [destruct a; reflexivity | apply IH].
Qed.

Lemma slice_chain (i j k : nat) (s : string) :
  i <= j -> j <= k -> slice i j s ++ slice j k s = slice i k s.
Proof.
  intros Hij Hjk. unfold slice.
  replace (drop j s) with (drop (j - i) (drop i s))
    by (rewrite drop_drop; f_equal; lia).
  rewrite <- take_plus. f_equal. lia.
Qed.

Lemma slice_whole (n : nat) (s : string) : String.length s <= n -> slice 0 n s = s.
Proof.
  intros H. unfold slice. rewrite Nat.sub_0_r.
  replace (drop 0 s) with s by (destruct s; reflexivity).
  now apply take_all.
Qed.

Lemma length_slice (i j : nat) (s : string) :
  j <= String.length s -> String.length (slice i j s) = j - i.
Proof.
  intros H. unfold slice. rewrite length_take, length_drop. lia.
Qed.

Lemma forallb_take f (n : nat) (s : string) :
  forallb f s = true -> forallb f (take n s) = true.
Proof.
  revert s; induction n as [|n IH]; intros [|x s]; simpl; try reflexivity.
  intros H. apply andb_true_iff in H as [Hx Hs]. now rewrite Hx, IH.
Qed.

Lemma forallb_drop f (n : nat) (s : string) :
  forallb f s = true -> forallb f (drop n s) = true.
Proof.
  revert s; induction n as [|n IH]; intros [|x s]; simpl; try reflexivity;
    try (intros H; exact H).
  intros H. apply andb_true_iff in H as [Hx Hs]. now apply IH.
Qed.

Lemma forallb_slice f (i j : nat) (s : string) :
  forallb f s = true -> forallb f (slice i j s) = true.
Proof. intros H. unfold slice. now apply forallb_take, forallb_drop. Qed.

Lemma remove_hyphens_no_hyphen (s : string) : no_hyphen (remove_hyphens s) = true.
Proof. apply forallb_keep. Qed.

Lemma remove_hyphens_fixed (s : string) : no_hyphen s = true -> remove_hyphens s = s.
Proof. apply keep_fixed. Qed.

Lemma truthy_length (s : string) : truthy s = false <-> String.length s = 0.
Proof. destruct s; simpl; split; congruence. Qed.

Lemma remove_hyphens_append (a b : string) :
  remove_hyphens (a ++ b) = remove_hyphens a ++ remove_hyphens b.
Proof. apply keep_append. Qed.

(** Five hyphen-free groups joined by hyphens lose exactly the hyphens. *)
Lemma remove_hyphens_groups (a b c d e : string) :
  no_hyphen a = true -> no_hyphen b = true -> no_hyphen c = true ->
  no_hyphen d = true -> no_hyphen e = true ->
  remove_hyphens (a ++ "-" ++ b ++ "-" ++ c ++ "-" ++ d ++ "-" ++ e)
  = a ++ b ++ c ++ d ++ e.
Proof.
  intros Ha Hb Hc Hd He.
  rewrite !remove_hyphens_append.
  change (remove_hyphens "-") with "".
  rewrite (remove_hyphens_fixed a), (remove_hyphens_fixed b), (remove_hyphens_fixed c),
    (remove_hyphens_fixed d), (remove_hyphens_fixed e) by assumption.
  reflexivity.
Qed.

(** The five slices of a 32-character string put it together again. *)
Lemma slices_32 (t : string) :
  String.length t = 32 ->
  slice 0 8 t ++ slice 8 12 t ++ slice 12 16 t ++ slice 16 20 t ++ slice 20 32 t = t.
Proof.
  intros H.
  rewrite (slice_chain 16 20 32) by lia.
  rewrite (slice_chain 12 16 32) by lia.
  rewrite (slice_chain 8 12 32) by lia.
  rewrite (slice_chain 0 8 32) by lia.
  apply slice_whole. lia.
Qed.

End StringFacts.

(** ** GUID normalization *)

Section NormalizeGuid.

Import PyStr.

(** The early return on a falsy argument agrees with the general path. *)
Lemma normalize_guid_unfold (s : string) :
  VaultRoleManager._normalize_guid s =
  let t := remove_hyphens s in
  if Nat.eqb (String.length t) 32 then
    slice 0 8 t ++ "-" ++ slice 8 12 t ++ "-" ++ slice 12 16 t ++ "-" ++
    slice 16 20 t ++ "-" ++ slice 20 32 t
  else t.
Proof. destruct s; reflexivity. Qed.

Lemma storage_normalize_guid_same (s : string) :
  StorageRoleManager._normalize_guid s = VaultRoleManager._normalize_guid s.
Proof. reflexivity. Qed.

Lemma normalize_guid_canonical (s : string) :
  String.length (remove_hyphens s) = 32 ->
  all_hex (remove_hyphens s) = true ->
  Spec.canonical_guid (VaultRoleManager._normalize_guid s).
Proof.
  intros Hlen Hhex. rewrite normalize_guid_unfold. cbv zeta.
  rewrite Hlen, Nat.eqb_refl.
  set (t := remove_hyphens s) in *.
  exists (slice 0 8 t), (slice 8 12 t), (slice 12 16 t), (slice 16 20 t), (slice 20 32 t).
  split; [reflexivity|].
  rewrite !length_slice by lia.
  repeat (split; [reflexivity|]).
  now rewrite slices_32.
Qed.

Lemma normalize_guid_keeps_digits (s : string) :
  remove_hyphens (VaultRoleManager._normalize_guid s) = remove_hyphens s.
Proof.
  rewrite normalize_guid_unfold. cbv zeta.
  set (t := remove_hyphens s).
  assert (Ht : no_hyphen t = true) by apply remove_hyphens_no_hyphen.
  destruct (Nat.eqb (String.length t) 32) eqn:E.
  - apply Nat.eqb_eq in E.
    rewrite remove_hyphens_groups by (apply forallb_slice; exact Ht).
    now apply slices_32.
  - now apply remove_hyphens_fixed.
Qed.

Lemma normalize_guid_other_length (s : string) :
  String.length (remove_hyphens s) <> 32 ->
  VaultRoleManager._normalize_guid s = remove_hyphens s.
Proof.
  intros H. rewrite normalize_guid_unfold. cbv zeta.
  apply Nat.eqb_neq in H. now rewrite H.
Qed.

(** The test-suite example and its hyphenated variants. *)
Example normalize_guid_test_guid_validation :
  StorageRoleManager._normalize_guid "12345678123412341234123456789abc"
    = "12345678-1234-1234-1234-123456789abc" /\
  VaultRoleManager._normalize_guid "12345678-1234-1234-1234-123456789abc"
    = "12345678-1234-1234-1234-123456789abc" /\
  VaultRoleManager._normalize_guid "1234-5678-1234-1234-1234-1234-5678-9abc"
    = "12345678-1234-1234-1234-123456789abc".
Proof. repeat split. Qed.

(** C3, as stated, fails: an input whose hexadecimal-digit length is not 32
    is not always returned unchanged.  The six-digit input [abc-def] comes
    back as [abcdef], in both managers. *)
Lemma normalize_guid_short_input_changed :
  hex_digit_length "abc-def" <> 32 /\
  String.length (remove_hyphens "abc-def") <> 32 /\
  VaultRoleManager._normalize_guid "abc-def" = "abcdef" /\
  StorageRoleManager._normalize_guid "abc-def" = "abcdef" /\
  VaultRoleManager._normalize_guid "abc-def" <> "abc-def".
Proof. repeat split; simpl; try lia; discriminate. Qed.

(** C3 (amended): an input made of 32 hexadecimal digits, with or without
    hyphens, normalizes to the canonical form 8-4-4-4-12 carrying the same
    digits in the same order; an input whose length without hyphens is not 32
    is returned with its hyphens removed, hence unchanged exactly when it has
    none.  Both managers compute the same function. *)
Theorem normalize_guid_canonical_or_stripped (s : string) :
  (String.length (remove_hyphens s) = 32 -> all_hex (remove_hyphens s) = true ->
     Spec.canonical_guid (VaultRoleManager._normalize_guid s) /\
     remove_hyphens (VaultRoleManager._normalize_guid s) = remove_hyphens s) /\
  (String.length (remove_hyphens s) <> 32 ->
     VaultRoleManager._normalize_guid s = remove_hyphens s /\
     (VaultRoleManager._normalize_guid s = s <-> no_hyphen s = true)) /\
  StorageRoleManager._normalize_guid s = VaultRoleManager._normalize_guid s.
Proof.
  split; [|split].
  - intros Hlen Hhex. split.
    + now apply normalize_guid_canonical.
    + apply normalize_guid_keeps_digits.
  - intros Hlen. rewrite (normalize_guid_other_length s Hlen). split; [reflexivity|].
    split.
    + intros E. rewrite <- E. apply remove_hyphens_no_hyphen.
    + apply remove_hyphens_fixed.
  - apply storage_normalize_guid_same.
Qed.

Lemma normalize_guid_canonical_or_stripped_witness :
  Spec.canonical_guid
    (VaultRoleManager._normalize_guid "1234567812341234-1234-123456789abc") /\
  VaultRoleManager._normalize_guid "not-a-guid" = "notaguid".
Proof.
  split.
  - destruct (normalize_guid_canonical_or_stripped "1234567812341234-1234-123456789abc")
      as (H & _ & _).
    apply H; reflexivity.
  - destruct (normalize_guid_canonical_or_stripped "not-a-guid") as (_ & H & _).
    apply H. simpl. lia.
Defined.

(** C10: GUID normalization is idempotent, in both managers; a normalized
    principal id is a fixed point of every later normalization. *)
Theorem normalize_guid_idempotent (s : string) :
  VaultRoleManager._normalize_guid (VaultRoleManager._normalize_guid s)
    = VaultRoleManager._normalize_guid s /\
  StorageRoleManager._normalize_guid (StorageRoleManager._normalize_guid s)
    = StorageRoleManager._normalize_guid s.
Proof.
  assert (H : VaultRoleManager._normalize_guid (VaultRoleManager._normalize_guid s)
              = VaultRoleManager._normalize_guid s).
  { rewrite (normalize_guid_unfold (VaultRoleManager._normalize_guid s)).
    rewrite normalize_guid_keeps_digits.
    symmetry. apply normalize_guid_unfold. }
  split; [exact H|].
  rewrite !storage_normalize_guid_same. exact H.
Qed.

End NormalizeGuid.

(** ** Substring search and case folding *)

Section ContainsFacts.

Import PyStr.

Lemma startswith_iff (p s : string) :
  startswith p s = true <-> exists post, s = p ++ post.
Proof.
  revert s; induction p as [|a p IH]; intros s; simpl.
  - split; [intros _; now exists s | reflexivity].
  - destruct s as [|b s].
    + split; [discriminate | intros [post H]; discriminate].
    + rewrite andb_true_iff, Ascii.eqb_eq, IH. split.
      * intros [-> [post ->]]. now exists post.
      * intros [post H]. injection H as -> ->. split; [reflexivity | now exists post].
Qed.

Lemma contains_iff (p s : string) :
  contains p s = true <-> exists pre post, s = pre ++ p ++ post.
Proof.
  induction s as [|b s IH].
  - simpl. rewrite orb_false_r, startswith_iff. split.
    + intros [post H]. now exists "", post.
    + intros [pre [post H]]. destruct pre; [now exists post | discriminate].
  - cbn [contains]. rewrite orb_true_iff, startswith_iff, IH. split.
    + intros [[post H] | [pre [post H]]].
      * now exists "", post.
      * exists (String b pre), post. simpl. now rewrite H.
    + intros [pre [post H]]. destruct pre as [|c pre].
      * left. now exists post.
      * right. injection H as _ H. now exists pre, post.
Qed.

Lemma lower_append (a b : string) : lower (a ++ b) = lower a ++ lower b.
Proof. induction a as [|x a IH]; simpl; [reflexivity | now rewrite IH]. Qed.

Lemma length_lower (s : string) : String.length (lower s) = String.length s.
Proof. induction s as [|x s IH]; simpl; [reflexivity | now rewrite IH]. Qed.

Lemma lower_take (n : nat) (s : string) : lower (take n s) = take n (lower s).
Proof.
  revert s; induction n as [|n IH]; intros [|x s]; simpl; try reflexivity.
  now rewrite IH.
Qed.

Lemma lower_drop (n : nat) (s : string) : lower (drop n s) = drop n (lower s).
Proof.
  revert s; induction n as [|n IH]; intros [|x s]; simpl; try reflexivity.
  apply IH.
Qed.

Lemma take_append_exact (a b : string) : take (String.length a) (a ++ b) = a.
Proof. induction a as [|x a IH]; simpl; [destruct b; reflexivity | now rewrite IH]. Qed.

Lemma drop_append_exact (a b : string) : drop (String.length a) (a ++ b) = b.
Proof. induction a as [|x a IH]; simpl; [destruct b; reflexivity | exact IH]. Qed.

Lemma lower_char_idempotent (c : ascii) : lower_char (lower_char c) = lower_char c.
Proof.
  destruct c as [[] [] [] [] [] [] [] []]; reflexivity.
Qed.

Lemma lower_idempotent (s : string) : lower (lower s) = lower s.
Proof.
  induction s as [|x s IH]; simpl; [reflexivity|].
  now rewrite lower_char_idempotent, IH.
Qed.

(** Searching the lowered pattern in the lowered text is containment up to
    case. *)
Lemma contains_lower_iff (p s : string) :
  contains (lower p) (lower s) = true <-> Spec.contains_ignoring_case s p.
Proof.
  rewrite contains_iff. unfold Spec.contains_ignoring_case. split.
  - intros [pre' [post' H]].
    exists (take (String.length pre') s),
           (take (String.length p) (drop (String.length pre') s)),
           (drop (String.length p) (drop (String.length pre') s)).
    split.
    + now rewrite !take_drop.
    + rewrite lower_take, lower_drop, H, drop_append_exact.
      rewrite <- (length_lower p). apply take_append_exact.
  - intros [pre [mid [post [-> H]]]].
    exists (lower pre), (lower post). now rewrite !lower_append, H.
Qed.

End ContainsFacts.

(** ** Naming convention and role mapping *)

Section NamingAndMapping.

Import PyStr StorageRoleManager.

Lemma patterns_lower (vault : string) :
  patterns (lower vault) = map lower (Spec.naming_patterns vault).
Proof.
  unfold patterns, Spec.naming_patterns. simpl map.
  now rewrite !lower_append.
Qed.

(** C8: the name-match predicate holds exactly when the storage name
    contains, up to the case of letters, one of the four patterns
    [{vault}storage], [{vault}stor], [stor{vault}], [{vault}st]; for the vault
    [finance] the four names of the specification match and
    [financeappstorage] and [storage] do not. *)
Theorem matches_naming_convention_exact :
  (forall storage_name vault_name : string,
     _matches_naming_convention storage_name vault_name = true <->
     exists pattern, In pattern (Spec.naming_patterns vault_name) /\
                     Spec.contains_ignoring_case storage_name pattern) /\
  _matches_naming_convention "financestorage" "finance" = true /\
  _matches_naming_convention "financestor" "finance" = true /\
  _matches_naming_convention "storfinance" "finance" = true /\
  _matches_naming_convention "financest" "finance" = true /\
  _matches_naming_convention "financeappstorage" "finance" = false /\
  _matches_naming_convention "storage" "finance" = false.
Proof.
  split; [|repeat split].
  intros storage_name vault_name. unfold _matches_naming_convention. cbv zeta.
  rewrite patterns_lower, existsb_exists. split.
  - intros [q [Hin Hc]]. apply in_map_iff in Hin as [pattern [<- Hin]].
    exists pattern. split; [exact Hin | now apply contains_lower_iff].
  - intros [pattern [Hin Hc]]. exists (lower pattern). split.
    + now apply in_map.
    + now apply contains_lower_iff.
Qed.

(** The cases of the repository's own test, with mixed case added. *)
Example test_naming_convention_matching :
  _matches_naming_convention "myvaultstorage" "myvault" = true /\
  _matches_naming_convention "stormyvault" "myvault" = true /\
  _matches_naming_convention "MyVaultSt01" "myvault" = true /\
  _matches_naming_convention "otherstorage" "myvault" = false /\
  _matches_naming_convention "randomname" "myvault" = false.
Proof. repeat split. Qed.

End NamingAndMapping.

Section RoleMapping.

Import PyStr Azure StorageRoleManager.

Lemma contains_suffix (p pre : string) : contains p (pre ++ p) = true.
Proof. apply contains_iff. exists pre, "". now rewrite append_nil_r. Qed.

Lemma owner_role_definition_contains (subscription_id : string) :
  contains owner_role_id (FunctionApp.role_definition subscription_id owner_role_id) = true.
Proof.
  unfold FunctionApp.role_definition.
  rewrite <- !append_assoc. apply contains_suffix.
Qed.

(** C9: a vault role id naming the Owner role maps to exactly
    [StorageAccountContributor; StorageBlobDataOwner], one naming the
    Administrator role to exactly [StorageBlobDataContributor], and any other
    id to the empty list; for such an id the storage cascade returns an empty
    result normally, without raising and without touching the provider. *)
Theorem storage_roles_for_vault_role (vault_role_id : string) :
  (contains owner_role_id vault_role_id = true ->
     get_storage_role_assignments_for_vault_role vault_role_id =
       [STORAGE_ACCOUNT_CONTRIBUTOR_ROLE_ID; STORAGE_BLOB_DATA_OWNER_ROLE_ID]) /\
  (contains owner_role_id vault_role_id = false ->
   contains admin_role_id vault_role_id = true ->
     get_storage_role_assignments_for_vault_role vault_role_id =
       [STORAGE_BLOB_DATA_CONTRIBUTOR_ROLE_ID]) /\
  (contains owner_role_id vault_role_id = false ->
   contains admin_role_id vault_role_id = false ->
     get_storage_role_assignments_for_vault_role vault_role_id = [] /\
     forall env storage_resource_ids principal w,
       assign_storage_roles_to_user env storage_resource_ids vault_role_id principal w
         = (inr [], w)).
Proof.
  unfold get_storage_role_assignments_for_vault_role.
  split; [|split].
  - intros ->. reflexivity.
  - intros -> ->. reflexivity.
  - intros Ho Ha. rewrite Ho, Ha. split; [reflexivity|].
    intros env ids principal w. unfold assign_storage_roles_to_user.
    destruct ids; [reflexivity|].
    unfold get_storage_role_assignments_for_vault_role. now rewrite Ho, Ha.
Qed.

Lemma storage_roles_for_vault_role_witness :
  get_storage_role_assignments_for_vault_role
    "/subscriptions/test/providers/Microsoft.Authorization/roleDefinitions/8e3af657-a8ff-443c-a75c-2fe8c4bcb635"
    = ["17d1049b-9a84-46fb-8f53-869881c3d3ab"; "b7e6dc6d-f1e8-4753-8033-0f276bb0955c"] /\
  get_storage_role_assignments_for_vault_role
    "/subscriptions/test/providers/Microsoft.Authorization/roleDefinitions/00482a5a-887f-4fb3-b363-3b7fe8e74483"
    = ["ba92f5b4-2d11-453d-a403-e96b0029c9fe"] /\
  get_storage_role_assignments_for_vault_role
    "/subscriptions/test/providers/Microsoft.Authorization/roleDefinitions/unknown-role"
    = [].
Proof.
  split; [|split].
  - destruct (storage_roles_for_vault_role
      "/subscriptions/test/providers/Microsoft.Authorization/roleDefinitions/8e3af657-a8ff-443c-a75c-2fe8c4bcb635")
      as (H & _ & _).
    apply H. reflexivity.
  - destruct (storage_roles_for_vault_role
      "/subscriptions/test/providers/Microsoft.Authorization/roleDefinitions/00482a5a-887f-4fb3-b363-3b7fe8e74483")
      as (_ & H & _).
    apply H; reflexivity.
  - destruct (storage_roles_for_vault_role
      "/subscriptions/test/providers/Microsoft.Authorization/roleDefinitions/unknown-role")
      as (_ & _ & H).
    apply H; reflexivity.
Defined.

(** The Owner definition id that the HTTP function builds maps to the two
    Owner storage roles, whatever the subscription. *)
Lemma storage_roles_for_owner_definition (subscription_id : string) :
  get_storage_role_assignments_for_vault_role
    (FunctionApp.role_definition subscription_id owner_role_id)
  = [STORAGE_ACCOUNT_CONTRIBUTOR_ROLE_ID; STORAGE_BLOB_DATA_OWNER_ROLE_ID].
Proof.
  unfold get_storage_role_assignments_for_vault_role.
  now rewrite owner_role_definition_contains.
Qed.

End RoleMapping.

(** ** Discovery *)

Section Discovery.

Import PyStr Azure StorageRoleManager.

(** The parse at the head of [discover_associated_storage_accounts] is the
    structured scope of the vault. *)
Lemma discover_unfold (env : Env) (vault_resource_id : string) :
  discover_associated_storage_accounts env vault_resource_id =
  match Spec.vault_scope vault_resource_id with
  | None => []
  | Some (subscription_id, resource_group, vault_name) =>
      match list_by_resource_group env subscription_id resource_group with
      | None => []
      | Some accounts_in_rg =>
          match filter (Spec.matched vault_name) accounts_in_rg with
          | [] => map account_id accounts_in_rg
          | selected => map account_id selected
          end
      end
  end.
Proof.
  unfold discover_associated_storage_accounts, Spec.vault_scope. cbv zeta.
  destruct (nth_error _ 2) as [sub|]; [|reflexivity].
  destruct (nth_error _ 4) as [rg|]; [|reflexivity].
  destruct (nth_error _ 6) as [p6|]; [|reflexivity].
  destruct (nth_error _ 7) as [p7|]; [|reflexivity].
  destruct (nth_error _ 8) as [vault_name|]; [|reflexivity].
  destruct (String.eqb p6 "Microsoft.KeyVault"), (String.eqb p7 "vaults");
    try reflexivity.
  cbn [negb orb andb].
  destruct (list_by_resource_group env sub rg) as [accounts|]; [|reflexivity].
  replace (filter (associated vault_name) accounts)
    with (filter (Spec.matched vault_name) accounts).
  - destruct (filter (Spec.matched vault_name) accounts) eqn:E.
    + destruct accounts; reflexivity.
    + reflexivity.
  - apply filter_ext. intros a. unfold Spec.matched, associated.
    destruct (tag_matches a vault_name); reflexivity.
Qed.

(** C7: when the enumeration of the vault's resource group succeeds and no
    storage resource in it is tag- or name-matched, discovery returns every
    storage resource of the group; when at least one is matched, it returns
    the matched ones only. *)
Theorem discovery_matched_or_all (env : Env)
    (vault_resource_id subscription_id resource_group vault_name : string)
    (accounts_in_rg : list StorageAccount) :
  Spec.vault_scope vault_resource_id = Some (subscription_id, resource_group, vault_name) ->
  list_by_resource_group env subscription_id resource_group = Some accounts_in_rg ->
  ((forall account, In account accounts_in_rg ->
      tag_matches account vault_name = false /\
      _matches_naming_convention (account_name account) vault_name = false) ->
   discover_associated_storage_accounts env vault_resource_id
     = map account_id accounts_in_rg) /\
  ((exists account, In account accounts_in_rg /\
      (tag_matches account vault_name = true \/
       _matches_naming_convention (account_name account) vault_name = true)) ->
   discover_associated_storage_accounts env vault_resource_id
     = map account_id (filter (Spec.matched vault_name) accounts_in_rg) /\
   forall account, In account (filter (Spec.matched vault_name) accounts_in_rg) <->
     In account accounts_in_rg /\
     (tag_matches account vault_name = true \/
      _matches_naming_convention (account_name account) vault_name = true)).
Proof.
  intros Hscope Hlist. rewrite discover_unfold, Hscope, Hlist. split.
  - intros Hnone.
    assert (E : filter (Spec.matched vault_name) accounts_in_rg = []).
    { clear Hlist. induction accounts_in_rg as [|a l IH]; [reflexivity|].
      simpl. destruct (Hnone a (or_introl eq_refl)) as [Ht Hn].
      unfold Spec.matched at 1. rewrite Ht, Hn. simpl.
      apply IH. intros b Hb. apply Hnone. now right. }
    now rewrite E.
  - intros [a [Hin Hm]].
    assert (Ha : In a (filter (Spec.matched vault_name) accounts_in_rg)).
    { apply filter_In. split; [exact Hin|]. unfold Spec.matched.
      apply orb_true_iff. exact Hm. }
    split.
    + destruct (filter (Spec.matched vault_name) accounts_in_rg);
        [destruct Ha | reflexivity].
    + intros b. rewrite filter_In. unfold Spec.matched. now rewrite orb_true_iff.
Qed.

Lemma discovery_matched_or_all_witness :
  discover_associated_storage_accounts
    (Scenario.environment Scenario.no_faults Scenario.caller) Scenario.vault_uri
  = [ Scenario.storage_uri "Vaults" "alpha"; Scenario.storage_uri "Vaults" "beta";
      Scenario.storage_uri "Vaults" "gamma" ] /\
  discover_associated_storage_accounts
    (Scenario.environment Scenario.no_faults Scenario.caller) Scenario.mixed_vault_uri
  = [ Scenario.storage_uri "Mixed" "financestorage"; Scenario.storage_uri "Mixed" "gamma" ].
Proof.
  split.
  - destruct (discovery_matched_or_all
                (Scenario.environment Scenario.no_faults Scenario.caller)
                Scenario.vault_uri "test-subscription-id" "Vaults" "finance"
                Scenario.unrelated_accounts eq_refl eq_refl) as [H _].
    rewrite H; [reflexivity|].
    intros a [<-|[<-|[<-|[]]]]; split; reflexivity.
  - destruct (discovery_matched_or_all
                (Scenario.environment Scenario.no_faults Scenario.caller)
                Scenario.mixed_vault_uri "test-subscription-id" "Mixed" "finance"
                Scenario.mixed_accounts eq_refl eq_refl) as [_ H].
    destruct H as [H _].
    + exists (Scenario.account "Mixed" "financestorage" None).
      split; [right; left; reflexivity | right; reflexivity].
    + rewrite H. reflexivity.
Defined.

End Discovery.

(** ** The provider monad and the history of calls *)

Section History.

Import Azure.
Local Open Scope list_scope.

Lemma events_since_app (w w' : World) (new : list Event) :
  events w' = new ++ events w -> events_since w w' = new.
Proof.
  intros H. unfold events_since. rewrite H, length_app.
  replace (List.length new + List.length (events w) - List.length (events w))
    with (List.length new + 0) by lia.
  now rewrite firstn_app_2, firstn_O, app_nil_r.
Qed.

Lemma events_since_refl (w : World) : events_since w w = [].
Proof. now apply events_since_app. Qed.

Lemma events_since_record (w : World) (c : Call) (r : option Exn) :
  events_since w (record c r w) = [{| call := c; raised := r |}].
Proof. now apply events_since_app. Qed.

(** The world after a draw from [uuid.uuid4] and an accepted create call. *)
Lemma created_world (env : Env) (s n role p t : string) (w : World) :
  fault env (events w) (CallCreate s n role p t) = None ->
  let w' := snd (role_assignments_create env s n role p t (snd (uuid_uuid4 env w))) in
  assignments w' =
    assignments w ++ [ {| name := n; scope := s; role_definition_id := role;
                          principal_id := p; principal_type := t |} ] /\
  events w' = {| call := CallCreate s n role p t; raised := None |} :: events w /\
  warnings w' = warnings w.
Proof.
  intros H. unfold role_assignments_create. cbn [uuid_uuid4 snd events].
  rewrite H. repeat split.
Qed.

End History.

(** ** The vault reconciler *)

Section VaultReconciler.

Import PyStr Azure VaultRoleManager.
Local Open Scope list_scope.

Variable env : Env.

Lemma filter_twice {A} (f g : A -> bool) (l : list A) :
  filter f (filter g l) = filter (fun x => g x && f x) l.
Proof.
  induction l as [|x l IH]; [reflexivity|].
  cbn [filter]. destruct (g x); cbn [filter andb]; now rewrite IH.
Qed.

(** What the loop over the listed assignments computes. *)
Lemma scan_from (target p : string) (is_owner : bool) (l : list RoleAssignment)
    (st0 : Scan) :
  let st := fold_left (scan_step target p is_owner) l st0 in
  role_already_assigned st
    = role_already_assigned st0 || Spec.holds p (fun r => String.eqb r target) l /\
  has_owner_role st = has_owner_role st0 || Spec.holds p Spec.is_owner_role l /\
  redundant_assignments st
    = redundant_assignments st0 ++ (if is_owner then Spec.others p target l else []).
Proof.
  revert st0. induction l as [|a l IH]; intros st0; cbn zeta.
  - simpl. rewrite !orb_false_r. destruct is_owner; now rewrite app_nil_r.
  - cbn [fold_left]. destruct (IH (scan_step target p is_owner st0 a)) as (H1 & H2 & H3).
    cbv zeta in H1, H2, H3. rewrite H1, H2, H3. clear IH H1 H2 H3.
    unfold scan_step, Spec.holds, Spec.others, Spec.is_owner_role.
    cbn [existsb filter].
    destruct (String.eqb (principal_id a) p); cbn [andb orb].
    + destruct (contains owner_role_id (role_definition_id a));
        destruct (String.eqb (role_definition_id a) target);
        destruct is_owner; cbn;
        rewrite ?orb_true_r, ?orb_false_r, ?app_nil_r, <- ?app_assoc;
        repeat split; reflexivity.
    + repeat split; reflexivity.
Qed.

Lemma scan_spec (target p : string) (l : list RoleAssignment) :
  let st := scan target p (Spec.is_owner_role target) l in
  role_already_assigned st = Spec.holds p (fun r => String.eqb r target) l /\
  has_owner_role st = Spec.holds p Spec.is_owner_role l /\
  redundant_assignments st
    = if Spec.is_owner_role target then Spec.others p target l else [].
Proof. apply (scan_from target p (Spec.is_owner_role target) l). Qed.

Lemma remove_redundant_returns (s : string) (l : list RoleAssignment) (w : World) :
  remove_redundant env s l w = (inr tt, snd (remove_redundant env s l w)).
Proof.
  revert w. induction l as [|a l IH]; intros w; [reflexivity|].
  cbn [remove_redundant]. unfold bind, try_pass. apply IH.
Qed.

(** The deletion loop issues one delete call per listed assignment, in
    order, only ever removes assignments, and removes every assignment whose
    delete call is answered without error. *)
Lemma remove_redundant_spec (s : string) (l : list RoleAssignment) (w : World) :
  let w' := snd (remove_redundant env s l w) in
  exists new,
    events w' = new ++ events w /\
    map call new = rev (map (fun a => CallDelete s (name a)) l) /\
    uuid_draws w' = uuid_draws w /\
    warnings w' = warnings w /\
    (forall x, In x (assignments w') -> In x (assignments w)) /\
    (forall n, In {| call := CallDelete s n; raised := None |} new ->
       forall x, In x (assignments w') -> named s n x = false) /\
    (Spec.no_error new = true ->
       assignments w' =
       filter (fun x => negb (at_scope s x && existsb (String.eqb (name x)) (map name l)))
         (assignments w)).
Proof.
  revert w. induction l as [|a l IH]; intros w; cbn zeta.
  - exists []. cbn. repeat split; try tauto.
    intros _. induction (assignments w) as [|x xs IHx]; [reflexivity|].
    cbn. rewrite andb_false_r. cbn. now rewrite <- IHx.
  - assert (E : remove_redundant env s (a :: l) w
                 = remove_redundant env s l
                     (snd (role_assignments_delete env s (name a) w)))
      by reflexivity.
    rewrite E. clear E.
    set (w1 := snd (role_assignments_delete env s (name a) w)).
    destruct (IH w1) as (new & He & Hc & Hu & Hw & Hsub & Hdel & Hall).
    cbv zeta in He, Hc, Hu, Hw, Hsub, Hdel, Hall.
    assert (Hstep :
      exists r, events w1 = {| call := CallDelete s (name a); raised := r |} :: events w /\
        uuid_draws w1 = uuid_draws w /\ warnings w1 = warnings w /\
        (forall x, In x (assignments w1) -> In x (assignments w)) /\
        (r = None -> assignments w1
                     = filter (fun x => negb (named s (name a) x)) (assignments w))).
    { subst w1. unfold role_assignments_delete.
      destruct (fault env (events w) (CallDelete s (name a))) as [e|].
      - exists (Some e). cbn. repeat split; try tauto. discriminate.
      - exists None. cbn. repeat split; try tauto.
        intros x Hx. now apply filter_In in Hx. }
    destruct Hstep as (r & He1 & Hu1 & Hw1 & Hsub1 & Hok1).
    exists (new ++ [{| call := CallDelete s (name a); raised := r |}]).
    split; [rewrite He, He1, <- app_assoc; reflexivity|].
    split; [rewrite map_app, Hc; reflexivity|].
    split; [congruence|]. split; [congruence|].
    split; [intros x Hx; auto|].
    split.
    + intros n Hin x Hx. apply in_app_or in Hin as [Hin|Hin].
      * now apply (Hdel n Hin).
      * destruct Hin as [Hin|[]]. injection Hin as Hn Hr. subst n r.
        specialize (Hsub x Hx). rewrite (Hok1 eq_refl) in Hsub.
        apply filter_In in Hsub as [_ Hneg]. now apply negb_true_iff in Hneg.
    + intros Hno. unfold Spec.no_error in Hno. rewrite forallb_app in Hno.
      apply andb_true_iff in Hno as [Hno1 Hno2].
      cbn in Hno2. destruct r; [discriminate|].
      rewrite (Hall Hno1), (Hok1 eq_refl).
      rewrite filter_twice. apply filter_ext. intros x.
      cbn [map existsb]. unfold named, at_scope.
      rewrite (String.eqb_sym (name x) (name a)).
      destruct (String.eqb (scope x) s), (String.eqb (name a) (name x)),
        (existsb (String.eqb (name x)) (map name l)); reflexivity.
Qed.

End VaultReconciler.

Section VaultRuns.

Import PyStr Azure VaultRoleManager.
Local Open Scope list_scope.

Variable env : Env.

(** [assign_role_to_user] as a decision tree over the provider's answers. *)
Lemma assign_role_to_user_unfold (S target P : string) (w : World) :
  assign_role_to_user env S target P w =
  match nth_error (split "/" S) 2 with
  | None => (false, w)
  | Some _ =>
      match Spec.resolve_principal env P with
      | None => (false, w)
      | Some p =>
          match fault env (events w) (CallList S) with
          | Some e => (on_exception e, record (CallList S) (Some e) w)
          | None =>
              let w1 := record (CallList S) None w in
              let l := filter (at_scope S) (assignments w) in
              let red := if Spec.is_owner_role target then Spec.others p target l else [] in
              if negb (Spec.is_owner_role target) && Spec.holds p Spec.is_owner_role l
                 && negb (Spec.is_admin_role target)
              then (true, w1)
              else if Spec.holds p (fun r => String.eqb r target) l
              then (true, snd (remove_redundant env S red w1))
              else
                let n := uuid4 env (uuid_draws w) in
                let t := _detect_principal_type env p in
                match fault env (events w1) (CallCreate S n target p t) with
                | Some e =>
                    (on_exception e,
                     record (CallCreate S n target p t) (Some e) (snd (uuid_uuid4 env w1)))
                | None =>
                    (true,
                     snd (remove_redundant env S red
                            (snd (role_assignments_create env S n target p t
                                    (snd (uuid_uuid4 env w1))))))
                end
          end
      end
  end.
Proof.
  unfold assign_role_to_user, try_return, assign_role_to_user_try, index.
  destruct (nth_error (split "/" S) 2) as [sub|]; [|reflexivity].
  unfold bind at 1. cbn [ret]. cbv zeta.
  set (resolved := if negb (_is_guid env P) then _ else _).
  assert (R : Spec.resolve_principal env P
              = match resolved with
                | Some q => Some (_normalize_guid q)
                | None => None
                end).
  { subst resolved. unfold Spec.resolve_principal, _is_guid.
    destruct (uuid_UUID env P); cbn [negb]; [reflexivity|].
    destruct (get_principal_id_for_user env P) as [o|]; [|reflexivity].
    destruct (truthy o); reflexivity. }
  rewrite R. clear R.
  destruct resolved as [q|]; [|reflexivity].
  set (p := _normalize_guid q).
  unfold bind at 1. unfold role_assignments_list_for_scope.
  destruct (fault env (events w) (CallList S)) as [e|]; [reflexivity|].
  destruct (scan_spec target p (filter (at_scope S) (assignments w))) as (H1 & H2 & H3).
  cbv zeta in H1, H2, H3.
  change (contains owner_role_id target) with (Spec.is_owner_role target).
  change (contains admin_role_id target) with (Spec.is_admin_role target).
  rewrite H1, H2, H3. clear H1 H2 H3.
  set (l := filter (at_scope S) (assignments w)).
  set (w1 := record (CallList S) None w).
  destruct (negb (Spec.is_owner_role target) && Spec.holds p Spec.is_owner_role l
            && negb (Spec.is_admin_role target)); [reflexivity|].
  destruct (Spec.holds p (fun r => String.eqb r target) l).
  - destruct (Spec.is_owner_role target).
    + unfold bind. now rewrite remove_redundant_returns.
    + reflexivity.
  - unfold bind at 1. cbn [uuid_uuid4].
    unfold bind at 1. unfold role_assignments_create at 1.
    change (events {| assignments := assignments w1; events := events w1;
                      uuid_draws := Datatypes.S (uuid_draws w1);
                      warnings := warnings w1 |}) with (events w1).
    change (uuid_draws w1) with (uuid_draws w).
    destruct (fault env (events w1)
                (CallCreate S (uuid4 env (uuid_draws w)) target p
                   (_detect_principal_type env p))) as [e|] eqn:Hf.
    + reflexivity.
    + unfold role_assignments_create. cbn [uuid_uuid4 snd events].
      rewrite Hf.
      destruct (Spec.is_owner_role target).
      * unfold bind. now rewrite remove_redundant_returns.
      * reflexivity.
Qed.

End VaultRuns.

Section LesserRoles.

Import PyStr Azure VaultRoleManager.
Local Open Scope list_scope.

Variable env : Env.

(** C5: reconciling a non-Owner vault role for a principal that already holds
    Owner at the scope (the scope parses, the principal resolves and the list
    call is answered): a role other than Administrator is reported satisfied
    with no create and no delete call and an unchanged store; for the
    Administrator role one create call is issued when the exact assignment is
    absent, adding the Administrator assignment when the provider accepts it,
    and none when it is present. *)
Theorem lesser_role_when_owner_held (S target P p : string) (w : World) :
  nth_error (split "/" S) 2 <> None ->
  Spec.resolve_principal env P = Some p ->
  fault env (events w) (CallList S) = None ->
  Spec.is_owner_role target = false ->
  Spec.holds p Spec.is_owner_role (filter (at_scope S) (assignments w)) = true ->
  let r := assign_role_to_user env S target P w in
  let evs := events_since w (snd r) in
  let exact := Spec.holds p (fun x => String.eqb x target)
                 (filter (at_scope S) (assignments w)) in
  let create := CallCreate S (uuid4 env (uuid_draws w)) target p
                  (_detect_principal_type env p) in
  (Spec.is_admin_role target = false ->
     fst r = true /\ Spec.count_mutations evs = 0 /\
     assignments (snd r) = assignments w) /\
  (Spec.is_admin_role target = true -> exact = false ->
     exists outcome,
       evs = [ {| call := create; raised := outcome |};
               {| call := CallList S; raised := None |} ] /\
       (outcome = None ->
          fst r = true /\
          assignments (snd r) =
            assignments w ++ [ {| name := uuid4 env (uuid_draws w); scope := S;
                                   role_definition_id := target; principal_id := p;
                                   principal_type := _detect_principal_type env p |} ])) /\
  (Spec.is_admin_role target = true -> exact = true ->
     fst r = true /\ Spec.count_mutations evs = 0 /\
     assignments (snd r) = assignments w).
Proof.
  intros Hparts Hp Hlist Hno Hown. cbv zeta.
  rewrite assign_role_to_user_unfold.
  destruct (nth_error (split "/" S) 2); [|congruence].
  rewrite Hp, Hlist. cbv zeta. rewrite Hno, Hown. cbn [negb andb].
  split; [|split].
  - intros ->. cbn [negb fst snd]. rewrite events_since_record.
    repeat split.
  - intros -> ->. cbn [negb].
    destruct (fault env (events (record (CallList S) None w)) _) as [e|] eqn:Hf.
    + exists (Some e). split; [|discriminate].
      cbn [snd]. now apply events_since_app.
    + destruct (created_world env S _ target p _ _ Hf) as (Ha & He & _).
      exists None. split.
      * cbn [snd remove_redundant ret]. apply events_since_app. now rewrite He.
      * intros _. split; [reflexivity | exact Ha].
  - intros -> ->. cbn [negb fst snd remove_redundant ret].
    rewrite events_since_record. repeat split.
Qed.

End LesserRoles.

Import Azure.

Lemma lesser_role_when_owner_held_witness :
  let env := Scenario.environment Scenario.no_faults Scenario.caller in
  let w := Scenario.world [Scenario.held "held-owner" Scenario.owner_definition] in
  let reader := FunctionApp.role_definition "test-subscription-id"
                  "acdd72a7-3385-48ef-bd42-f606fba81ae7" in
  (fst (VaultRoleManager.assign_role_to_user env Scenario.vault_uri reader Scenario.caller w) = true /\
   assignments (snd (VaultRoleManager.assign_role_to_user env Scenario.vault_uri reader Scenario.caller w))
     = assignments w) /\
  exists outcome,
    events_since w
      (snd (VaultRoleManager.assign_role_to_user env Scenario.vault_uri Scenario.admin_definition
              Scenario.caller w))
    = [ {| call := CallCreate Scenario.vault_uri "assignment-" Scenario.admin_definition
                     Scenario.caller "ServicePrincipal";
           raised := outcome |};
        {| call := CallList Scenario.vault_uri; raised := None |} ].
Proof.
  cbv zeta. split.
  - destruct (lesser_role_when_owner_held
                (Scenario.environment Scenario.no_faults Scenario.caller)
                Scenario.vault_uri
                (FunctionApp.role_definition "test-subscription-id"
                   "acdd72a7-3385-48ef-bd42-f606fba81ae7")
                Scenario.caller Scenario.caller
                (Scenario.world [Scenario.held "held-owner" Scenario.owner_definition]))
      as (H & _ & _); try reflexivity; try discriminate.
    destruct (H eq_refl) as (H1 & _ & H3). now split.
  - destruct (lesser_role_when_owner_held
                (Scenario.environment Scenario.no_faults Scenario.caller)
                Scenario.vault_uri Scenario.admin_definition
                Scenario.caller Scenario.caller
                (Scenario.world [Scenario.held "held-owner" Scenario.owner_definition]))
      as (_ & H & _); try reflexivity; try discriminate.
    destruct (H eq_refl eq_refl) as (outcome & Hev & _).
    exists outcome. exact Hev.
Defined.

(** ** The storage reconciler *)

Section StorageRuns.

Import PyStr StorageRoleManager.
Local Open Scope list_scope.

Variable env : Env.

(** [_assign_role_to_storage_account] as a decision tree over the provider's
    answers. *)
Lemma assign_role_to_storage_account_unfold (S target P role_id : string) (w : World) :
  _assign_role_to_storage_account env S target P role_id w =
  match nth_error (split "/" S) 2 with
  | None => (false, w)
  | Some _ =>
      match Spec.resolve_principal env P with
      | None => (false, w)
      | Some p =>
          match fault env (events w) (CallList S) with
          | Some e => (VaultRoleManager.on_exception e, record (CallList S) (Some e) w)
          | None =>
              let w1 := record (CallList S) None w in
              let l := filter (at_scope S) (assignments w) in
              if Spec.holds p (fun r => String.eqb r target) l then (true, w1)
              else
                let n := uuid4 env (uuid_draws w) in
                let t := _detect_principal_type env p in
                match fault env (events w1) (CallCreate S n target p t) with
                | Some e =>
                    (VaultRoleManager.on_exception e,
                     record (CallCreate S n target p t) (Some e) (snd (uuid_uuid4 env w1)))
                | None =>
                    (true,
                     snd (role_assignments_create env S n target p t
                            (snd (uuid_uuid4 env w1))))
                end
          end
      end
  end.
Proof.
  unfold _assign_role_to_storage_account, try_return,
    _assign_role_to_storage_account_try, index.
  destruct (nth_error (split "/" S) 2) as [sub|]; [|reflexivity].
  unfold bind at 1. cbn [ret]. cbv zeta.
  set (resolved := if negb (_is_guid env P) then _ else _).
  assert (R : Spec.resolve_principal env P
              = match resolved with
                | Some q => Some (_normalize_guid q)
                | None => None
                end).
  { subst resolved. unfold Spec.resolve_principal, _is_guid.
    destruct (uuid_UUID env P); cbn [negb]; [reflexivity|].
    change (VaultRoleManager.get_principal_id_for_user env P)
      with (get_principal_id_for_user env P).
    destruct (get_principal_id_for_user env P) as [o|]; [|reflexivity].
    destruct (truthy o); reflexivity. }
  rewrite R. clear R.
  destruct resolved as [q|]; [|reflexivity].
  set (p := _normalize_guid q).
  unfold bind at 1. unfold role_assignments_list_for_scope.
  destruct (fault env (events w) (CallList S)) as [e|]; [reflexivity|].
  change (existsb _ (filter (at_scope S) (assignments w)))
    with (Spec.holds p (fun r => String.eqb r target)
            (filter (at_scope S) (assignments w))).
  destruct (Spec.holds p _ _); [reflexivity|].
  unfold bind at 1. cbn [uuid_uuid4].
  unfold bind at 1. unfold role_assignments_create at 1.
  set (w1 := record (CallList S) None w).
  change (events {| assignments := assignments w1; events := events w1;
                    uuid_draws := Datatypes.S (uuid_draws w1);
                    warnings := warnings w1 |}) with (events w1).
  change (uuid_draws w1) with (uuid_draws w).
  destruct (fault env (events w1)
              (CallCreate S (uuid4 env (uuid_draws w)) target p
                 (_detect_principal_type env p))) as [e|] eqn:Hf.
  - reflexivity.
  - unfold role_assignments_create. cbn [uuid_uuid4 snd events].
    now rewrite Hf.
Qed.

End StorageRuns.

(** ** Provider errors on create *)

Section CreateErrors.

Import PyStr Azure.
Local Open Scope list_scope.

Variable env : Env.

Lemma on_exception_outcome (e : Exn) :
  VaultRoleManager.on_exception e = Spec.create_error_outcome e.
Proof.
  destruct e as [msg|msg]; [|reflexivity].
  unfold VaultRoleManager.on_exception, Spec.create_error_outcome.
  destruct (contains "already exists" msg), (contains "PrincipalNotFound" msg);
    reflexivity.
Qed.

Lemma deletes_are_not_creates (s : string) (l : list RoleAssignment) (new : list Event) :
  map call new = rev (map (fun a => CallDelete s (name a)) l) ->
  forall ev, In ev new -> is_create (call ev) = false /\ is_delete (call ev) = true.
Proof.
  intros H ev Hin. apply (in_map call) in Hin. rewrite H in Hin.
  apply in_rev in Hin. apply in_map_iff in Hin as [a [<- _]]. now split.
Qed.

Lemma vault_create_error (S target P : string) (w : World) (ev : Event) (e : Exn) :
  In ev (events_since w (snd (VaultRoleManager.assign_role_to_user env S target P w))) ->
  is_create (call ev) = true -> raised ev = Some e ->
  fst (VaultRoleManager.assign_role_to_user env S target P w)
    = Spec.create_error_outcome e.
Proof.
  rewrite assign_role_to_user_unfold.
  destruct (nth_error (split "/" S) 2);
    [|cbn [snd]; rewrite events_since_refl; intros []].
  destruct (Spec.resolve_principal env P) as [p|];
    [|cbn [snd]; rewrite events_since_refl; intros []].
  destruct (fault env (events w) (CallList S)) as [e0|].
  { cbn [snd]. rewrite events_since_record. intros [<-|[]]; discriminate. }
  cbv zeta.
  set (l := filter (at_scope S) (assignments w)).
  set (red := if Spec.is_owner_role target then Spec.others p target l else []).
  set (w1 := record (CallList S) None w).
  destruct (_ && _ && _).
  { cbn [snd]. subst w1. rewrite events_since_record. intros [<-|[]]; discriminate. }
  destruct (Spec.holds p _ l).
  { cbn [snd].
    destruct (remove_redundant_spec env S red w1) as (new & He & Hc & _).
    cbv zeta in He.
    rewrite (events_since_app w _ (new ++ [{| call := CallList S; raised := None |}]));
      [|rewrite He, <- app_assoc; reflexivity].
    intros Hin Hcr _. apply in_app_or in Hin as [Hin|[<-|[]]]; [|discriminate].
    destruct (deletes_are_not_creates S red new Hc ev Hin). congruence. }
  set (pt := VaultRoleManager._detect_principal_type env p).
  destruct (fault env (events w1) _) as [e0|] eqn:Hf.
  - cbn [snd fst].
    rewrite (events_since_app w _
               [{| call := CallCreate S (uuid4 env (uuid_draws w)) target p pt;
                   raised := Some e0 |};
                {| call := CallList S; raised := None |}]) by reflexivity.
    intros [<-|[<-|[]]] Hcr Hr; [|discriminate].
    cbn in Hr. injection Hr as ->. apply on_exception_outcome.
  - cbn [snd].
    destruct (created_world env S _ target p _ _ Hf) as (_ & He2 & _).
    cbv zeta in He2.
    destruct (remove_redundant_spec env S red
                (snd (role_assignments_create env S (uuid4 env (uuid_draws w)) target p
                        pt (snd (uuid_uuid4 env w1)))))
      as (new & He & Hc & _).
    cbv zeta in He.
    rewrite (events_since_app w _
               (new ++ [{| call := CallCreate S (uuid4 env (uuid_draws w)) target p pt;
                           raised := None |};
                        {| call := CallList S; raised := None |}]));
      [|rewrite He, He2, <- app_assoc; reflexivity].
    intros Hin Hcr Hr. apply in_app_or in Hin as [Hin|[<-|[<-|[]]]]; try discriminate.
    destruct (deletes_are_not_creates S red new Hc ev Hin). congruence.
Qed.

Lemma storage_create_error (S target P role_id : string) (w : World) (ev : Event)
    (e : Exn) :
  In ev (events_since w
           (snd (StorageRoleManager._assign_role_to_storage_account env S target P
                   role_id w))) ->
  is_create (call ev) = true -> raised ev = Some e ->
  fst (StorageRoleManager._assign_role_to_storage_account env S target P role_id w)
    = Spec.create_error_outcome e.
Proof.
  rewrite assign_role_to_storage_account_unfold.
  destruct (nth_error (split "/" S) 2);
    [|cbn [snd]; rewrite events_since_refl; intros []].
  destruct (Spec.resolve_principal env P) as [p|];
    [|cbn [snd]; rewrite events_since_refl; intros []].
  destruct (fault env (events w) (CallList S)) as [e0|].
  { cbn [snd]. rewrite events_since_record. intros [<-|[]]; discriminate. }
  cbv zeta.
  set (w1 := record (CallList S) None w).
  destruct (Spec.holds p _ _).
  { cbn [snd]. subst w1. rewrite events_since_record. intros [<-|[]]; discriminate. }
  set (pt := StorageRoleManager._detect_principal_type env p).
  destruct (fault env (events w1) _) as [e0|] eqn:Hf.
  - cbn [snd fst].
    rewrite (events_since_app w _
               [{| call := CallCreate S (uuid4 env (uuid_draws w)) target p pt;
                   raised := Some e0 |};
                {| call := CallList S; raised := None |}]) by reflexivity.
    intros [<-|[<-|[]]] Hcr Hr; [|discriminate].
    cbn in Hr. injection Hr as ->. apply on_exception_outcome.
  - cbn [snd].
    destruct (created_world env S _ target p _ _ Hf) as (_ & He2 & _).
    cbv zeta in He2.
    rewrite (events_since_app w _
               [{| call := CallCreate S (uuid4 env (uuid_draws w)) target p pt;
                   raised := None |};
                {| call := CallList S; raised := None |}]) by (now rewrite He2).
    intros [<-|[<-|[]]]; discriminate.
Qed.

End CreateErrors.

(** ** Sibling pairs *)

Section Siblings.

Import PyStr Azure StorageRoleManager.
Local Open Scope list_scope.

Variable env : Env.

Lemma get_set_same {V} (d : PyDict.t V) (k : string) (v : V) :
  PyDict.get (PyDict.set d k v) k = Some v.
Proof.
  induction d as [|[k' v'] d IH]; cbn.
  - now rewrite String.eqb_refl.
  - destruct (String.eqb k' k) eqn:E; cbn.
    + now rewrite String.eqb_refl.
    + now rewrite E.
Qed.

Lemma get_set_other {V} (d : PyDict.t V) (k k' : string) (v : V) :
  k' <> k -> PyDict.get (PyDict.set d k v) k' = PyDict.get d k'.
Proof.
  intros Hne. induction d as [|[k0 v0] d IH]; cbn.
  - destruct (String.eqb k k') eqn:E; [|reflexivity].
    apply String.eqb_eq in E. congruence.
  - destruct (String.eqb k0 k) eqn:E; cbn.
    + apply String.eqb_eq in E. subst k0.
      destruct (String.eqb k k') eqn:E'; [|reflexivity].
      apply String.eqb_eq in E'. congruence.
    + now rewrite IH.
Qed.

(** The loop over the roles of one account never raises and leaves an
    outcome for every role, whatever the outcomes are. *)
Lemma assign_roles_of_account_complete (sid sname sub P : string) (roles : list string) :
  forall (results : PyDict.t (PyDict.t bool)) (inner0 : PyDict.t bool) (w : World),
    PyDict.get results sname = Some inner0 ->
    exists d w' inner,
      assign_roles_of_account env sid sname sub P roles results w = (inr d, w') /\
      PyDict.get d sname = Some inner /\
      (forall k, k <> sname -> PyDict.get d k = PyDict.get results k) /\
      (forall role, In role roles \/ (exists b, PyDict.get inner0 role = Some b) ->
         exists b, PyDict.get inner role = Some b).
Proof.
  induction roles as [|role roles IH]; intros results inner0 w Hget.
  - exists results, w, inner0. cbn. repeat split; try assumption.
    intros role [[]|H]; exact H.
  - cbn [assign_roles_of_account]. unfold bind at 1, lift.
    destruct (_assign_role_to_storage_account env sid _ P role w) as [success w1].
    rewrite Hget.
    destruct (IH (PyDict.set results sname (PyDict.set inner0 role success))
                (PyDict.set inner0 role success) w1 (get_set_same _ _ _))
      as (d & w' & inner & Hrun & Hd & Hother & Hroles).
    exists d, w', inner. split; [exact Hrun|]. split; [exact Hd|]. split.
    + intros k Hk. rewrite (Hother k Hk). now apply get_set_other.
    + intros r [[<-|Hin]|[b Hb]].
      * apply Hroles. right. exists success. apply get_set_same.
      * apply Hroles. now left.
      * apply Hroles. right.
        destruct (String.eqb role r) eqn:E.
        -- apply String.eqb_eq in E. subst r. exists success. apply get_set_same.
        -- exists b. rewrite get_set_other; [exact Hb|].
           intros ->. now rewrite String.eqb_refl in E.
Qed.

(** The loop over the accounts leaves a complete entry for every account
    whose identifier has a subscription segment. *)
Lemma assign_accounts_complete (P : string) (roles : list string) (ids : list string) :
  forall (results : PyDict.t (PyDict.t bool)) (w : World),
    (forall id, In id ids -> nth_error (split "/" id) 2 <> None) ->
    exists d w',
      assign_accounts env ids roles P results w = (inr d, w') /\
      forall k, Spec.complete roles results k \/
                (exists id, In id ids /\ last_segment id = k) ->
                Spec.complete roles d k.
Proof.
  induction ids as [|id ids IH]; intros results w Hwf.
  - exists results, w. split; [reflexivity|].
    intros k [H|[id [[] _]]]. exact H.
  - cbn [assign_accounts]. cbv zeta. unfold bind at 1, index.
    destruct (nth_error (split "/" id) 2) as [sub|] eqn:Hsub;
      [|exfalso; now apply (Hwf id (or_introl eq_refl))].
    cbn [ret]. unfold bind at 1.
    destruct (assign_roles_of_account_complete id (last_segment id) sub P roles
                (PyDict.set results (last_segment id) []) [] w (get_set_same _ _ _))
      as (d1 & w1 & inner & Hrun & Hd1 & Hother & Hroles).
    rewrite Hrun.
    destruct (IH d1 w1) as (d & w' & Hrun' & Hall).
    { intros x Hx. apply Hwf. now right. }
    exists d, w'. split; [exact Hrun'|].
    intros k Hk. apply Hall.
    destruct (String.eqb k (last_segment id)) eqn:E.
    + apply String.eqb_eq in E. subst k. left.
      exists inner. split; [exact Hd1|]. intros role Hin. apply Hroles. now left.
    + assert (Hne : k <> last_segment id)
        by (intros ->; now rewrite String.eqb_refl in E).
      destruct Hk as [(i & Hi & Hr)|(x & [<-|Hx] & Hlast)].
      * left. exists i. split; [|exact Hr].
        rewrite (Hother k Hne). now rewrite get_set_other.
      * congruence.
      * right. now exists x.
Qed.

(** Every (account, role) pair of the cascade has an outcome in the result,
    whatever the outcomes of the other pairs. *)
Lemma assign_storage_roles_complete (ids : list string) (vault_role P : string)
    (w : World) :
  (forall id, In id ids -> nth_error (split "/" id) 2 <> None) ->
  exists d w',
    assign_storage_roles_to_user env ids vault_role P w = (inr d, w') /\
    forall id role,
      In id ids -> In role (get_storage_role_assignments_for_vault_role vault_role) ->
      exists inner b,
        PyDict.get d (last_segment id) = Some inner /\ PyDict.get inner role = Some b.
Proof.
  intros Hwf. unfold assign_storage_roles_to_user.
  destruct ids as [|id ids].
  - exists [], w. split; [reflexivity|]. intros id role [].
  - destruct (get_storage_role_assignments_for_vault_role vault_role) as [|r roles] eqn:E.
    + exists [], w. split; [reflexivity|]. intros x role _ [].
    + destruct (assign_accounts_complete P (r :: roles) (id :: ids) [] w Hwf)
        as (d & w' & Hrun & Hall).
      exists d, w'. split; [exact Hrun|].
      intros x role Hx Hrole.
      destruct (Hall (last_segment x)) as (inner & Hget & Hroles);
        [right; now exists x|].
      destruct (Hroles role Hrole) as [b Hb].
      now exists inner, b.
Qed.

(** The HTTP function reconciles the Administrator role after the Owner role
    whatever the Owner outcome was, and reports both outcomes. *)
Lemma both_vault_roles_attempted (uri sub user : string) (creator : option string)
    (w w' : World) (resp : FunctionApp.HttpResponse) :
  FunctionApp.assign_and_respond env uri sub user creator w = (inr resp, w') ->
  let o := VaultRoleManager.assign_role_to_user env uri
             (FunctionApp.role_definition sub VaultRoleManager.owner_role_id) user w in
  let a := VaultRoleManager.assign_role_to_user env uri
             (FunctionApp.role_definition sub VaultRoleManager.admin_role_id) user (snd o) in
  exists success is_c report,
    FunctionApp.body resp
      = FunctionApp.ResultBody success (fst o) (fst a) uri user is_c report.
Proof.
  unfold FunctionApp.assign_and_respond. cbv zeta.
  unfold bind at 1, lift at 1, FunctionApp.await at 1.
  change "8e3af657-a8ff-443c-a75c-2fe8c4bcb635" with VaultRoleManager.owner_role_id.
  change "00482a5a-887f-4fb3-b363-3b7fe8e74483" with VaultRoleManager.admin_role_id.
  destruct (VaultRoleManager.assign_role_to_user env uri
              (FunctionApp.role_definition sub VaultRoleManager.owner_role_id) user w)
    as [o w1].
  cbn [fst snd].
  unfold bind at 1, lift at 1, FunctionApp.await at 1.
  destruct (VaultRoleManager.assign_role_to_user env uri
              (FunctionApp.role_definition sub VaultRoleManager.admin_role_id) user w1)
    as [a w2].
  cbn [fst snd]. unfold bind at 1.
  match goal with
  | |- (match ?c w2 with _ => _ end) = _ -> _ => destruct (c w2) as [[ex|results] w3]
  end; [discriminate|].
  match goal with
  | |- (if ?b then _ else _) w3 = _ -> _ => destruct b
  end; intros H; injection H as <- _; cbn [FunctionApp.body];
    do 3 eexists; reflexivity.
Qed.

End Siblings.

(** C6: in both reconcilers, when the provider answers the create call of a
    pair with an error, an error response whose message contains
    [already exists] or [PrincipalNotFound] makes the pair's outcome success
    and any other error makes it failure; the outcome is a returned boolean,
    so the cascade still records an outcome for every (account, role) pair
    and the HTTP function still reconciles the Administrator role after the
    Owner role and reports both. *)
Theorem create_errors_are_outcomes (env : Env) :
  (forall S target P w ev e,
     In ev (events_since w (snd (VaultRoleManager.assign_role_to_user env S target P w))) ->
     is_create (call ev) = true -> raised ev = Some e ->
     fst (VaultRoleManager.assign_role_to_user env S target P w)
       = Spec.create_error_outcome e) /\
  (forall S target P role_id w ev e,
     In ev (events_since w
              (snd (StorageRoleManager._assign_role_to_storage_account env S target P
                      role_id w))) ->
     is_create (call ev) = true -> raised ev = Some e ->
     fst (StorageRoleManager._assign_role_to_storage_account env S target P role_id w)
       = Spec.create_error_outcome e) /\
  (forall ids vault_role P w,
     (forall id, In id ids -> nth_error (PyStr.split "/" id) 2 <> None) ->
     exists d w',
       StorageRoleManager.assign_storage_roles_to_user env ids vault_role P w
         = (inr d, w') /\
       forall id role,
         In id ids ->
         In role (StorageRoleManager.get_storage_role_assignments_for_vault_role vault_role) ->
         exists inner b,
           PyDict.get d (StorageRoleManager.last_segment id) = Some inner /\
           PyDict.get inner role = Some b) /\
  (forall uri sub user creator w w' resp,
     FunctionApp.assign_and_respond env uri sub user creator w = (inr resp, w') ->
     let o := VaultRoleManager.assign_role_to_user env uri
                (FunctionApp.role_definition sub VaultRoleManager.owner_role_id) user w in
     let a := VaultRoleManager.assign_role_to_user env uri
                (FunctionApp.role_definition sub VaultRoleManager.admin_role_id) user
                (snd o) in
     exists success is_c report,
       FunctionApp.body resp
         = FunctionApp.ResultBody success (fst o) (fst a) uri user is_c report).
Proof.
  split; [|split; [|split]].
  - intros. eapply vault_create_error; eassumption.
  - intros. eapply storage_create_error; eassumption.
  - intros. now apply assign_storage_roles_complete.
  - intros. eapply both_vault_roles_attempted; eassumption.
Qed.

Lemma create_errors_are_outcomes_witness :
  fst (VaultRoleManager.assign_role_to_user
         (Scenario.environment Scenario.conflict Scenario.caller)
         Scenario.vault_uri Scenario.owner_definition Scenario.caller (Scenario.world []))
    = true /\
  fst (VaultRoleManager.assign_role_to_user
         (Scenario.environment Scenario.forbidden Scenario.caller)
         Scenario.vault_uri Scenario.owner_definition Scenario.caller (Scenario.world []))
    = false /\
  fst (StorageRoleManager._assign_role_to_storage_account
         (Scenario.environment Scenario.principal_not_found Scenario.caller)
         (Scenario.storage_uri "Vaults" "alpha")
         (FunctionApp.role_definition "test-subscription-id"
            StorageRoleManager.STORAGE_BLOB_DATA_OWNER_ROLE_ID)
         Scenario.caller StorageRoleManager.STORAGE_BLOB_DATA_OWNER_ROLE_ID
         (Scenario.world []))
    = true.
Proof.
  split; [|split].
  - refine (proj1 (create_errors_are_outcomes
                     (Scenario.environment Scenario.conflict Scenario.caller))
              Scenario.vault_uri Scenario.owner_definition Scenario.caller
              (Scenario.world [])
              {| call := CallCreate Scenario.vault_uri "assignment-"
                           Scenario.owner_definition Scenario.caller "ServicePrincipal";
                 raised := Some (HttpResponseError
                   "(RoleAssignmentExists) The role assignment already exists.") |}
              (HttpResponseError "(RoleAssignmentExists) The role assignment already exists.")
              _ eq_refl eq_refl).
    vm_compute. left. reflexivity.
  - refine (proj1 (create_errors_are_outcomes
                     (Scenario.environment Scenario.forbidden Scenario.caller))
              Scenario.vault_uri Scenario.owner_definition Scenario.caller
              (Scenario.world [])
              {| call := CallCreate Scenario.vault_uri "assignment-"
                           Scenario.owner_definition Scenario.caller "ServicePrincipal";
                 raised := Some (HttpResponseError "(AuthorizationFailed) Forbidden") |}
              (HttpResponseError "(AuthorizationFailed) Forbidden")
              _ eq_refl eq_refl).
    vm_compute. left. reflexivity.
  - refine (proj1 (proj2 (create_errors_are_outcomes
                     (Scenario.environment Scenario.principal_not_found Scenario.caller)))
              (Scenario.storage_uri "Vaults" "alpha")
              (FunctionApp.role_definition "test-subscription-id"
                 StorageRoleManager.STORAGE_BLOB_DATA_OWNER_ROLE_ID)
              Scenario.caller StorageRoleManager.STORAGE_BLOB_DATA_OWNER_ROLE_ID
              (Scenario.world [])
              {| call := CallCreate (Scenario.storage_uri "Vaults" "alpha") "assignment-"
                           (FunctionApp.role_definition "test-subscription-id"
                              StorageRoleManager.STORAGE_BLOB_DATA_OWNER_ROLE_ID)
                           Scenario.caller "ServicePrincipal";
                 raised := Some (HttpResponseError
                   "(PrincipalNotFound) Principal does not exist in the directory") |}
              (HttpResponseError
                 "(PrincipalNotFound) Principal does not exist in the directory")
              _ eq_refl eq_refl).
    vm_compute. left. reflexivity.
Defined.

(** ** Redundant cleanup *)

Section Cleanup.

Import PyStr Azure VaultRoleManager.
Local Open Scope list_scope.

Variable env : Env.

Lemma call_eqb_eq (c d : Call) : call_eqb c d = true <-> c = d.
Proof.
  destruct c, d; cbn; try (split; [discriminate | congruence]);
    rewrite ?andb_true_iff, ?String.eqb_eq; split.
  - congruence.
  - now injection 1.
  - intros [[[[-> ->] ->] ->] ->]. reflexivity.
  - injection 1 as -> -> -> -> ->. repeat split.
  - intros [-> ->]. reflexivity.
  - injection 1 as -> ->. now split.
Qed.

Lemma NoDup_map_filter {A B} (f : A -> B) (g : A -> bool) (l : list A) :
  NoDup (map f l) -> NoDup (map f (filter g l)).
Proof.
  induction l as [|x l IH]; cbn; intros H; [constructor|].
  inversion H as [|? ? Hx Hl]; subst.
  destruct (g x); cbn; [|now apply IH].
  constructor; [|now apply IH].
  intros Hin. apply Hx. apply in_map_iff in Hin as [y [Hy Hin]].
  apply filter_In in Hin as [Hin _]. rewrite <- Hy. now apply in_map.
Qed.

Lemma NoDup_map_injective {A B} (f : A -> B) (l : list A) :
  (forall x y, f x = f y -> x = y) -> NoDup l -> NoDup (map f l).
Proof.
  intros Hinj. induction 1 as [|x l Hx Hl IH]; cbn; constructor; [|exact IH].
  intros Hin. apply in_map_iff in Hin as [y [Hy Hin]].
  apply Hinj in Hy. now subst y.
Qed.

(** Among events with pairwise distinct calls, exactly one carries a given
    call that occurs. *)
Lemma filter_single (evs : list Event) (c : Call) :
  NoDup (map call evs) -> In c (map call evs) ->
  exists outcome,
    filter (fun ev => call_eqb (call ev) c) evs = [ {| call := c; raised := outcome |} ] /\
    In {| call := c; raised := outcome |} evs.
Proof.
  induction evs as [|[c0 r0] evs IH]; cbn; intros Hnd Hin; [destruct Hin|].
  inversion Hnd as [|? ? Hx Hl]; subst.
  destruct (call_eqb c0 c) eqn:E.
  - apply call_eqb_eq in E. subst c0. exists r0. split; [|now left].
    f_equal. clear IH Hin Hnd Hl.
    induction evs as [|e evs IH]; [reflexivity|].
    cbn. destruct (call_eqb (call e) c) eqn:E.
    + apply call_eqb_eq in E. exfalso. apply Hx. left. exact E.
    + apply IH. intros H. apply Hx. now right.
  - destruct Hin as [->|Hin].
    + assert (H : call_eqb c c = true) by now apply call_eqb_eq.
      congruence.
    + destruct (IH Hl Hin) as (o & Hf & Ho). exists o. split; [exact Hf | now right].
Qed.

Lemma filter_none (evs : list Event) (c : Call) :
  (forall ev, In ev evs -> call ev <> c) ->
  filter (fun ev => call_eqb (call ev) c) evs = [].
Proof.
  induction evs as [|e evs IH]; intros H; [reflexivity|].
  cbn. destruct (call_eqb (call e) c) eqn:E.
  - apply call_eqb_eq in E. exfalso. now apply (H e (or_introl eq_refl)).
  - apply IH. intros ev Hin. apply H. now right.
Qed.

(** After the deletion loop over [red], started in a world whose newest
    events are [base], exactly one delete call names each member of [red],
    and that member is gone when its call was answered without error. *)
Lemma cleanup_deletes_once (S : string) (red : list RoleAssignment) (w0 w1 : World)
    (base : list Event) (a : RoleAssignment) :
  events w1 = base ++ events w0 ->
  (forall ev, In ev base -> is_delete (call ev) = false) ->
  NoDup (map name red) -> In a red -> scope a = S ->
  exists outcome,
    filter (fun ev => call_eqb (call ev) (CallDelete S (name a)))
      (events_since w0 (snd (remove_redundant env S red w1)))
    = [ {| call := CallDelete S (name a); raised := outcome |} ] /\
    (outcome = None -> ~ In a (assignments (snd (remove_redundant env S red w1)))).
Proof.
  intros Hbase Hnodel Hnd Hin Hscope.
  destruct (remove_redundant_spec env S red w1)
    as (new & He & Hc & _ & _ & _ & Hdel & _).
  cbv zeta in He, Hdel.
  rewrite (events_since_app w0 _ (new ++ base))
    by (rewrite He, Hbase, app_assoc; reflexivity).
  assert (Hnd' : NoDup (map call new)).
  { rewrite Hc. apply NoDup_rev. rewrite <- (map_map name (CallDelete S)).
    apply NoDup_map_injective; [|exact Hnd].
    intros x y H. now injection H. }
  assert (Hin' : In (CallDelete S (name a)) (map call new)).
  { rewrite Hc. apply -> in_rev.
    apply (in_map (fun x => CallDelete S (name x))) in Hin. exact Hin. }
  destruct (filter_single new _ Hnd' Hin') as (outcome & Hf & Hev).
  exists outcome. split.
  - rewrite filter_app, Hf, (filter_none base); [reflexivity|].
    intros ev Hev' Hcall. specialize (Hnodel ev Hev'). now rewrite Hcall in Hnodel.
  - intros -> Ha. specialize (Hdel (name a) Hev a Ha).
    unfold named in Hdel. rewrite Hscope, !String.eqb_refl in Hdel. discriminate.
Qed.

End Cleanup.

Section OwnerGrant.

Import PyStr Azure VaultRoleManager.
Local Open Scope list_scope.

Variable env : Env.

Lemma admin_assignment_is_other (target : string) (a : RoleAssignment) :
  Spec.is_admin_role target = false ->
  Spec.is_admin_role (role_definition_id a) = true ->
  String.eqb (role_definition_id a) target = false.
Proof.
  intros Ht Ha. destruct (String.eqb (role_definition_id a) target) eqn:E;
    [|reflexivity].
  apply String.eqb_eq in E. congruence.
Qed.

(** C4 (amended): principal [P] holds an Administrator assignment [a] at
    scope [S], whose assignment names are unique.  In a run granting Owner to
    [P] at [S] in which the list call and the create call, if one is issued,
    are answered without error, exactly one delete call is issued for [a],
    the outcome is success whether or not delete calls fail, and [a] is gone
    from the store when its delete call was accepted. *)
Theorem owner_grant_removes_redundant (S target P p : string) (w : World)
    (a : RoleAssignment) :
  nth_error (split "/" S) 2 <> None ->
  Spec.resolve_principal env P = Some p ->
  Spec.is_owner_role target = true ->
  Spec.is_admin_role target = false ->
  Spec.unique_names S (assignments w) ->
  In a (assignments w) -> scope a = S -> principal_id a = p ->
  Spec.is_admin_role (role_definition_id a) = true ->
  let r := assign_role_to_user env S target P w in
  let evs := events_since w (snd r) in
  (forall ev, In ev evs -> is_delete (call ev) = false -> raised ev = None) ->
  fst r = true /\
  exists outcome,
    filter (fun ev => call_eqb (call ev) (CallDelete S (name a))) evs
      = [ {| call := CallDelete S (name a); raised := outcome |} ] /\
    (outcome = None -> ~ In a (assignments (snd r))).
Proof.
  intros Hparts Hp Hown Hadm Huniq Hin Hscope Hprin Harole. cbv zeta.
  rewrite assign_role_to_user_unfold.
  destruct (nth_error (split "/" S) 2); [|congruence].
  rewrite Hp.
  destruct (fault env (events w) (CallList S)) as [e|] eqn:Hl.
  { cbn [snd]. rewrite events_since_record. intros H.
    specialize (H _ (or_introl eq_refl) eq_refl). discriminate. }
  cbv zeta. rewrite Hown. cbn [negb andb].
  set (l := filter (at_scope S) (assignments w)).
  set (w1 := record (CallList S) None w).
  assert (Hred : In a (Spec.others p target l)).
  { unfold Spec.others. apply filter_In. split.
    - apply filter_In. split; [exact Hin|]. unfold at_scope.
      rewrite Hscope. apply String.eqb_refl.
    - rewrite Hprin, String.eqb_refl, (admin_assignment_is_other target a Hadm Harole).
      reflexivity. }
  assert (Hnd : NoDup (map name (Spec.others p target l))).
  { unfold Spec.others. apply NoDup_map_filter. exact Huniq. }
  destruct (Spec.holds p _ l).
  - intros _. split; [reflexivity|]. cbn [snd].
    apply (cleanup_deletes_once env S _ w w1
             [{| call := CallList S; raised := None |}]); try assumption.
    + reflexivity.
    + intros ev [<-|[]]. reflexivity.
  - set (pt := _detect_principal_type env p).
    set (n := uuid4 env (uuid_draws w)).
    destruct (fault env (events w1) (CallCreate S n target p pt)) as [e|] eqn:Hf.
    + cbn [snd]. intros H. exfalso.
      assert (Hev : events_since w
                      (record (CallCreate S n target p pt) (Some e)
                         (snd (uuid_uuid4 env w1)))
                    = [ {| call := CallCreate S n target p pt; raised := Some e |};
                        {| call := CallList S; raised := None |} ])
        by (now apply events_since_app).
      rewrite Hev in H. specialize (H _ (or_introl eq_refl) eq_refl). discriminate.
    + intros _. split; [reflexivity|]. cbn [snd].
      destruct (created_world env S n target p pt w1 Hf) as (_ & He & _).
      cbv zeta in He.
      apply (cleanup_deletes_once env S _ w _
               [{| call := CallCreate S n target p pt; raised := None |};
                {| call := CallList S; raised := None |}]); try assumption.
      intros ev [<-|[<-|[]]]; reflexivity.
Qed.

End OwnerGrant.

(** C4, as stated, fails: the caller holds the Administrator assignment at
    the vault and the provider answers the create call for Owner with
    [PrincipalNotFound]; the grant reports success and no delete call is
    issued, so the Administrator assignment stays. *)
Lemma owner_grant_without_cleanup :
  let env := Scenario.environment Scenario.principal_not_found Scenario.caller in
  let a := Scenario.held "held-admin" Scenario.admin_definition in
  let w := Scenario.world [a] in
  let r := VaultRoleManager.assign_role_to_user env Scenario.vault_uri
             Scenario.owner_definition Scenario.caller w in
  fst r = true /\
  filter (fun ev => call_eqb (call ev) (CallDelete Scenario.vault_uri (name a)))
    (events_since w (snd r)) = [] /\
  assignments (snd r) = [a].
Proof. vm_compute. repeat split. Qed.

Lemma owner_grant_removes_redundant_witness :
  let env := Scenario.environment Scenario.delete_refused Scenario.caller in
  let a := Scenario.held "held-admin" Scenario.admin_definition in
  let w := Scenario.world [a] in
  let r := VaultRoleManager.assign_role_to_user env Scenario.vault_uri
             Scenario.owner_definition Scenario.caller w in
  fst r = true /\
  exists outcome,
    filter (fun ev => call_eqb (call ev) (CallDelete Scenario.vault_uri (name a)))
      (events_since w (snd r))
    = [ {| call := CallDelete Scenario.vault_uri (name a); raised := outcome |} ] /\
    (outcome = None -> ~ In a (assignments (snd r))).
Proof.
  cbv zeta.
  apply (owner_grant_removes_redundant
           (Scenario.environment Scenario.delete_refused Scenario.caller)
           Scenario.vault_uri Scenario.owner_definition Scenario.caller Scenario.caller
           (Scenario.world [Scenario.held "held-admin" Scenario.admin_definition])
           (Scenario.held "held-admin" Scenario.admin_definition)).
  - vm_compute. discriminate.
  - vm_compute. reflexivity.
  - vm_compute. reflexivity.
  - vm_compute. reflexivity.
  - unfold Spec.unique_names. vm_compute. constructor; [intros []|constructor].
  - left. reflexivity.
  - reflexivity.
  - reflexivity.
  - vm_compute. reflexivity.
  - vm_compute. intros ev [<-|[<-|[<-|[]]]]; cbn; intros H; try reflexivity;
      discriminate.
Defined.

(** ** Running a reconciler twice *)

Section Idempotence.

Import PyStr Azure.
Local Open Scope list_scope.

Variable env : Env.

Lemma filter_nil_iff {A} (f : A -> bool) (l : list A) :
  (forall x, In x l -> f x = false) -> filter f l = [].
Proof.
  induction l as [|x l IH]; intros H; [reflexivity|].
  cbn. rewrite (H x (or_introl eq_refl)). apply IH. intros y Hy. apply H. now right.
Qed.

Lemma NoDup_map_eq {A B} (f : A -> B) (l : list A) (x y : A) :
  NoDup (map f l) -> In x l -> In y l -> f x = f y -> x = y.
Proof.
  induction l as [|z l IH]; cbn; intros Hnd Hx Hy E; [destruct Hx|].
  inversion Hnd as [|? ? Hz Hl]; subst.
  destruct Hx as [->|Hx], Hy as [->|Hy].
  - reflexivity.
  - exfalso. apply Hz. rewrite E. now apply in_map.
  - exfalso. apply Hz. rewrite <- E. now apply in_map.
  - now apply IH.
Qed.

Lemma existsb_name (n : string) (l : list RoleAssignment) :
  existsb (String.eqb n) (map name l) = true <-> In n (map name l).
Proof.
  rewrite existsb_exists. split.
  - intros [m [Hin E]]. apply String.eqb_eq in E. now subst m.
  - intros Hin. exists n. split; [exact Hin | apply String.eqb_refl].
Qed.

Lemma count_mutations_list (s : string) (r : option Exn) :
  Spec.count_mutations [ {| call := CallList s; raised := r |} ] = 0.
Proof. reflexivity. Qed.

(** A run of the vault reconciler from a settled store changes no
    assignment and issues no create and no delete call. *)
Lemma vault_run_when_settled (S target P p sub : string) (w : World) :
  nth_error (split "/" S) 2 = Some sub ->
  Spec.resolve_principal env P = Some p ->
  Spec.settled p target (filter (at_scope S) (assignments w)) ->
  let r := VaultRoleManager.assign_role_to_user env S target P w in
  assignments (snd r) = assignments w /\
  Spec.count_mutations (events_since w (snd r)) = 0 /\
  (fault env (events w) (CallList S) = None -> fst r = true).
Proof.
  intros Hparts Hp Hset. cbv zeta.
  rewrite assign_role_to_user_unfold, Hparts, Hp.
  destruct (fault env (events w) (CallList S)) as [e|].
  { cbn [snd]. rewrite events_since_record. repeat split. discriminate. }
  cbv zeta.
  destruct (negb (Spec.is_owner_role target) && _ && _) eqn:Hskip.
  { cbn [snd]. rewrite events_since_record. repeat split. }
  destruct Hset as [Hs|[Hex Hoth]]; [unfold Spec.holds in Hs, Hskip; congruence|].
  rewrite Hex.
  assert (Hred : (if Spec.is_owner_role target
                  then Spec.others p target (filter (at_scope S) (assignments w))
                  else []) = []).
  { destruct (Spec.is_owner_role target); [now apply Hoth | reflexivity]. }
  rewrite Hred. cbn [VaultRoleManager.remove_redundant ret snd fst].
  rewrite events_since_record. repeat split.
Qed.

(** A successful run of the vault reconciler in which no provider call is
    answered with an error leaves the store settled. *)
Lemma vault_run_settles (S target P p sub : string) (w : World) :
  nth_error (split "/" S) 2 = Some sub ->
  Spec.resolve_principal env P = Some p ->
  Spec.unique_names S (assignments w) ->
  ~ In (uuid4 env (uuid_draws w)) (map name (filter (at_scope S) (assignments w))) ->
  let r := VaultRoleManager.assign_role_to_user env S target P w in
  Spec.no_error (events_since w (snd r)) = true ->
  Spec.settled p target (filter (at_scope S) (assignments (snd r))).
Proof.
  intros Hparts Hp Huniq Hfresh. cbv zeta.
  rewrite assign_role_to_user_unfold, Hparts, Hp.
  destruct (fault env (events w) (CallList S)) as [e|].
  { cbn [snd]. rewrite events_since_record. discriminate. }
  cbv zeta.
  set (l := filter (at_scope S) (assignments w)) in *.
  set (w1 := record (CallList S) None w).
  set (red := if Spec.is_owner_role target then Spec.others p target l else []).
  destruct (negb (Spec.is_owner_role target) && _ && _) eqn:Hskip.
  { intros _. left. exact Hskip. }
  assert (Hredl : forall x, In x red -> In x l /\ String.eqb (principal_id x) p = true /\
                                        String.eqb (role_definition_id x) target = false).
  { subst red. intros x Hx. destruct (Spec.is_owner_role target); [|destruct Hx].
    apply filter_In in Hx as [Hl Hb]. apply andb_true_iff in Hb as [Hb1 Hb2].
    apply negb_true_iff in Hb2. auto. }
  assert (Hinred : Spec.is_owner_role target = true ->
                   forall x, In x l -> String.eqb (principal_id x) p = true ->
                             String.eqb (role_definition_id x) target = false ->
                             In x red).
  { subst red. intros -> x Hx H1 H2. apply filter_In. split; [exact Hx|].
    now rewrite H1, H2. }
  (* the store after an error-free deletion loop started from [w0] *)
  assert (Hloop : forall w0 new0,
            events w0 = new0 ++ events w ->
            Spec.no_error (events_since w
                             (snd (VaultRoleManager.remove_redundant env S red w0))) = true ->
            assignments (snd (VaultRoleManager.remove_redundant env S red w0))
            = filter (fun x => negb (at_scope S x &&
                                     existsb (String.eqb (name x)) (map name red)))
                (assignments w0)).
  { intros w0 new0 Hw0 Hno.
    destruct (remove_redundant_spec env S red w0) as (new & He & _ & _ & _ & _ & _ & Hall).
    cbv zeta in He, Hall. apply Hall.
    rewrite (events_since_app w _ (new ++ new0)) in Hno
      by (rewrite He, Hw0, app_assoc; reflexivity).
    unfold Spec.no_error in Hno |- *. rewrite forallb_app in Hno.
    now apply andb_true_iff in Hno as [Hno _]. }
  (* a kept assignment at the scope is listed after the loop *)
  assert (Hkeep : forall l0 x, In x l0 -> at_scope S x = true ->
            ~ In (name x) (map name red) ->
            In x (filter (at_scope S)
                    (filter (fun x => negb (at_scope S x &&
                                            existsb (String.eqb (name x)) (map name red)))
                       l0))).
  { intros l0 x Hx Hs Hn. apply filter_In. split; [|exact Hs].
    apply filter_In. split; [exact Hx|]. rewrite Hs. cbn [andb].
    apply negb_true_iff. destruct (existsb _ _) eqn:E; [|reflexivity].
    apply existsb_name in E. contradiction. }
  (* nothing else of [p] is listed after the loop *)
  assert (Hgone : forall l0, Spec.is_owner_role target = true ->
            (forall x, In x l0 -> at_scope S x = true ->
                       String.eqb (principal_id x) p = true ->
                       String.eqb (role_definition_id x) target = false -> In x l) ->
            Spec.others p target
              (filter (at_scope S)
                 (filter (fun x => negb (at_scope S x &&
                                         existsb (String.eqb (name x)) (map name red)))
                    l0)) = []).
  { intros l0 Hown Hl0. unfold Spec.others. apply filter_nil_iff. intros x Hx.
    apply filter_In in Hx as [Hx Hs]. apply filter_In in Hx as [Hx Hk].
    rewrite Hs in Hk. cbn [andb] in Hk. apply negb_true_iff in Hk.
    destruct (String.eqb (principal_id x) p) eqn:E1; [|reflexivity].
    destruct (String.eqb (role_definition_id x) target) eqn:E2; [reflexivity|].
    exfalso. assert (Hr : In x red) by (apply Hinred; auto).
    assert (E : existsb (String.eqb (name x)) (map name red) = true)
      by (apply existsb_name; now apply in_map).
    congruence. }
  destruct (Spec.holds p (fun r => String.eqb r target) l) eqn:Hex.
  - (* the exact assignment was already there *)
    cbn [snd]. intros Hno. right.
    rewrite (Hloop w1 [{| call := CallList S; raised := None |}] eq_refl Hno).
    change (assignments w1) with (assignments w).
    unfold Spec.holds in Hex. apply existsb_exists in Hex as [e0 [He0 Hb]].
    apply andb_true_iff in Hb as [Hb1 Hb2].
    split.
    + unfold Spec.holds. apply existsb_exists. exists e0. split; [|now rewrite Hb1, Hb2].
      subst l. apply filter_In in He0 as [He0 Hs].
      apply Hkeep; [exact He0 | exact Hs |].
      intros Hn. apply in_map_iff in Hn as [x [Hnx Hx]].
      destruct (Hredl x Hx) as (Hxl & _ & Hxr).
      assert (x = e0).
      { apply (NoDup_map_eq name _ x e0 Huniq); auto.
        apply filter_In. now split. }
      subst x. congruence.
    + intros Hown. apply Hgone; [exact Hown|].
      intros x Hx Hs _ _. apply filter_In. now split.
  - (* the assignment is created *)
    set (pt := VaultRoleManager._detect_principal_type env p).
    set (n := uuid4 env (uuid_draws w)) in *.
    destruct (fault env (events w1) (CallCreate S n target p pt)) as [e|] eqn:Hf.
    { cbn [snd].
      rewrite (events_since_app w _
                 [ {| call := CallCreate S n target p pt; raised := Some e |};
                   {| call := CallList S; raised := None |} ]) by reflexivity.
      discriminate. }
    destruct (created_world env S n target p pt w1 Hf) as (Ha & He & _).
    cbv zeta in Ha, He. cbn [snd]. intros Hno. right.
    rewrite (Hloop _ [ {| call := CallCreate S n target p pt; raised := None |};
                       {| call := CallList S; raised := None |} ] He Hno).
    rewrite Ha. change (assignments w1) with (assignments w).
    set (fresh := {| name := n; scope := S; role_definition_id := target;
                     principal_id := p; principal_type := pt |}).
    assert (Hsf : at_scope S fresh = true) by apply String.eqb_refl.
    split.
    + unfold Spec.holds. apply existsb_exists. exists fresh. split.
      * apply Hkeep; [apply in_or_app; right; now left | exact Hsf |].
        intros Hn. apply Hfresh. cbn [name fresh] in Hn.
        apply in_map_iff in Hn as [x [Hnx Hx]]. destruct (Hredl x Hx) as (Hxl & _).
        rewrite <- Hnx. now apply in_map.
      * cbn. now rewrite !String.eqb_refl.
    + intros Hown. apply Hgone; [exact Hown|].
      intros x Hx Hs _ Hr. apply in_app_or in Hx as [Hx|[<-|[]]].
      * apply filter_In. now split.
      * cbn in Hr. now rewrite String.eqb_refl in Hr.
Qed.

End Idempotence.

Section StorageIdempotence.

Import PyStr Azure.
Local Open Scope list_scope.

Variable env : Env.

Lemma storage_run_when_settled (S target P role_id p sub : string) (w : World) :
  nth_error (split "/" S) 2 = Some sub ->
  Spec.resolve_principal env P = Some p ->
  Spec.holds p (fun r => String.eqb r target) (filter (at_scope S) (assignments w)) = true ->
  let r := StorageRoleManager._assign_role_to_storage_account env S target P role_id w in
  assignments (snd r) = assignments w /\
  Spec.count_mutations (events_since w (snd r)) = 0.
Proof.
  intros Hparts Hp Hex. cbv zeta.
  rewrite assign_role_to_storage_account_unfold, Hparts, Hp.
  destruct (fault env (events w) (CallList S)) as [e|].
  { cbn [snd]. rewrite events_since_record. now split. }
  cbv zeta. rewrite Hex. cbn [snd]. rewrite events_since_record. now split.
Qed.

Lemma storage_run_settles (S target P role_id p sub : string) (w : World) :
  nth_error (split "/" S) 2 = Some sub ->
  Spec.resolve_principal env P = Some p ->
  let r := StorageRoleManager._assign_role_to_storage_account env S target P role_id w in
  Spec.no_error (events_since w (snd r)) = true ->
  Spec.holds p (fun r => String.eqb r target)
    (filter (at_scope S) (assignments (snd r))) = true.
Proof.
  intros Hparts Hp. cbv zeta.
  rewrite assign_role_to_storage_account_unfold, Hparts, Hp.
  destruct (fault env (events w) (CallList S)) as [e|].
  { cbn [snd]. rewrite events_since_record. discriminate. }
  cbv zeta.
  destruct (Spec.holds p _ _) eqn:Hex; [intros _; exact Hex|].
  set (w1 := record (CallList S) None w).
  set (pt := StorageRoleManager._detect_principal_type env p).
  set (n := uuid4 env (uuid_draws w)).
  destruct (fault env (events w1) (CallCreate S n target p pt)) as [e|] eqn:Hf.
  { cbn [snd].
    rewrite (events_since_app w _
               [ {| call := CallCreate S n target p pt; raised := Some e |};
                 {| call := CallList S; raised := None |} ]) by reflexivity.
    discriminate. }
  destruct (created_world env S n target p pt w1 Hf) as (Ha & _ & _).
  cbv zeta in Ha. cbn [snd]. intros _. rewrite Ha.
  unfold Spec.holds. apply existsb_exists.
  exists {| name := n; scope := S; role_definition_id := target;
            principal_id := p; principal_type := pt |}.
  split.
  - apply filter_In. split; [apply in_or_app; right; now left | apply String.eqb_refl].
  - cbn. now rewrite !String.eqb_refl.
Qed.

End StorageIdempotence.

(** C2, as stated, fails: the provider answers the create call with
    [PrincipalNotFound], which both reconcilers report as success; the second
    run for the same triple issues the create call again. *)
Lemma second_run_creates_again :
  let env := Scenario.environment Scenario.principal_not_found Scenario.caller in
  let w := Scenario.world [] in
  let r1 := VaultRoleManager.assign_role_to_user env Scenario.vault_uri
              Scenario.owner_definition Scenario.caller w in
  let r2 := VaultRoleManager.assign_role_to_user env Scenario.vault_uri
              Scenario.owner_definition Scenario.caller (snd r1) in
  let role := FunctionApp.role_definition "test-subscription-id"
                StorageRoleManager.STORAGE_BLOB_DATA_OWNER_ROLE_ID in
  let s1 := StorageRoleManager._assign_role_to_storage_account env
              (Scenario.storage_uri "Vaults" "alpha") role Scenario.caller
              StorageRoleManager.STORAGE_BLOB_DATA_OWNER_ROLE_ID w in
  let s2 := StorageRoleManager._assign_role_to_storage_account env
              (Scenario.storage_uri "Vaults" "alpha") role Scenario.caller
              StorageRoleManager.STORAGE_BLOB_DATA_OWNER_ROLE_ID (snd s1) in
  (fst r1 = true /\ Spec.count_creates (events_since (snd r1) (snd r2)) = 1) /\
  (fst s1 = true /\ Spec.count_creates (events_since (snd s1) (snd s2)) = 1).
Proof. vm_compute. repeat split. Qed.

(** C2 (amended): when a run of a reconciler for (scope, role, principal)
    reports success and none of its provider calls was answered with an
    error, a second run for the same triple from the resulting state leaves
    the role assignments as they are and issues no create and no delete call.
    For the vault reconciler the assignment names at the scope are unique and
    the identifier drawn for a new assignment is unused there. *)
Theorem reconcile_twice (env : Env) (S target P role_id : string) (w : World) :
  (Spec.unique_names S (assignments w) ->
   ~ In (uuid4 env (uuid_draws w)) (map name (filter (at_scope S) (assignments w))) ->
   let r1 := VaultRoleManager.assign_role_to_user env S target P w in
   fst r1 = true ->
   Spec.no_error (events_since w (snd r1)) = true ->
   let r2 := VaultRoleManager.assign_role_to_user env S target P (snd r1) in
   assignments (snd r2) = assignments (snd r1) /\
   Spec.count_mutations (events_since (snd r1) (snd r2)) = 0) /\
  (let r1 := StorageRoleManager._assign_role_to_storage_account env S target P role_id w in
   fst r1 = true ->
   Spec.no_error (events_since w (snd r1)) = true ->
   let r2 := StorageRoleManager._assign_role_to_storage_account env S target P role_id
               (snd r1) in
   assignments (snd r2) = assignments (snd r1) /\
   Spec.count_mutations (events_since (snd r1) (snd r2)) = 0).
Proof.
  split.
  - intros Huniq Hfresh r1 Hok Hno.
    destruct (nth_error (PyStr.split "/" S) 2) as [sub|] eqn:Hparts.
    2:{ subst r1. rewrite assign_role_to_user_unfold, Hparts in Hok. discriminate. }
    destruct (Spec.resolve_principal env P) as [p|] eqn:Hp.
    2:{ subst r1. rewrite assign_role_to_user_unfold, Hparts, Hp in Hok. discriminate. }
    pose proof (vault_run_settles env S target P p sub w Hparts Hp Huniq Hfresh Hno)
      as Hset.
    destruct (vault_run_when_settled env S target P p sub (snd r1) Hparts Hp Hset)
      as (H1 & H2 & _).
    now split.
  - intros r1 Hok Hno.
    destruct (nth_error (PyStr.split "/" S) 2) as [sub|] eqn:Hparts.
    2:{ subst r1. rewrite assign_role_to_storage_account_unfold, Hparts in Hok.
        discriminate. }
    destruct (Spec.resolve_principal env P) as [p|] eqn:Hp.
    2:{ subst r1. rewrite assign_role_to_storage_account_unfold, Hparts, Hp in Hok.
        discriminate. }
    pose proof (storage_run_settles env S target P role_id p sub w Hparts Hp Hno)
      as Hset.
    exact (storage_run_when_settled env S target P role_id p sub (snd r1) Hparts Hp Hset).
Qed.

Lemma reconcile_twice_witness :
  let env := Scenario.environment Scenario.no_faults Scenario.caller in
  let w := Scenario.world [Scenario.held "held-admin" Scenario.admin_definition] in
  let r1 := VaultRoleManager.assign_role_to_user env Scenario.vault_uri
              Scenario.owner_definition Scenario.caller w in
  let r2 := VaultRoleManager.assign_role_to_user env Scenario.vault_uri
              Scenario.owner_definition Scenario.caller (snd r1) in
  let role := FunctionApp.role_definition "test-subscription-id"
                StorageRoleManager.STORAGE_BLOB_DATA_OWNER_ROLE_ID in
  let s1 := StorageRoleManager._assign_role_to_storage_account env
              (Scenario.storage_uri "Vaults" "alpha") role Scenario.caller
              StorageRoleManager.STORAGE_BLOB_DATA_OWNER_ROLE_ID w in
  let s2 := StorageRoleManager._assign_role_to_storage_account env
              (Scenario.storage_uri "Vaults" "alpha") role Scenario.caller
              StorageRoleManager.STORAGE_BLOB_DATA_OWNER_ROLE_ID (snd s1) in
  (assignments (snd r2) = assignments (snd r1) /\
   Spec.count_mutations (events_since (snd r1) (snd r2)) = 0) /\
  (assignments (snd s2) = assignments (snd s1) /\
   Spec.count_mutations (events_since (snd s1) (snd s2)) = 0).
Proof.
  cbv zeta. split.
  - apply (proj1 (reconcile_twice
                    (Scenario.environment Scenario.no_faults Scenario.caller)
                    Scenario.vault_uri Scenario.owner_definition Scenario.caller ""
                    (Scenario.world [Scenario.held "held-admin" Scenario.admin_definition]))).
    + unfold Spec.unique_names. vm_compute. constructor; [intros []|constructor].
    + vm_compute. intros [H|[]]. discriminate.
    + vm_compute. reflexivity.
    + vm_compute. reflexivity.
  - apply (proj2 (reconcile_twice
                    (Scenario.environment Scenario.no_faults Scenario.caller)
                    (Scenario.storage_uri "Vaults" "alpha")
                    (FunctionApp.role_definition "test-subscription-id"
                       StorageRoleManager.STORAGE_BLOB_DATA_OWNER_ROLE_ID)
                    Scenario.caller StorageRoleManager.STORAGE_BLOB_DATA_OWNER_ROLE_ID
                    (Scenario.world [Scenario.held "held-admin" Scenario.admin_definition]))).
    + vm_compute. reflexivity.
    + vm_compute. reflexivity.
Defined.

(** ** The creator check of the HTTP function *)

Section CreatorCheck.

Import Azure FunctionApp.
Local Open Scope list_scope.

Variable env : Env.

Lemma assign_and_respond_status (uri sub user : string) (creator : option string)
    (w : World) :
  match assign_and_respond env uri sub user creator w with
  | (inr resp, _) =>
      (status resp = 200 \/ status resp = 500) /\
      exists success o a report,
        body resp = ResultBody success o a uri user (is_creator creator user) report
  | (inl _, _) => True
  end.
Proof.
  unfold assign_and_respond. cbv zeta.
  unfold bind at 1, lift at 1, await at 1.
  destruct (VaultRoleManager.assign_role_to_user env uri _ user w) as [o w1].
  unfold bind at 1, lift at 1, await at 1.
  destruct (VaultRoleManager.assign_role_to_user env uri _ user w1) as [a w2].
  unfold bind at 1.
  match goal with
  | |- match (match ?c w2 with _ => _ end) with _ => _ end =>
      destruct (c w2) as [[ex|results] w3]
  end; [exact I|].
  match goal with
  | |- match (if ?b then _ else _) w3 with _ => _ end => destruct b
  end; cbn [ret status body]; (split; [auto | do 4 eexists; reflexivity]).
Qed.

(** Whatever the vault's tags are, [process] never reads them: the variable
    [vault_info] holds the coroutine, the tag map is taken to be empty and
    the creator id to be absent. *)
Lemma process_ignores_tags (uri sub user : string) (w : World) :
  environ env = true ->
  process env uri sub user w =
  (_ <- logging_warning "Vault does not have CreatedByID tag, cannot verify creator" ;;
   assign_and_respond env uri sub user None) w.
Proof. intros H. unfold process. rewrite H. reflexivity. Qed.

Lemma process_status (uri sub user : string) (w : World) :
  match process env uri sub user w with
  | (inr resp, _) =>
      (status resp = 200 \/ status resp = 500) /\
      exists success o a report,
        body resp = ResultBody success o a uri user JNull report
  | (inl _, _) => True
  end.
Proof.
  destruct (environ env) eqn:E.
  - rewrite (process_ignores_tags uri sub user w E).
    unfold bind, logging_warning.
    apply (assign_and_respond_status uri sub user None).
  - unfold process. rewrite E. exact I.
Qed.

(** No request is ever answered with the authorization-denied status, and no
    response reports the caller as the creator. *)
Lemma never_denied (req : Request) (w : World) :
  let resp := fst (direct_vault_rbac_processor env req w) in
  status resp <> 403 /\
  (forall error userId creatorId, body resp <> UnauthorizedBody error userId creatorId) /\
  (forall success o a uri user report,
     body resp <> ResultBody success o a uri user (JBool true) report).
Proof.
  cbv zeta. unfold direct_vault_rbac_processor, try_return.
  assert (Herr : forall code msg (w0 : World),
            code <> 403 ->
            let resp := fst (error code msg, w0) in
            status resp <> 403 /\
            (forall e u c, body resp <> UnauthorizedBody e u c) /\
            (forall s o a uri user report,
               body resp <> ResultBody s o a uri user (JBool true) report)).
  { intros code msg w0 Hc. cbn. repeat split; try assumption; discriminate. }
  destruct (Authorization req) as [auth_header|]; [|apply Herr; discriminate].
  destruct (negb (PyStr.truthy auth_header) || _); [apply Herr; discriminate|].
  destruct (jwt_decode req) as [tok|]; [|apply Herr; discriminate].
  destruct (expired tok); [apply Herr; discriminate|].
  destruct (match oid tok with Some v => Some v | None => sub tok end) as [user|];
    [|apply Herr; discriminate].
  destruct (negb (PyStr.truthy user)); [apply Herr; discriminate|].
  destruct (get_json req) as [req_body|]; [|apply Herr; discriminate].
  destruct (PyDict.get req_body "resourceUri") as [uri|]; [|apply Herr; discriminate].
  destruct (PyDict.get req_body "subscriptionId") as [subscription|];
    [|apply Herr; discriminate].
  destruct (negb (PyStr.truthy uri) || _); [apply Herr; discriminate|].
  pose proof (process_status uri subscription user w) as H.
  destruct (process env uri subscription user w) as [[ex|resp] w'].
  - apply Herr. discriminate.
  - destruct H as ([H|H] & s & o & a & report & Hb); cbn [fst]; rewrite H, Hb;
      repeat split; discriminate.
Qed.

End CreatorCheck.

(** C1: the vault is tagged [CreatedByID] with an identifier that differs,
    whatever the case of letters, from the caller's.  The function does not
    deny the request: it logs the missing-tag warning, issues eight create
    calls and answers 200 with [isCreator] null.  More generally no request
    is ever answered 403. *)
Theorem creator_check_never_denies :
  let env := Scenario.environment Scenario.no_faults Scenario.other_user in
  let r := FunctionApp.direct_vault_rbac_processor env Scenario.request
             (Scenario.world []) in
  (VaultRoleManager.get_vault_info env Scenario.vault_uri
     = Some {| VaultRoleManager.tags := [("CreatedByID", Scenario.other_user)] |} /\
   String.eqb (PyStr.lower Scenario.other_user) (PyStr.lower Scenario.caller) = false /\
   FunctionApp.status (fst r) = 200 /\
   (exists report,
      FunctionApp.body (fst r)
        = FunctionApp.ResultBody true true true Scenario.vault_uri Scenario.caller
            FunctionApp.JNull report) /\
   warnings (snd r) = ["Vault does not have CreatedByID tag, cannot verify creator"] /\
   Spec.count_creates (events (snd r)) = 8) /\
  (forall env req w,
     FunctionApp.status (fst (FunctionApp.direct_vault_rbac_processor env req w)) <> 403).
Proof.
  split.
  - vm_compute. repeat split. eexists. reflexivity.
  - intros env req w. apply (never_denied env req w).
Qed.

(** * Further properties of the code *)

(** ** Principal lookup and classification *)

Section Principals.

Import PyStr Azure.

Variable env : Env.

(** X1: [_detect_principal_type] answers one of the three principal kinds;
    it answers [User] exactly when the token is obtained and the users probe
    replies 200, whatever the later probes would reply; and the copies of the
    function in the two managers agree. *)
Theorem detect_principal_type_kinds (principal : string) :
  In (VaultRoleManager._detect_principal_type env principal) Trace.kinds /\
  (VaultRoleManager._detect_principal_type env principal = "User" <->
     get_token env = true /\
     exists response,
       requests_get env ("https://graph.microsoft.com/v1.0/users/" ++ principal)
         = Some response /\
       status_code response = 200) /\
  StorageRoleManager._detect_principal_type env principal
    = VaultRoleManager._detect_principal_type env principal.
Proof.
  unfold VaultRoleManager._detect_principal_type,
    StorageRoleManager._detect_principal_type, Trace.kinds. cbv zeta.
  destruct (get_token env); cbn [negb].
  2:{ split; [right; left; reflexivity|]. split; [|reflexivity].
      split; [discriminate | intros [H _]; discriminate]. }
  destruct (requests_get env ("https://graph.microsoft.com/v1.0/users/" ++ principal))
    as [r1|].
  2:{ split; [right; left; reflexivity|]. split; [|reflexivity].
      split; [discriminate | intros [_ [r [H _]]]; discriminate]. }
  destruct (Nat.eqb (status_code r1) 200) eqn:E1.
  { apply Nat.eqb_eq in E1. split; [left; reflexivity|]. split; [|reflexivity].
    split; [intros _; split; [reflexivity | now exists r1] | reflexivity]. }
  apply Nat.eqb_neq in E1.
  assert (Hno : forall k : string, k <> "User" ->
            (k = "User" <->
             true = true /\ exists response, Some r1 = Some response /\
                                             status_code response = 200)).
  { intros k Hk. split; [contradiction|].
    intros [_ [r [H Hr]]]. injection H as <-. contradiction. }
  destruct (requests_get env _) as [r2|].
  2:{ split; [right; left; reflexivity|]. split; [apply Hno; discriminate | reflexivity]. }
  destruct (Nat.eqb (status_code r2) 200).
  { split; [right; left; reflexivity|]. split; [apply Hno; discriminate | reflexivity]. }
  destruct (requests_get env _) as [r3|].
  2:{ split; [right; left; reflexivity|]. split; [apply Hno; discriminate | reflexivity]. }
  destruct (Nat.eqb (status_code r3) 200).
  - split; [right; right; left; reflexivity|].
    split; [apply Hno; discriminate | reflexivity].
  - split; [right; left; reflexivity|].
    split; [apply Hno; discriminate | reflexivity].
Qed.

(** X2: [get_principal_id_for_user] answers an object id exactly when the
    token is obtained, the directory replies 200 and the reply lists at least
    one user, and the id is that of the first user listed; the copies of the
    function in the two managers agree. *)
Theorem get_principal_id_for_user_first_match (user_upn object_id : string) :
  (VaultRoleManager.get_principal_id_for_user env user_upn = Some object_id <->
     get_token env = true /\
     exists response others,
       requests_get env
         ("https://graph.microsoft.com/v1.0/users?$filter=userPrincipalName eq '"
          ++ user_upn ++ "'") = Some response /\
       status_code response = 200 /\
       json_value_ids response = Some (object_id :: others)) /\
  StorageRoleManager.get_principal_id_for_user env user_upn
    = VaultRoleManager.get_principal_id_for_user env user_upn.
Proof.
  split; [|reflexivity].
  unfold VaultRoleManager.get_principal_id_for_user. cbv zeta.
  destruct (get_token env); cbn [negb].
  2:{ split; [discriminate | intros [H _]; discriminate]. }
  destruct (requests_get env _) as [response|].
  2:{ split; [discriminate | intros [_ (r & o & H & _)]; discriminate]. }
  destruct (Nat.eqb (status_code response) 200) eqn:E.
  - apply Nat.eqb_eq in E.
    destruct (json_value_ids response) as [[|user_id l]|] eqn:Ej.
    + split; [discriminate|].
      intros [_ (r & o & H & _ & Hj)]. injection H as <-. congruence.
    + split.
      * intros H. injection H as ->. split; [reflexivity|].
        exists response, l. auto.
      * intros [_ (r & o & H & _ & Hj)]. injection H as <-. congruence.
    + split; [discriminate|].
      intros [_ (r & o & H & _ & Hj)]. injection H as <-. congruence.
  - apply Nat.eqb_neq in E. split; [discriminate|].
    intros [_ (r & o & H & Hs & _)]. injection H as <-. contradiction.
Qed.

(** A resolved principal is a fixed point of GUID normalization. *)
Lemma resolve_principal_normalized (identifier p : string) :
  Spec.resolve_principal env identifier = Some p ->
  VaultRoleManager._normalize_guid p = p.
Proof.
  assert (Hidem : forall s, VaultRoleManager._normalize_guid
                              (VaultRoleManager._normalize_guid s)
                            = VaultRoleManager._normalize_guid s).
  { intros s. rewrite (normalize_guid_unfold (VaultRoleManager._normalize_guid s)).
    rewrite normalize_guid_keeps_digits. symmetry. apply normalize_guid_unfold. }
  unfold Spec.resolve_principal.
  destruct (uuid_UUID env identifier).
  - intros H. injection H as <-. apply Hidem.
  - destruct (VaultRoleManager.get_principal_id_for_user env identifier) as [o|];
      [|discriminate].
    destruct (truthy o); [|discriminate].
    intros H. injection H as <-. apply Hidem.
Qed.

End Principals.

(** ** The naming convention, further *)

Section NamingMore.

Import PyStr StorageRoleManager.

Lemma contains_prefix_of_pattern (p q s : string) :
  contains (p ++ q) s = true -> contains p s = true.
Proof.
  rewrite !contains_iff. intros [pre [post H]].
  exists pre, (q ++ post). now rewrite H, append_assoc.
Qed.

Lemma naming_two_patterns (storage_name vault_name : string) :
  _matches_naming_convention storage_name vault_name =
  contains (lower vault_name ++ "st") (lower storage_name) ||
  contains ("stor" ++ lower vault_name) (lower storage_name).
Proof.
  unfold _matches_naming_convention, patterns. cbv zeta. cbn [existsb].
  rewrite orb_false_r.
  set (v := lower vault_name). set (s := lower storage_name).
  assert (H1 : contains (v ++ "storage") s = true -> contains (v ++ "st") s = true).
  { change (v ++ "storage") with (v ++ ("st" ++ "orage")).
    rewrite <- append_assoc. apply contains_prefix_of_pattern. }
  assert (H2 : contains (v ++ "stor") s = true -> contains (v ++ "st") s = true).
  { change (v ++ "stor") with (v ++ ("st" ++ "or")).
    rewrite <- append_assoc. apply contains_prefix_of_pattern. }
  destruct (contains (v ++ "st") s).
  - now rewrite !orb_true_r.
  - destruct (contains (v ++ "storage") s); [now discriminate H1|].
    destruct (contains (v ++ "stor") s); [now discriminate H2|].
    destruct (contains ("stor" ++ v) s); reflexivity.
Qed.

(** X3: the patterns [{vault}storage] and [{vault}stor] add nothing to
    [{vault}st]: a storage name matches exactly when its lowered form
    contains the lowered vault name followed by [st], or [stor] followed by
    the lowered vault name. *)
Theorem matches_naming_convention_two_patterns (storage_name vault_name : string) :
  _matches_naming_convention storage_name vault_name =
  contains (lower vault_name ++ "st") (lower storage_name) ||
  contains ("stor" ++ lower vault_name) (lower storage_name).
Proof. apply naming_two_patterns. Qed.

(** X4: with an empty vault name the predicate holds for every storage name
    whose lowered form contains [st]. *)
Theorem matches_naming_convention_empty_vault (storage_name : string) :
  _matches_naming_convention storage_name "" = contains "st" (lower storage_name).
Proof.
  rewrite naming_two_patterns.
  change (lower "" ++ "st") with "st". change ("stor" ++ lower "") with ("st" ++ "or").
  destruct (contains "st" (lower storage_name)) eqn:E; [reflexivity|].
  destruct (contains ("st" ++ "or") (lower storage_name)) eqn:E2; [|reflexivity].
  apply contains_prefix_of_pattern in E2. congruence.
Qed.

End NamingMore.

(** ** Vault identifiers and discovery, further *)

Section DiscoveryMore.

Import PyStr Azure StorageRoleManager.

Variable env : Env.

Lemma nth_error_nth_default (l : list string) (i : nat) :
  nth i l "" = match nth_error l i with Some x => x | None => "" end.
Proof.
  revert i. induction l as [|x l IH]; intros [|i]; cbn; try reflexivity. apply IH.
Qed.

Lemma vault_scope_malformed (vault_resource_id : string) :
  let parts := split "/" vault_resource_id in
  List.length parts < 9 \/ nth 6 parts "" <> "Microsoft.KeyVault" \/
  nth 7 parts "" <> "vaults" ->
  Spec.vault_scope vault_resource_id = None.
Proof.
  cbv zeta. intros H. unfold Spec.vault_scope. cbv zeta.
  rewrite !nth_error_nth_default in H.
  destruct (nth_error (split "/" vault_resource_id) 8) eqn:E8.
  2:{ repeat (match goal with |- context [match ?x with _ => _ end] => destruct x end);
      reflexivity. }
  assert (Hlen : 8 < List.length (split "/" vault_resource_id))
    by (apply nth_error_Some; congruence).
  destruct (nth_error _ 2); [|reflexivity].
  destruct (nth_error _ 4); [|reflexivity].
  destruct (nth_error _ 6) as [p6|]; [|reflexivity].
  destruct (nth_error _ 7) as [p7|]; [|reflexivity].
  destruct H as [H|[H|H]]; [lia| |].
  - destruct (String.eqb p6 "Microsoft.KeyVault") eqn:E; [|reflexivity].
    apply String.eqb_eq in E. contradiction.
  - destruct (String.eqb p7 "vaults") eqn:E; [|now rewrite andb_false_r].
    apply String.eqb_eq in E. contradiction.
Qed.

(** X5: an identifier with fewer than nine slash-separated segments, or
    whose segments 6 and 7 are not [Microsoft.KeyVault] and [vaults], is
    turned down by [get_vault_info] and by
    [discover_associated_storage_accounts] alike, whatever the inventory
    holds. *)
Theorem malformed_vault_id_rejected (vault_resource_id : string) :
  let parts := split "/" vault_resource_id in
  List.length parts < 9 \/ nth 6 parts "" <> "Microsoft.KeyVault" \/
  nth 7 parts "" <> "vaults" ->
  VaultRoleManager.get_vault_info env vault_resource_id = None /\
  discover_associated_storage_accounts env vault_resource_id = [].
Proof.
  intros parts H. pose proof (vault_scope_malformed vault_resource_id H) as Hs.
  split.
  - unfold Spec.vault_scope in Hs. unfold VaultRoleManager.get_vault_info.
    cbv zeta in Hs |- *.
    destruct (nth_error _ 2); [|reflexivity].
    destruct (nth_error _ 4); [|reflexivity].
    destruct (nth_error _ 6) as [p6|]; [|reflexivity].
    destruct (nth_error _ 7) as [p7|]; [|reflexivity].
    destruct (nth_error _ 8); [|reflexivity].
    destruct (String.eqb p6 "Microsoft.KeyVault"), (String.eqb p7 "vaults");
      try reflexivity; discriminate.
  - now rewrite discover_unfold, Hs.
Qed.

(** X6: for a vault identifier that parses and an enumeration that succeeds,
    discovery returns nothing exactly when the resource group holds no
    storage account, and every identifier it returns is that of an account of
    the group. *)
Theorem discovery_empty_only_for_empty_group
    (vault_resource_id subscription_id resource_group vault_name : string)
    (accounts_in_rg : list StorageAccount) :
  Spec.vault_scope vault_resource_id = Some (subscription_id, resource_group, vault_name) ->
  list_by_resource_group env subscription_id resource_group = Some accounts_in_rg ->
  (discover_associated_storage_accounts env vault_resource_id = [] <->
     accounts_in_rg = []) /\
  (forall id, In id (discover_associated_storage_accounts env vault_resource_id) ->
     exists account, In account accounts_in_rg /\ account_id account = id).
Proof.
  intros Hs Hl. rewrite discover_unfold, Hs, Hl.
  destruct (filter (Spec.matched vault_name) accounts_in_rg) as [|a l] eqn:E.
  - split.
    + destruct accounts_in_rg; [tauto|]. split; discriminate.
    + intros id Hin. apply in_map_iff in Hin as [x [Hx Hin]]. now exists x.
  - split.
    + split; [discriminate|]. intros ->. discriminate.
    + intros id Hin. apply in_map_iff in Hin as [x [Hx Hin]].
      exists x. split; [|exact Hx].
      rewrite <- E in Hin. now apply filter_In in Hin.
Qed.

End DiscoveryMore.

Lemma malformed_vault_id_rejected_witness :
  VaultRoleManager.get_vault_info
    (Scenario.environment Scenario.no_faults Scenario.caller) "invalid-resource-id" = None /\
  StorageRoleManager.discover_associated_storage_accounts
    (Scenario.environment Scenario.no_faults Scenario.caller) "invalid-resource-id" = [].
Proof.
  apply (malformed_vault_id_rejected
           (Scenario.environment Scenario.no_faults Scenario.caller)
           "invalid-resource-id").
  left. vm_compute. lia.
Defined.

Lemma discovery_empty_only_for_empty_group_witness :
  StorageRoleManager.discover_associated_storage_accounts
    (Scenario.environment Scenario.no_faults Scenario.caller) Scenario.vault_uri <> [].
Proof.
  destruct (discovery_empty_only_for_empty_group
              (Scenario.environment Scenario.no_faults Scenario.caller)
              Scenario.vault_uri "test-subscription-id" "Vaults" "finance"
              Scenario.unrelated_accounts eq_refl eq_refl) as [H _].
  intros E. apply H in E. discriminate.
Defined.

(** ** What a reconciliation touches *)

Section Frames.

Import PyStr Azure.
Local Open Scope list_scope.

Variable env : Env.

Lemma elsewhere_app (s : string) (l l' : list RoleAssignment) :
  Trace.elsewhere s (l ++ l') = Trace.elsewhere s l ++ Trace.elsewhere s l'.
Proof. apply filter_app. Qed.

Lemma elsewhere_delete (s n : string) (l : list RoleAssignment) :
  Trace.elsewhere s (filter (fun a => negb (named s n a)) l) = Trace.elsewhere s l.
Proof.
  unfold Trace.elsewhere. rewrite filter_twice. apply filter_ext. intros a.
  unfold named, at_scope.
  destruct (String.eqb (scope a) s), (String.eqb (name a) n); reflexivity.
Qed.

(** The deletion loop leaves the other scopes alone. *)
Lemma remove_redundant_elsewhere (s : string) (l : list RoleAssignment) (w : World) :
  Trace.elsewhere s (assignments (snd (VaultRoleManager.remove_redundant env s l w)))
  = Trace.elsewhere s (assignments w).
Proof.
  revert w. induction l as [|a l IH]; intros w; [reflexivity|].
  assert (E : VaultRoleManager.remove_redundant env s (a :: l) w
              = VaultRoleManager.remove_redundant env s l
                  (snd (role_assignments_delete env s (name a) w))) by reflexivity.
  rewrite E, IH. unfold role_assignments_delete.
  destruct (fault env (events w) (CallDelete s (name a))); cbn [snd assignments record];
    [reflexivity | apply elsewhere_delete].
Qed.

Lemma created_elsewhere (s n role p t : string) (w : World) :
  Trace.elsewhere s
    (assignments (snd (role_assignments_create env s n role p t (snd (uuid_uuid4 env w)))))
  = Trace.elsewhere s (assignments w).
Proof.
  unfold role_assignments_create. cbn [uuid_uuid4 snd events].
  destruct (fault env (events w) _); cbn [snd assignments record]; [reflexivity|].
  rewrite elsewhere_app. unfold Trace.elsewhere at 2. cbn [filter].
  unfold at_scope. cbn [scope]. rewrite String.eqb_refl. cbn. apply app_nil_r.
Qed.

(** X7: neither reconciler makes a provider call for a scope without a
    subscription segment or for a principal that does not resolve: the
    outcome is failure and nothing changes. *)
Theorem reconcilers_need_scope_and_principal (S target P role_id : string) (w : World) :
  nth_error (split "/" S) 2 = None \/ Spec.resolve_principal env P = None ->
  VaultRoleManager.assign_role_to_user env S target P w = (false, w) /\
  StorageRoleManager._assign_role_to_storage_account env S target P role_id w = (false, w).
Proof.
  intros H. rewrite assign_role_to_user_unfold, assign_role_to_storage_account_unfold.
  destruct (nth_error (split "/" S) 2); [|now split].
  destruct H as [H|H]; [discriminate|]. now rewrite H.
Qed.

Lemma vault_run_elsewhere (S target P : string) (w : World) :
  Trace.elsewhere S
    (assignments (snd (VaultRoleManager.assign_role_to_user env S target P w)))
  = Trace.elsewhere S (assignments w).
Proof.
  rewrite assign_role_to_user_unfold.
  destruct (nth_error (split "/" S) 2); [|reflexivity].
  destruct (Spec.resolve_principal env P) as [p|]; [|reflexivity].
  destruct (fault env (events w) (CallList S)); [reflexivity|].
  cbv zeta. destruct (_ && _ && _); [reflexivity|].
  destruct (Spec.holds p _ _).
  + cbn [snd]. now rewrite remove_redundant_elsewhere.
  + destruct (fault env _ _) eqn:Hf; [reflexivity|].
    cbn [snd]. rewrite remove_redundant_elsewhere.
    apply (created_elsewhere S _ target p _ (record (CallList S) None w)).
Qed.

Lemma storage_run_elsewhere (S target P role_id : string) (w : World) :
  Trace.elsewhere S
    (assignments
       (snd (StorageRoleManager._assign_role_to_storage_account env S target P role_id w)))
  = Trace.elsewhere S (assignments w).
Proof.
  rewrite assign_role_to_storage_account_unfold.
  destruct (nth_error (split "/" S) 2); [|reflexivity].
  destruct (Spec.resolve_principal env P) as [p|]; [|reflexivity].
  destruct (fault env (events w) (CallList S)); [reflexivity|].
  cbv zeta. destruct (Spec.holds p _ _); [reflexivity|].
  destruct (fault env _ _) eqn:Hf; [reflexivity|].
  cbn [snd].
  apply (created_elsewhere S _ target p _ (record (CallList S) None w)).
Qed.

Lemma storage_run_only_adds (S target P role_id : string) (w : World) :
  let r := StorageRoleManager._assign_role_to_storage_account env S target P role_id w in
  Trace.count_deletes (events_since w (snd r)) = 0 /\
  Spec.count_creates (events_since w (snd r)) <= 1 /\
  incl (assignments w) (assignments (snd r)).
Proof.
  cbv zeta. rewrite assign_role_to_storage_account_unfold.
  destruct (nth_error (split "/" S) 2);
    [|cbn [snd]; rewrite events_since_refl; repeat split; auto using incl_refl].
  destruct (Spec.resolve_principal env P) as [p|];
    [|cbn [snd]; rewrite events_since_refl; repeat split; auto using incl_refl].
  destruct (fault env (events w) (CallList S)).
  { cbn [snd]. rewrite events_since_record. repeat split; auto using incl_refl. }
  cbv zeta. destruct (Spec.holds p _ _).
  { cbn [snd]. rewrite events_since_record. repeat split; auto using incl_refl. }
  set (w1 := record (CallList S) None w).
  set (pt := StorageRoleManager._detect_principal_type env p).
  set (n := uuid4 env (uuid_draws w)).
  destruct (fault env (events w1) (CallCreate S n target p pt)) as [e|] eqn:Hf.
  - cbn [snd].
    rewrite (events_since_app w _
               [ {| call := CallCreate S n target p pt; raised := Some e |};
                 {| call := CallList S; raised := None |} ]) by reflexivity.
    repeat split; auto using incl_refl.
  - destruct (created_world env S n target p pt w1 Hf) as (Ha & He & _).
    cbv zeta in Ha, He. cbn [snd].
    rewrite (events_since_app w _
               [ {| call := CallCreate S n target p pt; raised := None |};
                 {| call := CallList S; raised := None |} ]) by (now rewrite He).
    rewrite Ha. repeat split; auto. apply incl_appl, incl_refl.
Qed.

(** X8: a run of either reconciler at scope [S] leaves the role assignments
    of every other scope exactly as they were, whatever the provider answers. *)
Theorem reconcilers_leave_other_scopes (S target P role_id : string) (w : World) :
  Trace.elsewhere S
    (assignments (snd (VaultRoleManager.assign_role_to_user env S target P w)))
    = Trace.elsewhere S (assignments w) /\
  Trace.elsewhere S
    (assignments
       (snd (StorageRoleManager._assign_role_to_storage_account env S target P role_id w)))
    = Trace.elsewhere S (assignments w).
Proof. split; [apply vault_run_elsewhere | apply storage_run_elsewhere]. Qed.

(** X9: the storage reconciler never issues a delete call, issues at most
    one create call, and never removes an assignment from the store. *)
Theorem storage_reconciler_only_adds (S target P role_id : string) (w : World) :
  let r := StorageRoleManager._assign_role_to_storage_account env S target P role_id w in
  Trace.count_deletes (events_since w (snd r)) = 0 /\
  Spec.count_creates (events_since w (snd r)) <= 1 /\
  incl (assignments w) (assignments (snd r)).
Proof. apply storage_run_only_adds. Qed.

End Frames.

Lemma reconcilers_need_scope_and_principal_witness :
  VaultRoleManager.assign_role_to_user
    (Scenario.environment Scenario.no_faults Scenario.caller)
    "finance" Scenario.owner_definition Scenario.caller (Scenario.world [])
  = (false, Scenario.world []) /\
  StorageRoleManager._assign_role_to_storage_account
    (Scenario.environment Scenario.no_faults Scenario.caller)
    Scenario.vault_uri Scenario.owner_definition "testuser@example.com" ""
    (Scenario.world [])
  = (false, Scenario.world []).
Proof.
  split.
  - apply (reconcilers_need_scope_and_principal
             (Scenario.environment Scenario.no_faults Scenario.caller)
             "finance" Scenario.owner_definition Scenario.caller "" (Scenario.world [])).
    left. reflexivity.
  - apply (reconcilers_need_scope_and_principal
             (Scenario.environment Scenario.no_faults Scenario.caller)
             Scenario.vault_uri Scenario.owner_definition "testuser@example.com" ""
             (Scenario.world [])).
    right. reflexivity.
Defined.

(** ** The calls of a vault reconciliation *)

Section VaultCalls.

Import PyStr Azure.
Local Open Scope list_scope.

Variable env : Env.

Lemma deletes_counted (s : string) (l : list RoleAssignment) (new : list Event) :
  map call new = rev (map (fun a => CallDelete s (name a)) l) ->
  Spec.count_creates new = 0 /\ Trace.count_deletes new = List.length l.
Proof.
  intros H.
  assert (Hall : forall ev, In ev new ->
            is_create (call ev) = false /\ is_delete (call ev) = true)
    by (apply (deletes_are_not_creates s l new H)).
  assert (Hlen : List.length new = List.length l).
  { rewrite <- (length_map call new), H, length_rev. apply length_map. }
  rewrite <- Hlen. clear H Hlen. unfold Spec.count_creates, Trace.count_deletes.
  induction new as [|ev new IH]; [now split|].
  destruct (Hall ev (or_introl eq_refl)) as [Hc Hd].
  cbn [filter]. rewrite Hc, Hd. cbn [List.length].
  destruct IH as [IH1 IH2]; [intros x Hx; apply Hall; now right|].
  now rewrite IH1, IH2.
Qed.

(** The calls of a run, newest first: none; the list call alone; deletes
    after the list call; a refused create call after the list call; or
    deletes after an accepted create call after the list call. *)
Lemma vault_run_calls (S target P : string) (w : World) :
  let evs := events_since w (snd (VaultRoleManager.assign_role_to_user env S target P w)) in
  let listed := {| call := CallList S; raised := None |} in
  evs = [] \/
  (exists outcome, evs = [ {| call := CallList S; raised := outcome |} ]) \/
  (exists p,
     Spec.resolve_principal env P = Some p /\
     let red := if Spec.is_owner_role target
                then Spec.others p target (filter (at_scope S) (assignments w))
                else [] in
     let create := CallCreate S (uuid4 env (uuid_draws w)) target p
                     (VaultRoleManager._detect_principal_type env p) in
     (exists new,
        map call new = rev (map (fun a => CallDelete S (name a)) red) /\
        evs = new ++ [listed]) \/
     (exists e, evs = [ {| call := create; raised := Some e |}; listed ]) \/
     (exists new,
        map call new = rev (map (fun a => CallDelete S (name a)) red) /\
        evs = new ++ [ {| call := create; raised := None |}; listed ])).
Proof.
  cbv zeta. rewrite assign_role_to_user_unfold.
  destruct (nth_error (split "/" S) 2);
    [|left; cbn [snd]; apply events_since_refl].
  destruct (Spec.resolve_principal env P) as [p|];
    [|left; cbn [snd]; apply events_since_refl].
  destruct (fault env (events w) (CallList S)) as [e|].
  { right. left. exists (Some e). cbn [snd]. apply events_since_record. }
  cbv zeta.
  set (l := filter (at_scope S) (assignments w)).
  set (red := if Spec.is_owner_role target then Spec.others p target l else []).
  set (w1 := record (CallList S) None w).
  destruct (_ && _ && _).
  { right. left. exists None. cbn [snd]. apply events_since_record. }
  right. right. exists p. split; [reflexivity|].
  destruct (Spec.holds p _ l).
  - destruct (remove_redundant_spec env S red w1) as (new & He & Hc & _).
    cbv zeta in He. left. exists new. split; [exact Hc|].
    cbn [snd]. apply events_since_app. rewrite He, <- app_assoc. reflexivity.
  - set (pt := VaultRoleManager._detect_principal_type env p).
    set (n := uuid4 env (uuid_draws w)).
    destruct (fault env (events w1) (CallCreate S n target p pt)) as [e|] eqn:Hf.
    + right. left. exists e. cbn [snd]. now apply events_since_app.
    + destruct (created_world env S n target p pt w1 Hf) as (_ & He2 & _).
      cbv zeta in He2.
      destruct (remove_redundant_spec env S red
                  (snd (role_assignments_create env S n target p pt
                          (snd (uuid_uuid4 env w1)))))
        as (new & He & Hc & _).
      cbv zeta in He. right. right. exists new. split; [exact Hc|].
      cbn [snd]. apply events_since_app. rewrite He, He2, <- app_assoc. reflexivity.
Qed.

Lemma count_creates_app (l l' : list Event) :
  Spec.count_creates (l ++ l') = Spec.count_creates l + Spec.count_creates l'.
Proof. unfold Spec.count_creates. now rewrite filter_app, length_app. Qed.

Lemma count_deletes_app (l l' : list Event) :
  Trace.count_deletes (l ++ l') = Trace.count_deletes l + Trace.count_deletes l'.
Proof. unfold Trace.count_deletes. now rewrite filter_app, length_app. Qed.

(** X10: every create call of a vault reconciliation is for the scope and
    the role asked for, names the identifier drawn from [uuid.uuid4] and
    carries the resolved principal, which is a fixed point of GUID
    normalization; a run issues at most one create call. *)
Theorem vault_create_call_content (S target P : string) (w : World) :
  let evs := events_since w (snd (VaultRoleManager.assign_role_to_user env S target P w)) in
  Spec.count_creates evs <= 1 /\
  forall ev, In ev evs -> is_create (call ev) = true ->
    exists p,
      Spec.resolve_principal env P = Some p /\
      VaultRoleManager._normalize_guid p = p /\
      call ev = CallCreate S (uuid4 env (uuid_draws w)) target p
                  (VaultRoleManager._detect_principal_type env p).
Proof.
  cbv zeta.
  destruct (vault_run_calls S target P w) as [E|[[o E]|(p & Hp & H)]]; cbv zeta in *.
  - rewrite E. split; [cbn; lia | intros ev []].
  - rewrite E. split; [cbn; lia|]. intros ev [<-|[]]. discriminate.
  - pose proof (resolve_principal_normalized env P p Hp) as Hn.
    destruct H as [(new & Hc & E)|[(e & E)|(new & Hc & E)]]; rewrite E.
    + destruct (deletes_counted S _ new Hc) as [Hcc _].
      split; [rewrite count_creates_app, Hcc; cbn; lia|].
      intros ev Hin Hcr. apply in_app_or in Hin as [Hin|[<-|[]]]; [|discriminate].
      destruct (deletes_are_not_creates S _ new Hc ev Hin). congruence.
    + split; [cbn; lia|]. intros ev [<-|[<-|[]]]; [|discriminate].
      intros _. now exists p.
    + destruct (deletes_counted S _ new Hc) as [Hcc _].
      split; [rewrite count_creates_app, Hcc; cbn; lia|].
      intros ev Hin Hcr. apply in_app_or in Hin as [Hin|[<-|[<-|[]]]];
        [| |discriminate].
      * destruct (deletes_are_not_creates S _ new Hc ev Hin). congruence.
      * now exists p.
Qed.

(** X11: a vault reconciliation for a role other than Owner issues no delete
    call and removes no assignment from the store. *)
Theorem only_owner_grant_deletes (S target P : string) (w : World) :
  Spec.is_owner_role target = false ->
  let r := VaultRoleManager.assign_role_to_user env S target P w in
  Trace.count_deletes (events_since w (snd r)) = 0 /\
  incl (assignments w) (assignments (snd r)).
Proof.
  intros Hno. cbv zeta. split.
  - destruct (vault_run_calls S target P w) as [E|[[o E]|(p & Hp & H)]]; cbv zeta in *.
    + now rewrite E.
    + now rewrite E.
    + rewrite Hno in H.
      destruct H as [(new & Hc & E)|[(e & E)|(new & Hc & E)]]; rewrite E.
      * destruct (deletes_counted S [] new Hc) as [_ Hd].
        now rewrite count_deletes_app, Hd.
      * reflexivity.
      * destruct (deletes_counted S [] new Hc) as [_ Hd].
        now rewrite count_deletes_app, Hd.
  - rewrite assign_role_to_user_unfold.
    destruct (nth_error (split "/" S) 2); [|apply incl_refl].
    destruct (Spec.resolve_principal env P) as [p|]; [|apply incl_refl].
    destruct (fault env (events w) (CallList S)); [apply incl_refl|].
    cbv zeta. rewrite Hno. cbn [negb andb].
    destruct (_ && _); [apply incl_refl|].
    destruct (Spec.holds p _ _); [apply incl_refl|].
    destruct (fault env _ _) eqn:Hf; [apply incl_refl|].
    destruct (created_world env S _ target p _ _ Hf) as (Ha & _).
    cbv zeta in Ha. cbn [snd VaultRoleManager.remove_redundant ret].
    rewrite Ha. apply incl_appl, incl_refl.
Qed.

(** X12: when the provider answers the list call with an error, the vault
    reconciliation ends there, with no create and no delete call; its
    outcome is success when the error is a response whose message contains
    [already exists] or [PrincipalNotFound], and failure otherwise. *)
Theorem list_error_outcome (S target P p sub : string) (w : World) (e : Exn) :
  nth_error (split "/" S) 2 = Some sub ->
  Spec.resolve_principal env P = Some p ->
  fault env (events w) (CallList S) = Some e ->
  let r := VaultRoleManager.assign_role_to_user env S target P w in
  fst r = Spec.create_error_outcome e /\
  events_since w (snd r) = [ {| call := CallList S; raised := Some e |} ] /\
  assignments (snd r) = assignments w.
Proof.
  intros Hparts Hp Hl. cbv zeta.
  rewrite assign_role_to_user_unfold, Hparts, Hp, Hl. cbn [fst snd].
  rewrite events_since_record. split; [apply on_exception_outcome | now split].
Qed.

End VaultCalls.

Lemma vault_create_call_content_witness :
  let env := Scenario.environment Scenario.no_faults Scenario.caller in
  exists p,
    Spec.resolve_principal env "12345678123412341234123456789abc" = Some p /\
    VaultRoleManager._normalize_guid p = p /\
    CallCreate Scenario.vault_uri "assignment-" Scenario.owner_definition Scenario.caller
      "ServicePrincipal"
    = CallCreate Scenario.vault_uri (uuid4 env 0) Scenario.owner_definition p
        (VaultRoleManager._detect_principal_type env p).
Proof.
  cbv zeta.
  destruct (vault_create_call_content
              (Scenario.environment Scenario.no_faults Scenario.caller)
              Scenario.vault_uri Scenario.owner_definition
              "12345678123412341234123456789abc" (Scenario.world [])) as [_ H].
  apply (H {| call := CallCreate Scenario.vault_uri "assignment-"
                        Scenario.owner_definition Scenario.caller "ServicePrincipal";
              raised := None |}).
  - vm_compute. left. reflexivity.
  - reflexivity.
Defined.

Lemma only_owner_grant_deletes_witness :
  let env := Scenario.environment Scenario.no_faults Scenario.caller in
  let w := Scenario.world [Scenario.held "held-owner" Scenario.owner_definition] in
  let r := VaultRoleManager.assign_role_to_user env Scenario.vault_uri
             Scenario.admin_definition Scenario.caller w in
  Trace.count_deletes (events_since w (snd r)) = 0 /\
  incl (assignments w) (assignments (snd r)).
Proof.
  cbv zeta.
  apply (only_owner_grant_deletes
           (Scenario.environment Scenario.no_faults Scenario.caller)
           Scenario.vault_uri Scenario.admin_definition Scenario.caller
           (Scenario.world [Scenario.held "held-owner" Scenario.owner_definition])).
  vm_compute. reflexivity.
Defined.

Lemma list_error_outcome_witness :
  let env := Scenario.environment Trace.list_unavailable Scenario.caller in
  let r := VaultRoleManager.assign_role_to_user env Scenario.vault_uri
             Scenario.owner_definition Scenario.caller (Scenario.world []) in
  fst r = false /\ assignments (snd r) = [].
Proof.
  cbv zeta.
  destruct (list_error_outcome
              (Scenario.environment Trace.list_unavailable Scenario.caller)
              Scenario.vault_uri Scenario.owner_definition Scenario.caller
              Scenario.caller "test-subscription-id" (Scenario.world [])
              (HttpResponseError "(ServiceUnavailable) The service is unavailable")
              eq_refl eq_refl eq_refl) as (H1 & _ & H3).
  split; [exact H1 | exact H3].
Defined.

(** ** Owner, then Administrator *)

Section OwnerThenAdministrator.

Import PyStr Azure.
Local Open Scope list_scope.

Variable env : Env.

(** X13: after a vault reconciliation for the Owner role in which no provider
    call was answered with an error, the principal holds no other assignment
    at the scope, so the reconciliation for the Administrator role that
    follows issues exactly one create call, also when the principal held the
    Administrator assignment before the Owner grant. *)
Theorem administrator_created_after_owner_grant
    (S owner_target admin_target P p sub : string) (w : World) :
  nth_error (split "/" S) 2 = Some sub ->
  Spec.resolve_principal env P = Some p ->
  Spec.is_owner_role owner_target = true ->
  Spec.is_owner_role admin_target = false ->
  Spec.is_admin_role admin_target = true ->
  Spec.unique_names S (assignments w) ->
  ~ In (uuid4 env (uuid_draws w)) (map name (filter (at_scope S) (assignments w))) ->
  let r1 := VaultRoleManager.assign_role_to_user env S owner_target P w in
  Spec.no_error (events_since w (snd r1)) = true ->
  fault env (events (snd r1)) (CallList S) = None ->
  let r2 := VaultRoleManager.assign_role_to_user env S admin_target P (snd r1) in
  Spec.others p owner_target (filter (at_scope S) (assignments (snd r1))) = [] /\
  Spec.count_creates (events_since (snd r1) (snd r2)) = 1.
Proof.
  intros Hparts Hp Hown Hnown Hadm Huniq Hfresh r1 Hno Hlist r2.
  pose proof (vault_run_settles env S owner_target P p sub w Hparts Hp Huniq Hfresh Hno)
    as Hset.
  fold r1 in Hset.
  destruct Hset as [Hskip|[Hex Hoth]].
  { rewrite Hown in Hskip. discriminate. }
  specialize (Hoth Hown). split; [exact Hoth|].
  set (l1 := filter (at_scope S) (assignments (snd r1))) in *.
  assert (Hexact : Spec.holds p (fun r => String.eqb r admin_target) l1 = false).
  { unfold Spec.holds. destruct (existsb _ l1) eqn:E; [|reflexivity].
    apply existsb_exists in E as [a [Ha Hb]].
    apply andb_true_iff in Hb as [Hb1 Hb2]. apply String.eqb_eq in Hb2.
    assert (Hin : In a (Spec.others p owner_target l1)).
    { unfold Spec.others. apply filter_In. split; [exact Ha|].
      rewrite Hb1. cbn [andb]. apply negb_true_iff.
      destruct (String.eqb (role_definition_id a) owner_target) eqn:E; [|reflexivity].
      apply String.eqb_eq in E. congruence. }
    rewrite Hoth in Hin. destruct Hin. }
  subst r2. rewrite assign_role_to_user_unfold, Hparts, Hp, Hlist. cbv zeta.
  fold l1. rewrite Hnown, Hadm, Hexact. cbn [negb andb].
  rewrite andb_false_r.
  set (w1 := record (CallList S) None (snd r1)).
  set (pt := VaultRoleManager._detect_principal_type env p).
  set (n := uuid4 env (uuid_draws (snd r1))).
  destruct (fault env (events w1) (CallCreate S n admin_target p pt)) as [e|] eqn:Hf.
  - cbn [snd].
    rewrite (events_since_app (snd r1) _
               [ {| call := CallCreate S n admin_target p pt; raised := Some e |};
                 {| call := CallList S; raised := None |} ]) by reflexivity.
    reflexivity.
  - destruct (created_world env S n admin_target p pt w1 Hf) as (_ & He & _).
    cbv zeta in He. cbn [snd VaultRoleManager.remove_redundant ret].
    rewrite (events_since_app (snd r1) _
               [ {| call := CallCreate S n admin_target p pt; raised := None |};
                 {| call := CallList S; raised := None |} ]) by (now rewrite He).
    reflexivity.
Qed.

End OwnerThenAdministrator.

Lemma administrator_created_after_owner_grant_witness :
  let env := Scenario.environment Scenario.no_faults Scenario.caller in
  let w := Scenario.world [ Scenario.held "held-owner" Scenario.owner_definition;
                            Scenario.held "held-admin" Scenario.admin_definition ] in
  let r1 := VaultRoleManager.assign_role_to_user env Scenario.vault_uri
              Scenario.owner_definition Scenario.caller w in
  let r2 := VaultRoleManager.assign_role_to_user env Scenario.vault_uri
              Scenario.admin_definition Scenario.caller (snd r1) in
  Spec.count_creates (events_since (snd r1) (snd r2)) = 1.
Proof.
  cbv zeta.
  apply (administrator_created_after_owner_grant
           (Scenario.environment Scenario.no_faults Scenario.caller)
           Scenario.vault_uri Scenario.owner_definition Scenario.admin_definition
           Scenario.caller Scenario.caller "test-subscription-id"
           (Scenario.world [ Scenario.held "held-owner" Scenario.owner_definition;
                             Scenario.held "held-admin" Scenario.admin_definition ])).
  - reflexivity.
  - reflexivity.
  - vm_compute. reflexivity.
  - vm_compute. reflexivity.
  - vm_compute. reflexivity.
  - unfold Spec.unique_names. vm_compute.
    constructor; [intros [H|[]]; discriminate|].
    constructor; [intros []|constructor].
  - vm_compute. intros [H|[H|[]]]; discriminate.
  - vm_compute. reflexivity.
  - reflexivity.
Defined.

(** ** The storage cascade *)

Section Cascade.

Import PyStr Azure StorageRoleManager.
Local Open Scope list_scope.

Variable env : Env.

Lemma grows_refl (w : World) : Trace.grows w w.
Proof. split; [apply incl_refl | now exists []]. Qed.

Lemma grows_trans (w1 w2 w3 : World) :
  Trace.grows w1 w2 -> Trace.grows w2 w3 -> Trace.grows w1 w3.
Proof.
  intros [Hi1 (n1 & He1 & Hd1)] [Hi2 (n2 & He2 & Hd2)]. split.
  - eapply incl_tran; eassumption.
  - exists (n2 ++ n1). split; [rewrite He2, He1; apply app_assoc|].
    now rewrite count_deletes_app, Hd1, Hd2.
Qed.

Lemma grows_spec (w w' : World) :
  Trace.grows w w' ->
  Trace.count_deletes (events_since w w') = 0 /\ incl (assignments w) (assignments w').
Proof.
  intros [Hi (new & He & Hd)]. split; [|exact Hi].
  now rewrite (events_since_app w w' new He).
Qed.

Lemma storage_run_grows (S target P role_id : string) (w : World) :
  Trace.grows w (snd (_assign_role_to_storage_account env S target P role_id w)).
Proof.
  rewrite assign_role_to_storage_account_unfold.
  destruct (nth_error (split "/" S) 2); [|apply grows_refl].
  destruct (Spec.resolve_principal env P) as [p|]; [|apply grows_refl].
  destruct (fault env (events w) (CallList S)) as [e|].
  { split; [apply incl_refl|].
    now exists [ {| call := CallList S; raised := Some e |} ]. }
  cbv zeta. destruct (Spec.holds p _ _).
  { split; [apply incl_refl|].
    now exists [ {| call := CallList S; raised := None |} ]. }
  set (w1 := record (CallList S) None w).
  set (pt := _detect_principal_type env p).
  set (n := uuid4 env (uuid_draws w)).
  destruct (fault env (events w1) (CallCreate S n target p pt)) as [e|] eqn:Hf.
  - split; [apply incl_refl|].
    now exists [ {| call := CallCreate S n target p pt; raised := Some e |};
                 {| call := CallList S; raised := None |} ].
  - destruct (created_world env S n target p pt w1 Hf) as (Ha & He & _).
    cbv zeta in Ha, He. cbn [snd]. split.
    + rewrite Ha. apply incl_appl, incl_refl.
    + exists [ {| call := CallCreate S n target p pt; raised := None |};
               {| call := CallList S; raised := None |} ].
      split; [now rewrite He | reflexivity].
Qed.

Lemma assign_roles_of_account_grows (sid sname sub P : string) (roles : list string) :
  forall (results : PyDict.t (PyDict.t bool)) (w : World),
    Trace.grows w (snd (assign_roles_of_account env sid sname sub P roles results w)).
Proof.
  induction roles as [|role roles IH]; intros results w; [apply grows_refl|].
  cbn [assign_roles_of_account]. unfold bind at 1, lift.
  pose proof (storage_run_grows sid
                ("/subscriptions/" ++ sub ++
                 "/providers/Microsoft.Authorization/roleDefinitions/" ++ role)%string
                P role w) as H.
  destruct (_assign_role_to_storage_account env sid _ P role w) as [success w1].
  cbn [snd] in H. eapply grows_trans; [exact H | apply IH].
Qed.

Lemma assign_accounts_grows (P : string) (roles ids : list string) :
  forall (results : PyDict.t (PyDict.t bool)) (w : World),
    Trace.grows w (snd (assign_accounts env ids roles P results w)).
Proof.
  induction ids as [|id ids IH]; intros results w; [apply grows_refl|].
  cbn [assign_accounts]. cbv zeta. unfold bind at 1, index.
  destruct (nth_error (split "/" id) 2) as [sub|]; [|apply grows_refl].
  cbn [ret]. unfold bind at 1.
  pose proof (assign_roles_of_account_grows id (last_segment id) sub P roles
                (PyDict.set results (last_segment id) []) w) as H.
  destruct (assign_roles_of_account env id (last_segment id) sub P roles _ w)
    as [[ex|results1] w1]; cbn [snd] in H; [exact H|].
  eapply grows_trans; [exact H | apply IH].
Qed.

Lemma cascade_grows (ids : list string) (vault_role P : string) (w : World) :
  Trace.grows w (snd (assign_storage_roles_to_user env ids vault_role P w)).
Proof.
  unfold assign_storage_roles_to_user.
  destruct ids as [|id ids]; [apply grows_refl|].
  destruct (get_storage_role_assignments_for_vault_role vault_role);
    [apply grows_refl | apply assign_accounts_grows].
Qed.

(** X14: the storage cascade, however many accounts and roles it covers and
    whether it returns or raises, issues no delete call and removes no
    assignment from the store. *)
Theorem cascade_only_adds (ids : list string) (vault_role P : string) (w : World) :
  let w' := snd (assign_storage_roles_to_user env ids vault_role P w) in
  Trace.count_deletes (events_since w w') = 0 /\
  incl (assignments w) (assignments w').
Proof. apply grows_spec, cascade_grows. Qed.

(** X15: a storage identifier without a subscription segment at the head of
    the list makes the cascade raise [IndexError] rather than return, before
    any provider call, as soon as the vault role maps to storage roles. *)
Theorem cascade_raises_on_malformed_id (id : string) (ids : list string)
    (vault_role P : string) (w : World) :
  nth_error (split "/" id) 2 = None ->
  get_storage_role_assignments_for_vault_role vault_role <> [] ->
  assign_storage_roles_to_user env (id :: ids) vault_role P w
    = (inl (OtherException "list index out of range"), w).
Proof.
  intros Hid Hroles. unfold assign_storage_roles_to_user.
  destruct (get_storage_role_assignments_for_vault_role vault_role) as [|r roles];
    [contradiction|].
  cbn [assign_accounts]. cbv zeta. unfold bind, index. now rewrite Hid.
Qed.

End Cascade.

Lemma cascade_raises_on_malformed_id_witness :
  StorageRoleManager.assign_storage_roles_to_user
    (Scenario.environment Scenario.no_faults Scenario.caller)
    ["alpha"; Scenario.storage_uri "Vaults" "beta"] Scenario.owner_definition
    Scenario.caller (Scenario.world [])
  = (inl (OtherException "list index out of range"), Scenario.world []).
Proof.
  apply (cascade_raises_on_malformed_id
           (Scenario.environment Scenario.no_faults Scenario.caller)
           "alpha" [Scenario.storage_uri "Vaults" "beta"] Scenario.owner_definition
           Scenario.caller (Scenario.world [])).
  - reflexivity.
  - vm_compute. discriminate.
Defined.

(** ** The HTTP function, further *)

Section Processor.

Import PyStr Azure FunctionApp.
Local Open Scope list_scope.

Variable env : Env.

(** [assign_and_respond] in terms of the two vault reconciliations, the
    discovery and the cascade. *)
Lemma assign_and_respond_unfold (uri sub user : string) (creator : option string)
    (w : World) :
  let o := VaultRoleManager.assign_role_to_user env uri
             (role_definition sub VaultRoleManager.owner_role_id) user w in
  let a := VaultRoleManager.assign_role_to_user env uri
             (role_definition sub VaultRoleManager.admin_role_id) user (snd o) in
  let accounts := StorageRoleManager.discover_associated_storage_accounts env uri in
  let cascade :=
    match accounts with
    | [] => ret []
    | _ =>
        if fst o then
          StorageRoleManager.assign_storage_roles_to_user env accounts
            (role_definition sub VaultRoleManager.owner_role_id) user
        else if fst a then
          StorageRoleManager.assign_storage_roles_to_user env accounts
            (role_definition sub VaultRoleManager.admin_role_id) user
        else ret []
    end (snd a) in
  assign_and_respond env uri sub user creator w =
  match cascade with
  | (inl e, w3) => (inl e, w3)
  | (inr results, w3) =>
      let storage_success :=
        match accounts with [] => true | _ => all_succeeded results end in
      let success := fst o && fst a && storage_success in
      (inr {| status := if success then 200 else 500;
              body := ResultBody success (fst o) (fst a) uri user
                        (is_creator creator user)
                        {| discovered := List.length accounts;
                           storage_assignments := results;
                           storage_report_success := storage_success |} |},
       w3)
  end.
Proof.
  cbv zeta. unfold assign_and_respond. cbv zeta.
  unfold bind at 1, lift at 1, await at 1.
  change "8e3af657-a8ff-443c-a75c-2fe8c4bcb635" with VaultRoleManager.owner_role_id.
  change "00482a5a-887f-4fb3-b363-3b7fe8e74483" with VaultRoleManager.admin_role_id.
  destruct (VaultRoleManager.assign_role_to_user env uri
              (role_definition sub VaultRoleManager.owner_role_id) user w) as [o w1].
  cbn [fst snd].
  unfold bind at 1, lift at 1, await at 1.
  destruct (VaultRoleManager.assign_role_to_user env uri
              (role_definition sub VaultRoleManager.admin_role_id) user w1) as [a w2].
  cbn [fst snd]. unfold bind at 1, await.
  match goal with
  | |- match ?c with _ => _ end = _ => destruct c as [[ex|results] w3]
  end; [reflexivity|].
  match goal with
  | |- (if ?b then _ else _) w3 = _ => destruct b
  end; reflexivity.
Qed.

(** The requests that do not reach the managers are answered 400 or 401 in
    the world they found; the others name a resource and are processed. *)
Lemma processor_cases (req : Request) (w : World) :
  (exists code msg,
     (code = 400 \/ code = 401) /\
     direct_vault_rbac_processor env req w = (error code msg, w)) \/
  (exists uri sub user,
     Trace.requested_uri req = Some uri /\
     direct_vault_rbac_processor env req w =
     try_return (process env uri sub user)
       (fun ex => error 500 ("Internal server error: " ++ str ex)%string) w).
Proof.
  unfold direct_vault_rbac_processor, Trace.requested_uri.
  assert (Herr : forall code msg,
            code = 400 \/ code = 401 ->
            (exists code0 msg0,
               (code0 = 400 \/ code0 = 401) /\
               try_return (ret (error code msg))
                 (fun ex => error 500 ("Internal server error: " ++ str ex)%string) w
               = (error code0 msg0, w)) \/
            (exists uri sub user,
               match get_json req with
               | Some req_body => PyDict.get req_body "resourceUri"
               | None => None
               end = Some uri /\
               try_return (ret (error code msg))
                 (fun ex => error 500 ("Internal server error: " ++ str ex)%string) w
               = try_return (process env uri sub user)
                   (fun ex => error 500 ("Internal server error: " ++ str ex)%string) w)).
  { intros code msg Hc. left. exists code, msg. now split. }
  destruct (Authorization req) as [auth_header|]; [|apply Herr; auto].
  destruct (negb (PyStr.truthy auth_header) || _); [apply Herr; auto|].
  destruct (jwt_decode req) as [tok|]; [|apply Herr; auto].
  destruct (expired tok); [apply Herr; auto|].
  destruct (match oid tok with Some v => Some v | None => FunctionApp.sub tok end)
    as [user|]; [|apply Herr; auto].
  destruct (negb (PyStr.truthy user)); [apply Herr; auto|].
  destruct (get_json req) as [req_body|]; [|apply Herr; auto].
  destruct (PyDict.get req_body "resourceUri") as [uri|]; [|apply Herr; auto].
  destruct (PyDict.get req_body "subscriptionId") as [subscription|];
    [|apply Herr; auto].
  destruct (negb (PyStr.truthy uri) || _); [apply Herr; auto|].
  right. exists uri, subscription, user. now split.
Qed.

(** A processed request is answered 500 in the world it found when the
    managers cannot be built, and otherwise by [assign_and_respond] with no
    creator id, after the missing-tag warning. *)
Lemma processed_cases (uri sub user : string) (w : World) :
  let handled :=
    try_return (process env uri sub user)
      (fun ex => error 500 ("Internal server error: " ++ str ex)%string) w in
  (exists msg, handled = (error 500 msg, w)) \/
  handled =
    try_return (assign_and_respond env uri sub user None)
      (fun ex => error 500 ("Internal server error: " ++ str ex)%string)
      (snd (logging_warning "Vault does not have CreatedByID tag, cannot verify creator"
              w)).
Proof.
  cbv zeta. destruct (environ env) eqn:E.
  - right. unfold try_return. now rewrite (process_ignores_tags env uri sub user w E).
  - left. unfold try_return, process. rewrite E. cbn. eauto.
Qed.

End Processor.

Section ProcessorProperties.

Import PyStr Azure FunctionApp.
Local Open Scope list_scope.

Variable env : Env.

(** The response and world of a request that reaches [assign_and_respond],
    given the cascade's result. *)
Lemma handled_response (uri sub user : string) (creator : option string) (w : World) :
  let handled :=
    try_return (assign_and_respond env uri sub user creator)
      (fun ex => error 500 ("Internal server error: " ++ str ex)%string) w in
  let o := VaultRoleManager.assign_role_to_user env uri
             (role_definition sub VaultRoleManager.owner_role_id) user w in
  let a := VaultRoleManager.assign_role_to_user env uri
             (role_definition sub VaultRoleManager.admin_role_id) user (snd o) in
  Trace.grows (snd a) (snd handled) /\
  ((exists msg, fst handled = error 500 msg) \/
   exists report,
     let success := fst o && fst a && storage_report_success report in
     fst handled =
       {| status := if success then 200 else 500;
          body := ResultBody success (fst o) (fst a) uri user (is_creator creator user)
                    report |} /\
     discovered report
       = List.length (StorageRoleManager.discover_associated_storage_accounts env uri)).
Proof.
  cbv zeta. unfold try_return. rewrite assign_and_respond_unfold. cbv zeta.
  set (o := VaultRoleManager.assign_role_to_user env uri _ user w).
  set (a := VaultRoleManager.assign_role_to_user env uri _ user (snd o)).
  set (accounts := StorageRoleManager.discover_associated_storage_accounts env uri).
  set (cascade := match accounts with [] => ret [] | _ => _ end (snd a)).
  assert (Hg : Trace.grows (snd a) (snd cascade)).
  { subst cascade. destruct accounts; [apply grows_refl|].
    destruct (fst o); [apply cascade_grows|].
    destruct (fst a); [apply cascade_grows | apply grows_refl]. }
  destruct cascade as [[ex|results] w3]; cbn [fst snd] in *.
  - split; [exact Hg|]. left. eauto.
  - split; [exact Hg|]. right.
    exists {| discovered := List.length accounts;
              storage_assignments := results;
              storage_report_success :=
                match accounts with [] => true | _ => all_succeeded results end |}.
    split; reflexivity.
Qed.

(** X16: every response of the HTTP function carries one of the statuses
    200, 400, 401 and 500. *)
Theorem responses_have_four_statuses (req : Request) (w : World) :
  In (status (fst (direct_vault_rbac_processor env req w))) Trace.statuses.
Proof.
  destruct (processor_cases env req w)
    as [(code & msg & Hc & E)|(uri & sub & user & _ & E)]; rewrite E.
  - cbn. destruct Hc as [-> | ->]; auto.
  - destruct (processed_cases env uri sub user w) as [[msg E2]|E2]; cbv zeta in E2;
      rewrite E2.
    + cbn. auto.
    + destruct (handled_response uri sub user None
                  (snd (logging_warning
                          "Vault does not have CreatedByID tag, cannot verify creator" w)))
        as [_ [[msg H]|(report & H & _)]]; cbv zeta in H; rewrite H.
      * cbn. auto.
      * cbn [status]. destruct (_ && _ && _); cbn; auto.
Qed.

(** X17: a request answered 400 or 401 has caused no provider call, no
    identifier draw, no warning and no change of the store. *)
Theorem rejected_requests_touch_nothing (req : Request) (w : World) :
  let r := direct_vault_rbac_processor env req w in
  status (fst r) = 400 \/ status (fst r) = 401 ->
  snd r = w.
Proof.
  cbv zeta.
  destruct (processor_cases env req w)
    as [(code & msg & Hc & E)|(uri & sub & user & _ & E)]; rewrite E.
  - reflexivity.
  - destruct (processed_cases env uri sub user w) as [[msg E2]|E2]; cbv zeta in E2;
      rewrite E2.
    + reflexivity.
    + destruct (handled_response uri sub user None
                  (snd (logging_warning
                          "Vault does not have CreatedByID tag, cannot verify creator" w)))
        as [_ [[msg H]|(report & H & _)]]; cbv zeta in H; rewrite H.
      * cbn. intros [?|?]; discriminate.
      * cbn [status]. destruct (_ && _ && _); intros [?|?]; discriminate.
Qed.

(** X18: a response that reports role assignments is coherent: its overall
    success is the conjunction of the Owner outcome, the Administrator
    outcome and the storage flag, its status is 200 exactly when that holds
    and 500 otherwise, it is for the resource the request names, and its
    [isCreator] field is null; an error response never has status 200, and
    no response is the authorization refusal. *)
Theorem result_body_coherent (req : Request) (w : World) :
  let resp := fst (direct_vault_rbac_processor env req w) in
  match body resp with
  | ResultBody success ownerRoleAssigned adminRoleAssigned resourceUri userId isCreator
      storageAccounts =>
      success = ownerRoleAssigned && adminRoleAssigned
                && storage_report_success storageAccounts /\
      status resp = (if success then 200 else 500) /\
      Trace.requested_uri req = Some resourceUri /\
      isCreator = JNull
  | ErrorBody _ => status resp <> 200
  | UnauthorizedBody _ _ _ => False
  end.
Proof.
  cbv zeta.
  destruct (processor_cases env req w)
    as [(code & msg & Hc & E)|(uri & sub & user & Huri & E)]; rewrite E.
  - cbn. destruct Hc as [-> | ->]; discriminate.
  - destruct (processed_cases env uri sub user w) as [[msg E2]|E2]; cbv zeta in E2;
      rewrite E2.
    + cbn. discriminate.
    + destruct (handled_response uri sub user None
                  (snd (logging_warning
                          "Vault does not have CreatedByID tag, cannot verify creator" w)))
        as [_ [[msg H]|(report & H & _)]]; cbv zeta in H; rewrite H.
      * cbn. discriminate.
      * cbn [body status]. repeat split. exact Huri.
Qed.

(** X19: when both vault reconciliations fail, no storage reconciliation is
    attempted: the response is 500, lists no storage assignment and still
    reports the storage flag as true, with the number of discovered accounts. *)
Theorem cascade_skipped_when_both_fail (uri sub user : string)
    (creator : option string) (w : World) :
  let o := VaultRoleManager.assign_role_to_user env uri
             (role_definition sub VaultRoleManager.owner_role_id) user w in
  let a := VaultRoleManager.assign_role_to_user env uri
             (role_definition sub VaultRoleManager.admin_role_id) user (snd o) in
  fst o = false -> fst a = false ->
  assign_and_respond env uri sub user creator w =
  (inr {| status := 500;
          body := ResultBody false false false uri user (is_creator creator user)
                    {| discovered :=
                         List.length
                           (StorageRoleManager.discover_associated_storage_accounts env uri);
                       storage_assignments := [];
                       storage_report_success := true |} |},
   snd a).
Proof.
  intros o a Ho Ha. rewrite assign_and_respond_unfold. cbv zeta.
  fold o. fold a. rewrite Ho, Ha.
  destruct (StorageRoleManager.discover_associated_storage_accounts env uri);
    reflexivity.
Qed.

(** X20: the HTTP function removes no role assignment outside the scope the
    request names: every assignment of another scope that was in the store
    is still there afterwards, whatever the provider answers. *)
Theorem processor_removes_only_at_vault_scope (req : Request) (w : World)
    (x : RoleAssignment) :
  In x (assignments w) ->
  (forall uri, Trace.requested_uri req = Some uri -> at_scope uri x = false) ->
  In x (assignments (snd (direct_vault_rbac_processor env req w))).
Proof.
  intros Hx Hscope.
  destruct (processor_cases env req w)
    as [(code & msg & Hc & E)|(uri & sub & user & Huri & E)]; rewrite E.
  - exact Hx.
  - destruct (processed_cases env uri sub user w) as [[msg E2]|E2]; cbv zeta in E2;
      rewrite E2; [exact Hx|].
    set (w0 := snd (logging_warning _ w)).
    destruct (handled_response uri sub user None w0) as [[Hincl _] _].
    apply Hincl.
    set (o := VaultRoleManager.assign_role_to_user env uri
                (role_definition sub VaultRoleManager.owner_role_id) user w0).
    assert (Hin : In x (Trace.elsewhere uri (assignments w0))).
    { apply filter_In. split; [exact Hx|]. now rewrite (Hscope uri Huri). }
    rewrite <- (vault_run_elsewhere env uri
                  (role_definition sub VaultRoleManager.owner_role_id) user w0) in Hin.
    fold o in Hin.
    rewrite <- (vault_run_elsewhere env uri
                  (role_definition sub VaultRoleManager.admin_role_id) user (snd o)) in Hin.
    now apply filter_In in Hin.
Qed.

End ProcessorProperties.

Lemma rejected_requests_touch_nothing_witness :
  let req := {| FunctionApp.Authorization := Some "Basic dXNlcjpwYXNz";
                FunctionApp.jwt_decode := None;
                FunctionApp.get_json := None |} in
  let w := Scenario.world [Scenario.held "held-admin" Scenario.admin_definition] in
  snd (FunctionApp.direct_vault_rbac_processor
         (Scenario.environment Scenario.no_faults Scenario.caller) req w) = w.
Proof.
  cbv zeta.
  apply (rejected_requests_touch_nothing
           (Scenario.environment Scenario.no_faults Scenario.caller)).
  right. reflexivity.
Defined.

Lemma cascade_skipped_when_both_fail_witness :
  let env := Scenario.environment Scenario.forbidden Scenario.caller in
  exists w',
    FunctionApp.assign_and_respond env Scenario.vault_uri "test-subscription-id"
      Scenario.caller None (Scenario.world [])
    = (inr {| FunctionApp.status := 500;
              FunctionApp.body :=
                FunctionApp.ResultBody false false false Scenario.vault_uri Scenario.caller
                  FunctionApp.JNull
                  {| FunctionApp.discovered := 3;
                     FunctionApp.storage_assignments := [];
                     FunctionApp.storage_report_success := true |} |},
       w').
Proof.
  cbv zeta. eexists.
  apply (cascade_skipped_when_both_fail
           (Scenario.environment Scenario.forbidden Scenario.caller)
           Scenario.vault_uri "test-subscription-id" Scenario.caller None
           (Scenario.world [])).
  - vm_compute. reflexivity.
  - vm_compute. reflexivity.
Defined.

Lemma processor_removes_only_at_vault_scope_witness :
  let x := {| name := "elsewhere"; scope := Scenario.storage_uri "Vaults" "alpha";
              role_definition_id := Scenario.admin_definition;
              principal_id := Scenario.caller; principal_type := "User" |} in
  In x (assignments
          (snd (FunctionApp.direct_vault_rbac_processor
                  (Scenario.environment Scenario.no_faults Scenario.caller)
                  Scenario.request
                  (Scenario.world [x; Scenario.held "held-admin" Scenario.admin_definition])))).
Proof.
  cbv zeta.
  apply (processor_removes_only_at_vault_scope
           (Scenario.environment Scenario.no_faults Scenario.caller)).
  - left. reflexivity.
  - intros uri H. vm_compute in H. injection H as <-. reflexivity.
Defined.

(** ** The custom-role lookup *)

Section CustomRole.

Import PyStr Azure VaultRoleManager.

Variable role_definitions_list : string -> option (list RoleDefinition).

(** X21: [create_or_get_custom_role] answers nothing exactly when the vault
    identifier has no subscription segment or the listing raises; otherwise
    it answers the identifier of a listed role with the requested name or,
    when no listed role has that name, a definition id that the reconciler
    and the role mapping both treat as the Owner role. *)
Theorem custom_role_falls_back_to_owner (vault_resource_id role_name0 : string) :
  (create_or_get_custom_role role_definitions_list vault_resource_id role_name0 = None <->
     nth_error (split "/" vault_resource_id) 2 = None \/
     role_definitions_list vault_resource_id = None) /\
  (forall r,
     create_or_get_custom_role role_definitions_list vault_resource_id role_name0 = Some r ->
     exists role_definitions,
       role_definitions_list vault_resource_id = Some role_definitions /\
       ((exists role_def, In role_def role_definitions /\
                          role_name role_def = role_name0 /\
                          r = role_definition_resource_id role_def) \/
        ((forall role_def, In role_def role_definitions ->
                           role_name role_def <> role_name0) /\
         Spec.is_owner_role r = true /\
         StorageRoleManager.get_storage_role_assignments_for_vault_role r
           = [ StorageRoleManager.STORAGE_ACCOUNT_CONTRIBUTOR_ROLE_ID;
               StorageRoleManager.STORAGE_BLOB_DATA_OWNER_ROLE_ID ]))).
Proof.
  unfold create_or_get_custom_role.
  destruct (nth_error (split "/" vault_resource_id) 2) as [sub|].
  2:{ split; [split; auto | discriminate]. }
  destruct (role_definitions_list vault_resource_id) as [defs|].
  2:{ split; [split; auto | discriminate]. }
  destruct (find _ defs) as [rd|] eqn:E.
  - split; [split; [discriminate | intros [H|H]; discriminate]|].
    intros r H. injection H as <-. exists defs. split; [reflexivity|]. left.
    apply find_some in E as [Hin Hn]. apply String.eqb_eq in Hn. now exists rd.
  - cbv zeta. split; [split; [discriminate | intros [H|H]; discriminate]|].
    intros r H. injection H as <-. exists defs. split; [reflexivity|]. right.
    split.
    + intros rd Hin Hn. pose proof (find_none _ _ E rd Hin) as Hf. cbv beta in Hf.
      rewrite Hn, String.eqb_refl in Hf. discriminate.
    + split.
      * apply (owner_role_definition_contains sub).
      * apply (storage_roles_for_owner_definition sub).
Qed.

End CustomRole.

Lemma custom_role_falls_back_to_owner_witness :
  exists role_definitions,
    Some [ {| VaultRoleManager.role_definition_resource_id := "/providers/Microsoft.Authorization/roleDefinitions/acdd72a7-3385-48ef-bd42-f606fba81ae7";
              VaultRoleManager.role_name := "Reader" |} ] = Some role_definitions /\
    ((exists role_def, In role_def role_definitions /\
                       VaultRoleManager.role_name role_def = "Vault Manager" /\
                       Scenario.owner_definition
                         = VaultRoleManager.role_definition_resource_id role_def) \/
     ((forall role_def, In role_def role_definitions ->
                        VaultRoleManager.role_name role_def <> "Vault Manager") /\
      Spec.is_owner_role Scenario.owner_definition = true /\
      StorageRoleManager.get_storage_role_assignments_for_vault_role
        Scenario.owner_definition
        = [ StorageRoleManager.STORAGE_ACCOUNT_CONTRIBUTOR_ROLE_ID;
            StorageRoleManager.STORAGE_BLOB_DATA_OWNER_ROLE_ID ])).
Proof.
  destruct (custom_role_falls_back_to_owner
              (fun _ => Some [ {| VaultRoleManager.role_definition_resource_id := "/providers/Microsoft.Authorization/roleDefinitions/acdd72a7-3385-48ef-bd42-f606fba81ae7";
                                  VaultRoleManager.role_name := "Reader" |} ])
              Scenario.vault_uri "Vault Manager") as [_ H].
  apply (H Scenario.owner_definition). reflexivity.
Defined.
